(** * Message-send orchestration: a model of [internal/api/msg.go]

    The handlers of [MessageApi] are embedded as state-passing functions over
    a [World] that holds the state behind the RPC clients, the package-level
    descriptor cache and the log of the calls a handler makes.  The
    functions the file calls and does not define (the RPC clients, the
    binding of request bodies, the JSON and base64 codecs, the ID generator,
    the notification options) and the protocol's descriptor tables are
    fields of the environment record [Env]: the theorems hold for whatever
    they are.  What a run reads from the clock, and what the ID generator
    reads from the clock and the random source at its call, are arguments
    of the handlers.  The structures and constants the file uses and does
    not declare are written out here. *)

From Stdlib Require Import ZArith List Lia.
From stdpp Require Import gmap strings list pretty.

Local Open Scope string_scope.

(** Modelled from the spec: the constants of the protocol's [constant]
    package, which is not part of the file: content types, message origins,
    session types, the admin platform, the delivery status, and the keys of
    the option flag set.  The handlers only compare them with each other. *)
Module constant.
Definition Text : Z := 101.
Definition Picture : Z := 102.
Definition Voice : Z := 103.
Definition Video : Z := 104.
Definition File : Z := 105.
Definition AtText : Z := 106.
Definition Custom : Z := 110.
Definition MarkdownText : Z := 118.
Definition OANotification : Z := 1400.
Definition BusinessNotification : Z := 2001.

Definition UserMsgType : Z := 100.
Definition SysMsgType : Z := 200.

Definition SingleChatType : Z := 1.
Definition ReadGroupChatType : Z := 3.
Definition NotificationChatType : Z := 4.

Definition AdminPlatformID : Z := 10.
Definition MsgSendSuccessed : Z := 2.

Definition IsHistory : string := "history".
Definition IsPersistent : string := "persistent".
Definition IsOfflinePush : string := "offlinePush".
Definition IsConversationUpdate : string := "conversationUpdate".
Definition IsSenderSync : string := "senderSync".
End constant.

(** ** Errors.  [ErrArgs detail] is [errs.ErrArgs.WithDetail(detail)] (the
    bare [errs.ErrArgs] has no detail) and [ErrNoPermission] is
    [errs.ErrNoPermission]; [ErrExternal] is an error value made outside the
    file, by its text; [ErrWrap e msg] is [errs.WrapMsg(e, msg)]. *)
Inductive Error : Type :=
| ErrArgs (detail : string)
| ErrNoPermission
| ErrExternal (text : string)
| ErrWrap (e : Error) (msg : string).

#[global] Instance Error_eq_dec : EqDecision Error.
Proof. solve_decision. Defined.

(** A Go [[]byte] is a sequence of octets, and so is a Go string: both are
    [string] here, and the conversions between them are the identity. *)
Definition bytes : Type := string.

(** Modelled from the spec: the wire structures of the protocol
    ([sdkws.OfflinePushInfo], [sdkws.MsgData], [msg.SendMsgResp]), whose
    declarations are not part of the file.  The fields are those of the
    canonical envelope and of the acknowledgment, under the names the file
    uses for them. *)
Module OfflinePushInfo.
Record t : Type := mk {
  Title : string;
  Desc : string;
  Ex : string;
  IOSPushSound : string;
  IOSBadgeCount : bool;
  SignalInfo : string
}.
Definition zero : t := mk "" "" "" "" false "".
#[global] Instance eq_dec : EqDecision t.
Proof. solve_decision. Defined.
End OfflinePushInfo.

Module MsgData.
Record t : Type := mk {
  SendID : string;
  RecvID : string;
  GroupID : string;
  ClientMsgID : string;
  ServerMsgID : string;
  SenderPlatformID : Z;
  SenderNickname : string;
  SenderFaceURL : string;
  SessionType : Z;
  MsgFrom : Z;
  ContentType : Z;
  Content : bytes;
  Seq : Z;
  SendTime : Z;
  CreateTime : Z;
  Status : Z;
  IsRead : bool;
  Options : gmap string bool;
  OfflinePushInfo : option OfflinePushInfo.t;
  AtUserIDList : list string;
  AttachedInfo : string;
  Ex : string
}.

(** The zero value of the struct: what a composite literal leaves in the
    fields it does not name. *)
Definition zero : t :=
  mk "" "" "" "" "" 0 "" "" 0 0 0 "" 0 0 0 0 false ∅ None [] "" "".

(** [m.RecvID = r]. *)
Definition set_RecvID (r : string) (m : t) : t :=
  mk (SendID m) r (GroupID m) (ClientMsgID m) (ServerMsgID m)
     (SenderPlatformID m) (SenderNickname m) (SenderFaceURL m)
     (SessionType m) (MsgFrom m) (ContentType m) (Content m) (Seq m)
     (SendTime m) (CreateTime m) (Status m) (IsRead m) (Options m)
     (OfflinePushInfo m) (AtUserIDList m) (AttachedInfo m) (Ex m).
End MsgData.

Module SendMsgResp.
Record t : Type := mk {
  ServerMsgID : string;
  ClientMsgID : string;
  SendTime : Z;
  Modify : option MsgData.t
}.
End SendMsgResp.

(** ** Protobuf reflection, as far as the diff uses it. *)

(** Modelled from the spec: [protoreflect.Value] for the kinds of field the
    envelope has; the reflection library is not part of the file. *)
Inductive Value : Type :=
| VBool (b : bool)
| VInt32 (n : Z)
| VInt64 (n : Z)
| VString (s : string)
| VBytes (bs : bytes)
| VList (l : list string)
| VMap (m : gmap string bool)
| VMessage (m : option OfflinePushInfo.t)
| VInvalid.

#[global] Instance Value_eq_dec : EqDecision Value.
Proof. solve_decision. Defined.

(** A message-typed field that is not set reads as the empty message, and
    two messages are equal when their populated fields agree: a nil message
    and an empty one do not differ. *)
Definition populated (v : Value) : Value :=
  match v with
  | VMessage None => VMessage (Some OfflinePushInfo.zero)
  | _ => v
  end.

(** [v1.Equal(v2)]: structural equality of the two values. *)
Definition Value_Equal (v1 v2 : Value) : bool :=
  bool_decide (populated v1 = populated v2).

(** [protoreflect.FieldDescriptor]: the field's number in its message, and
    its JSON name when it has one. *)
Record FieldDescriptor : Type := mkFD {
  Number : Z;
  HasJSONName : bool;
  JSONName : string
}.

#[global] Instance FieldDescriptor_eq_dec : EqDecision FieldDescriptor.
Proof. solve_decision. Defined.

(** [m.ProtoReflect().Get(fd)] on a [MsgData], by the field numbers of the
    protocol's message. *)
Definition ProtoGet (m : MsgData.t) (fd : FieldDescriptor) : Value :=
  match Number fd with
  | 1 => VString (MsgData.SendID m)
  | 2 => VString (MsgData.RecvID m)
  | 3 => VString (MsgData.GroupID m)
  | 4 => VString (MsgData.ClientMsgID m)
  | 5 => VString (MsgData.ServerMsgID m)
  | 6 => VInt32 (MsgData.SenderPlatformID m)
  | 7 => VString (MsgData.SenderNickname m)
  | 8 => VString (MsgData.SenderFaceURL m)
  | 9 => VInt32 (MsgData.SessionType m)
  | 10 => VInt32 (MsgData.MsgFrom m)
  | 11 => VInt32 (MsgData.ContentType m)
  | 12 => VBytes (MsgData.Content m)
  | 14 => VInt64 (MsgData.Seq m)
  | 15 => VInt64 (MsgData.SendTime m)
  | 16 => VInt64 (MsgData.CreateTime m)
  | 17 => VInt32 (MsgData.Status m)
  | 18 => VBool (MsgData.IsRead m)
  | 19 => VMap (MsgData.Options m)
  | 20 => VMessage (MsgData.OfflinePushInfo m)
  | 21 => VList (MsgData.AtUserIDList m)
  | 22 => VString (MsgData.AttachedInfo m)
  | 23 => VString (MsgData.Ex m)
  | _ => VInvalid
  end%Z.

(** The first loop of [getMsgDataDescriptor]: the JSON names of the
    response structure's fields. *)
Definition skipSet (respFields : list FieldDescriptor) : gset string :=
  foldl (fun skip field =>
           if HasJSONName field then {[ JSONName field ]} ∪ skip else skip)
        ∅ respFields.

(** The second loop: the fields of [MsgData] that have a JSON name outside
    the skip set, in declaration order. *)
Definition deriveMsgDataDescriptor
    (respFields fields : list FieldDescriptor) : list FieldDescriptor :=
  let skip := skipSet respFields in
  foldl (fun acc field =>
           if negb (HasJSONName field) then acc
           else if bool_decide (JSONName field ∈ skip) then acc
           else (acc ++ [field])%list)
        [] fields.

(** The loop of [getModifyFields] over a descriptor list: a field whose
    values differ is recorded under its JSON name with the response's value,
    the content bytes rendered as a string. *)
Definition modifyStep (req resp : MsgData.t)
    (fields : gmap string Value) (descriptor : FieldDescriptor)
    : gmap string Value :=
  let reqValue := ProtoGet req descriptor in
  let respValue := ProtoGet resp descriptor in
  if negb (Value_Equal reqValue respValue) then
    let name := JSONName descriptor in
    let val :=
      if bool_decide (name = "content") then
        match respValue with VBytes bs => VString bs | v => v end
      else respValue in
    <[name := val]> fields
  else fields.

Definition modifyLoop (descriptors : list FieldDescriptor)
    (req resp : MsgData.t) : gmap string Value :=
  foldl (modifyStep req resp) ∅ descriptors.

(** [if len(fields) == 0 { fields = nil }]: [None] is the nil map. *)
Definition nilIfEmpty (fields : gmap string Value) : option (gmap string Value) :=
  if bool_decide (fields = ∅) then None else Some fields.

(** ** Request and response structures of the API.

    Modelled from the spec: the structures of [pkg/apistruct], whose
    declarations are not part of the file; each has the fields the file
    reads or writes. *)

(** A decoded JSON value (Go's [any] after decoding); a number keeps its
    literal. *)
#[local] Unset Elimination Schemes.
Inductive Any : Type :=
| ANull
| ABool (b : bool)
| ANumber (literal : string)
| AString (s : string)
| AArray (l : list Any)
| AObject (fields : list (string * Any)).
#[local] Set Elimination Schemes.

(** [map[string]any], the raw content of a message. *)
Definition ContentMap : Type := list (string * Any).

(** The element structures the content of a message is decoded into.  The
    file reads one thing from a decoded element: whether it is an [AtElem],
    and then its [AtUserList]. *)
Inductive ElemKind : Type :=
| TextElem | PictureElem | SoundElem | VideoElem | FileElem
| AtElem | CustomElem | MarkdownTextElem | OANotificationElem.

#[global] Instance ElemKind_eq_dec : EqDecision ElemKind.
Proof. solve_decision. Defined.

Module Elem.
Record t : Type := mk {
  Kind : ElemKind;
  AtUserList : list string
}.
End Elem.

Module SendMsg.
Record t : Type := mk {
  SendID : string;
  GroupID : string;
  SenderNickname : string;
  SenderFaceURL : string;
  SenderPlatformID : Z;
  Content : ContentMap;
  ContentType : Z;
  SessionType : Z;
  IsOnlineOnly : bool;
  NotOfflinePush : bool;
  SendTime : Z;
  OfflinePushInfo : option OfflinePushInfo.t;
  Ex : string
}.

(** [req.SessionType = s] on the handler's copy of the request. *)
Definition set_SessionType (s : Z) (p : t) : t :=
  mk (SendID p) (GroupID p) (SenderNickname p) (SenderFaceURL p)
     (SenderPlatformID p) (Content p) (ContentType p) s (IsOnlineOnly p)
     (NotOfflinePush p) (SendTime p) (OfflinePushInfo p) (Ex p).
End SendMsg.

Module SendMsgReq.
Record t : Type := mk {
  RecvID : string;
  SendMsg : SendMsg.t
}.
End SendMsgReq.

Module BatchSendMsgReq.
Record t : Type := mk {
  SendMsg : SendMsg.t;
  IsSendAll : bool;
  RecvIDs : list string
}.
End BatchSendMsgReq.

Module SendSingleMsgReq.
Record t : Type := mk {
  SendID : string;
  Content : string;
  OfflinePushInfo : option OfflinePushInfo.t;
  Ex : string
}.
End SendSingleMsgReq.

Module KeyMsgData.
Record t : Type := mk {
  SendID : string;
  RecvID : string;
  GroupID : string
}.
End KeyMsgData.

(** The anonymous request structure of [SendBusinessNotification]. *)
Module BusinessNotificationReq.
Record t : Type := mk {
  Key : string;
  Data : string;
  SendUserID : string;
  RecvUserID : string;
  RecvGroupID : string;
  SendMsg : bool;
  ReliabilityLevel : option Z
}.
End BusinessNotificationReq.

Module NotificationConfig.
Record t : Type := mk {
  IsSendMsg : bool;
  ReliabilityLevel : Z;
  UnreadCount : bool
}.
End NotificationConfig.

Module SingleReturnResult.
Record t : Type := mk {
  ServerMsgID : string;
  ClientMsgID : string;
  SendTime : Z;
  RecvID : string;
  Modify : option (gmap string Value)
}.
End SingleReturnResult.

Module BatchSendMsgResp.
Record t : Type := mk {
  Results : list SingleReturnResult.t;
  FailedIDs : list string
}.
End BatchSendMsgResp.

(** [apistruct.SendMsgResp]: the backend's response with its [Modify]
    cleared, and the diff. *)
Module ApiSendMsgResp.
Record t : Type := mk {
  SendMsgResp : SendMsgResp.t;
  Modify : option (gmap string Value)
}.
End ApiSendMsgResp.

(** ** The request context ([gin.Context]) as the handlers read it: the
    query parameters, the body, the answer of the privileged-caller check
    ([authverify.IsAdmin], [authverify.CheckAdmin]) and the operating user
    ([mcontext.GetOpUserID]). *)
Module Context.
Record t : Type := mk {
  Query : gmap string string;
  Body : string;
  IsAdmin : bool;
  OpUserID : string
}.
End Context.

Module webhook.
Definition Key : string := "key".
End webhook.

(** What a handler writes to the response. *)
Inductive Response (R : Type) : Type :=
| GinError (e : Error)
| GinSuccess (r : R).
Arguments GinError {R} e.
Arguments GinSuccess {R} r.

(** ** The environment: everything the file calls and does not define.
    A Go result [(v, err)] is [inr v] or [inl err]; an error that the file
    only reads through [err.Error()] is its text. *)
Record Env : Type := mkEnv {
  (** the state of the services behind the RPC clients *)
  Services : Type;
  (** [msg.MsgClient] *)
  rpcSendMsg : MsgData.t -> Services -> Services * (Error + SendMsgResp.t);
  rpcSendSimpleMsg : MsgData.t -> Services -> Services * (Error + SendMsgResp.t);
  rpcSetSendMsgStatus : Z -> Services -> Services * option Error;
  (** [rpcli.UserClient] *)
  rpcGetAllUserIDs : Z -> Z -> Services -> Services * (Error + list string);
  rpcGetNotificationByID : string -> Services -> Services * option Error;
  (** [c.BindJSON] at the four request structures *)
  bindSendMsgReq : string -> string + SendMsgReq.t;
  bindBatchSendMsgReq : string -> string + BatchSendMsgReq.t;
  bindSendSingleMsgReq : string -> string + SendSingleMsgReq.t;
  bindBusinessNotificationReq : string -> string + BusinessNotificationReq.t;
  (** [base64.StdEncoding.DecodeString], [json.Unmarshal] into a [KeyMsgData] *)
  base64DecodeString : string -> string + bytes;
  jsonUnmarshalKeyMsgData : bytes -> string + KeyMsgData.t;
  (** [mapstructure.WeakDecode] into a fresh element, [validate.Struct] *)
  WeakDecode : ContentMap -> ElemKind -> string + Elem.t;
  validateStruct : Elem.t -> option string;
  (** [jsonutil.StructToJsonString] at the three structures it is applied to,
      and [jsonutil.JsonMarshal] of a [MarkdownTextElem] *)
  contentToJsonString : ContentMap -> string;
  notificationElemToJsonString : string -> string;
  keyDataToJsonString : string -> string -> string;
  JsonMarshalMarkdownTextElem : string -> Error + bytes;
  (** [idutil.GetMsgIDByMD5], of the tools library: it digests its argument
      together with the time and a random number, both read at the call; an
      [Entropy] is what one call reads there *)
  Entropy : Type;
  GetMsgIDByMD5 : Entropy -> string -> string;
  (** [config.GetOptionsByNotification(cfg, nil)] *)
  GetOptionsByNotification : NotificationConfig.t -> gmap string bool;
  (** the descriptors of [msg.SendMsgResp] and of [sdkws.MsgData] *)
  SendMsgResp_Fields : list FieldDescriptor;
  MsgData_Fields : list FieldDescriptor
}.

(** The calls a handler makes, in the order it makes them. *)
Inductive Event : Type :=
| EvBindJSON
| EvBase64Decode (s : string)
| EvUnmarshalKey (bs : bytes)
| EvJsonMarshal (content : string)
| EvGetNotificationByID (id : string)
| EvGetAllUserIDs (pageNumber showNumber : Z)
| EvSendMsg (m : MsgData.t)
| EvSendSimpleMsg (m : MsgData.t)
| EvSetSendMsgStatus (status : Z)
| EvDeriveDescriptor.

(** Modelled from the spec: [datautil.SetSwitchFromOptions], a helper of the
    tools library, which is not part of the file.  It writes the named
    switch of the option flag set, [options[key] = value], and leaves every
    other key as it is. *)
Definition SetSwitchFromOptions
    (options : gmap string bool) (key : string) (value : bool)
    : gmap string bool :=
  <[key := value]> options.

(** [MessageApi.SetOptions]. *)
Definition SetOptions (options : gmap string bool) (value : bool)
    : gmap string bool :=
  let options := SetSwitchFromOptions options constant.IsHistory value in
  let options := SetSwitchFromOptions options constant.IsPersistent value in
  let options := SetSwitchFromOptions options constant.IsSenderSync value in
  SetSwitchFromOptions options constant.IsConversationUpdate value.

(** The two toggles of [newUserSendMsgReq] (its two [if]s on
    [params.IsOnlineOnly] and [params.NotOfflinePush]), applied to an option
    flag set. *)
Definition applyToggles (options : gmap string bool)
    (isOnlineOnly notOfflinePush : bool) : gmap string bool :=
  let options := if isOnlineOnly then SetOptions options false else options in
  if notOfflinePush then
    SetSwitchFromOptions options constant.IsOfflinePush false
  else options.

(** An [int32] after an arithmetic operation: the value wraps around. *)
Definition wrap32 (z : Z) : Z := ((z + 2 ^ 31) mod 2 ^ 32 - 2 ^ 31)%Z.

(** [const showNumber = 500] of [BatchSendMsg]. *)
Definition showNumber : Z := 500.

Section Api.

Variable E : Env.

(** ** The state a handler runs in: the services behind the clients, the two
    package-level variables of the descriptor cache, and the call log. *)
Record World : Type := mkWorld {
  services : Services E;
  msgDataDescriptor : list FieldDescriptor;
  msgDataDescriptorOnce : bool;
  calls : list Event
}.

(** The state of a process that has served no request yet. *)
Definition initWorld (s : Services E) : World := mkWorld s [] false [].

Definition addCall (ev : Event) (w : World) : World :=
  mkWorld (services w) (msgDataDescriptor w) (msgDataDescriptorOnce w)
          (calls w ++ [ev])%list.

Definition setServices (s : Services E) (w : World) : World :=
  mkWorld s (msgDataDescriptor w) (msgDataDescriptorOnce w) (calls w).

(** ** Handler steps: a step changes the world and either fails with the
    error the handler reports, or goes on with a value. *)
Definition M (A : Type) : Type := World -> World * (Error + A).

Definition ret {A : Type} (a : A) : M A := fun w => (w, inr a).

Definition throw {A : Type} (e : Error) : M A := fun w => (w, inl e).

Definition bind {A B : Type} (m : M A) (k : A -> M B) : M B :=
  fun w =>
    match m w with
    | (w', inl e) => (w', inl e)
    | (w', inr a) => k a w'
    end.

Notation "x <- m ;; k" := (bind m (fun x => k))
  (at level 100, m at next level, right associativity).

(** A step that cannot fail. *)
Definition lift {A : Type} (f : World -> World * A) : M A :=
  fun w => let (w', a) := f w in (w', inr a).

(** A call that is logged and answered without the services. *)
Definition logged {A : Type} (ev : Event) (r : Error + A) : M A :=
  fun w => (addCall ev w, r).

(** An RPC: logged, then answered by the service, whose state moves on. *)
Definition rpc {A : Type} (ev : Event)
    (f : Services E -> Services E * (Error + A)) : M A :=
  fun w =>
    let (s', r) := f (services w) in
    (setServices s' (addCall ev w), r).

(** An RPC whose only result is its error. *)
Definition rpcErr (ev : Event)
    (f : Services E -> Services E * option Error) : M unit :=
  rpc ev (fun s =>
            let (s', r) := f s in
            (s', match r with Some e => inl e | None => inr tt end)).

(** [errs.ErrArgs.WithDetail(err.Error()).Wrap()] for a decoding result. *)
Definition argsError {A : Type} (r : string + A) : Error + A :=
  match r with
  | inl text => inl (ErrArgs text)
  | inr a => inr a
  end.

(** [if !cond { GinError(err); return }]. *)
Definition require (cond : bool) (e : Error) : M unit :=
  if cond then ret tt else throw e.

(** What the handler writes once its steps are done. *)
Definition respond {R : Type} (m : M R) (w : World) : World * Response R :=
  match m w with
  | (w', inl e) => (w', GinError e)
  | (w', inr r) => (w', GinSuccess r)
  end.

(** ** [getMsgDataDescriptor]: the body of [msgDataDescriptorOnce.Do] runs
    when the flag is not set yet, and sets it. *)
Definition getMsgDataDescriptor (w : World) : World * list FieldDescriptor :=
  if msgDataDescriptorOnce w then (w, msgDataDescriptor w)
  else
    let descriptor :=
      deriveMsgDataDescriptor (SendMsgResp_Fields E) (MsgData_Fields E) in
    (mkWorld (services w) descriptor true
             (calls w ++ [EvDeriveDescriptor])%list,
     descriptor).

(** ** [getModifyFields]. *)
Definition getModifyFields (req respModify : option MsgData.t) (w : World)
    : World * option (gmap string Value) :=
  match req, respModify with
  | Some req, Some respModify =>
      let (w', descriptors) := getMsgDataDescriptor w in
      (w', nilIfEmpty (modifyLoop descriptors req respModify))
  | _, _ => (w, None)
  end.

(** ** [newUserSendMsgReq]; [now] is what the clock reads at the call, and
    [draw] what the ID generator reads at its call. *)
Definition newUserSendMsgReq (draw : Entropy E) (now : Z) (params : SendMsg.t)
    (data : Elem.t)
    : MsgData.t :=
  let contentType := SendMsg.ContentType params in
  let atUserIDList :=
    if bool_decide (contentType = constant.Text
                    \/ contentType = constant.AtText) then
      if bool_decide (Elem.Kind data = AtElem) then Elem.AtUserList data
      else []
    else [] in
  let newContent :=
    if bool_decide (contentType = constant.OANotification) then
      notificationElemToJsonString E
        (contentToJsonString E (SendMsg.Content params))
    else contentToJsonString E (SendMsg.Content params) in
  let options : gmap string bool := ∅ in
  let options :=
    applyToggles options (SendMsg.IsOnlineOnly params)
                 (SendMsg.NotOfflinePush params) in
  {| MsgData.SendID := SendMsg.SendID params;
     MsgData.RecvID := "";
     MsgData.GroupID := SendMsg.GroupID params;
     MsgData.ClientMsgID := GetMsgIDByMD5 E draw (SendMsg.SendID params);
     MsgData.ServerMsgID := "";
     MsgData.SenderPlatformID := SendMsg.SenderPlatformID params;
     MsgData.SenderNickname := SendMsg.SenderNickname params;
     MsgData.SenderFaceURL := SendMsg.SenderFaceURL params;
     MsgData.SessionType := SendMsg.SessionType params;
     MsgData.MsgFrom := constant.SysMsgType;
     MsgData.ContentType := contentType;
     MsgData.Content := newContent;
     MsgData.Seq := 0;
     MsgData.SendTime := SendMsg.SendTime params;
     MsgData.CreateTime := now;
     MsgData.Status := 0;
     MsgData.IsRead := false;
     MsgData.Options := options;
     MsgData.OfflinePushInfo := SendMsg.OfflinePushInfo params;
     MsgData.AtUserIDList := atUserIDList;
     MsgData.AttachedInfo := "";
     MsgData.Ex := SendMsg.Ex params |}.

(** The schema [getSendMsgReq] picks for a content type; the notification
    type also rewrites the session type and asks the user service whether
    the sender is a notification account. *)
Definition selectElem (req : SendMsg.t) : M (ElemKind * SendMsg.t) :=
  let contentType := SendMsg.ContentType req in
  if bool_decide (contentType = constant.Text) then ret (TextElem, req)
  else if bool_decide (contentType = constant.Picture) then ret (PictureElem, req)
  else if bool_decide (contentType = constant.Voice) then ret (SoundElem, req)
  else if bool_decide (contentType = constant.Video) then ret (VideoElem, req)
  else if bool_decide (contentType = constant.File) then ret (FileElem, req)
  else if bool_decide (contentType = constant.AtText) then ret (AtElem, req)
  else if bool_decide (contentType = constant.Custom) then ret (CustomElem, req)
  else if bool_decide (contentType = constant.MarkdownText) then
    ret (MarkdownTextElem, req)
  else if bool_decide (contentType = constant.OANotification) then
    let req := SendMsg.set_SessionType constant.NotificationChatType req in
    _ <- rpcErr (EvGetNotificationByID (SendMsg.SendID req))
                (rpcGetNotificationByID E (SendMsg.SendID req)) ;;
    ret (OANotificationElem, req)
  else throw (ErrWrap (ErrArgs "") "unsupported content type").

(** ** [getSendMsgReq]; the request it returns is its [MsgData]. *)
Definition getSendMsgReq (draw : Entropy E) (now : Z) (req : SendMsg.t)
    : M MsgData.t :=
  sel <- selectElem req ;;
  let (kind, req) := (sel : ElemKind * SendMsg.t) in
  match WeakDecode E (SendMsg.Content req) kind with
  | inl text =>
      throw (ErrWrap (ErrExternal text) "failed to decode message content")
  | inr data =>
      match validateStruct E data with
      | Some text => throw (ErrWrap (ErrExternal text) "validation error")
      | None => ret (newUserSendMsgReq draw now req data)
      end
  end.

(** ** [ginRespSendMsg]. *)
Definition ginRespSendMsg (req : MsgData.t) (resp : SendMsgResp.t)
    : M ApiSendMsgResp.t :=
  res <- lift (getModifyFields (Some req) (SendMsgResp.Modify resp)) ;;
  ret {| ApiSendMsgResp.SendMsgResp :=
           {| SendMsgResp.ServerMsgID := SendMsgResp.ServerMsgID resp;
              SendMsgResp.ClientMsgID := SendMsgResp.ClientMsgID resp;
              SendMsgResp.SendTime := SendMsgResp.SendTime resp;
              SendMsgResp.Modify := None |};
         ApiSendMsgResp.Modify := res |}.

Definition onlyAppManager : Error :=
  ErrWrap ErrNoPermission "only app manager can send message".

(** The two calls that follow an accepted submission in [SendMessage] and
    [SendSimpleMessage]: the status is recorded, then the response is
    written. *)
Definition recordAndRespond (req : MsgData.t) (respPb : SendMsgResp.t)
    : M ApiSendMsgResp.t :=
  _ <- rpcErr (EvSetSendMsgStatus constant.MsgSendSuccessed)
              (rpcSetSendMsgStatus E constant.MsgSendSuccessed) ;;
  ginRespSendMsg req respPb.

(** ** [SendMessage]: up to the envelope it submits ... *)
Definition SendMessage_envelope (draw : Entropy E) (now : Z) (c : Context.t) :
    M MsgData.t :=
  req <- logged EvBindJSON (argsError (bindSendMsgReq E (Context.Body c))) ;;
  _ <- require (Context.IsAdmin c) onlyAppManager ;;
  sendMsgReq <- getSendMsgReq draw now (SendMsgReq.SendMsg req) ;;
  ret (MsgData.set_RecvID (SendMsgReq.RecvID req) sendMsgReq).

(** ... and the whole handler. *)
Definition SendMessage (draw : Entropy E) (now : Z) (c : Context.t)
    : World -> World * Response ApiSendMsgResp.t :=
  respond (
    sendMsgReq <- SendMessage_envelope draw now c ;;
    respPb <- rpc (EvSendMsg sendMsgReq) (rpcSendMsg E sendMsgReq) ;;
    recordAndRespond sendMsgReq respPb).

(** The envelope [SendBusinessNotification] builds. *)
Definition businessNotificationMsgData (draw : Entropy E) (now : Z)
    (c : Context.t)
    (req : BusinessNotificationReq.t) (sessionType reliabilityLevel : Z)
    : MsgData.t :=
  {| MsgData.SendID := BusinessNotificationReq.SendUserID req;
     MsgData.RecvID := BusinessNotificationReq.RecvUserID req;
     MsgData.GroupID := BusinessNotificationReq.RecvGroupID req;
     MsgData.ClientMsgID := GetMsgIDByMD5 E draw (Context.OpUserID c);
     MsgData.ServerMsgID := "";
     MsgData.SenderPlatformID := 0;
     MsgData.SenderNickname := "";
     MsgData.SenderFaceURL := "";
     MsgData.SessionType := sessionType;
     MsgData.MsgFrom := constant.SysMsgType;
     MsgData.ContentType := constant.BusinessNotification;
     MsgData.Content :=
       notificationElemToJsonString E
         (keyDataToJsonString E (BusinessNotificationReq.Key req)
                                (BusinessNotificationReq.Data req));
     MsgData.Seq := 0;
     MsgData.SendTime := 0;
     MsgData.CreateTime := now;
     MsgData.Status := 0;
     MsgData.IsRead := false;
     MsgData.Options :=
       GetOptionsByNotification E
         {| NotificationConfig.IsSendMsg := BusinessNotificationReq.SendMsg req;
            NotificationConfig.ReliabilityLevel := reliabilityLevel;
            NotificationConfig.UnreadCount := false |};
     MsgData.OfflinePushInfo := None;
     MsgData.AtUserIDList := [];
     MsgData.AttachedInfo := "";
     MsgData.Ex := "" |}.

(** ** [SendBusinessNotification]: up to the envelope it submits ... *)
Definition SendBusinessNotification_envelope (draw : Entropy E) (now : Z)
    (c : Context.t)
    : M MsgData.t :=
  req <- logged EvBindJSON
           (argsError (bindBusinessNotificationReq E (Context.Body c))) ;;
  let recvUserID := BusinessNotificationReq.RecvUserID req in
  let recvGroupID := BusinessNotificationReq.RecvGroupID req in
  _ <- require (negb (bool_decide (recvUserID = "" /\ recvGroupID = "")))
         (ErrWrap (ErrArgs "")
            "recvUserID and recvGroupID cannot be empty at the same time") ;;
  _ <- require (negb (bool_decide (recvUserID <> "" /\ recvGroupID <> "")))
         (ErrWrap (ErrArgs "")
            "recvUserID and recvGroupID cannot be set at the same time") ;;
  let sessionType :=
    if bool_decide (recvUserID <> "") then constant.SingleChatType
    else constant.ReadGroupChatType in
  let reliabilityLevel :=
    match BusinessNotificationReq.ReliabilityLevel req with
    | None => 1%Z
    | Some level => level
    end in
  _ <- require (Context.IsAdmin c) onlyAppManager ;;
  ret (businessNotificationMsgData draw now c req sessionType reliabilityLevel).

(** ... and the whole handler. *)
Definition SendBusinessNotification (draw : Entropy E) (now : Z) (c : Context.t)
    : World -> World * Response ApiSendMsgResp.t :=
  respond (
    sendMsgReq <- SendBusinessNotification_envelope draw now c ;;
    respPb <- rpc (EvSendMsg sendMsgReq) (rpcSendMsg E sendMsgReq) ;;
    ginRespSendMsg sendMsgReq respPb).

(** ** [BatchSendMsg]. *)

(** The paging loop of "send to all".  The loop has no bound of its own:
    [fuel] bounds the number of pages asked for, and [None] is a run that
    needs more. *)
Fixpoint getAllUserIDsLoop (fuel : nat) (pageNumber : Z)
    (recvIDs : list string) (w : World)
    : option (World * (Error + list string)) :=
  match fuel with
  | O => None
  | S fuel' =>
      match rpc (EvGetAllUserIDs pageNumber showNumber)
                (rpcGetAllUserIDs E pageNumber showNumber) w with
      | (w1, inl err) => Some (w1, inl err)
      | (w1, inr recvIDsPart) =>
          let recvIDs := (recvIDs ++ recvIDsPart)%list in
          if (Z.of_nat (length recvIDsPart) <? showNumber)%Z then
            Some (w1, inr recvIDs)
          else getAllUserIDsLoop fuel' (wrap32 (pageNumber + 1)) recvIDs w1
      end
  end.

(** The recipients of a batch: the directory's pages, or the request's list. *)
Definition resolveRecvIDs (fuel : nat) (req : BatchSendMsgReq.t) (w : World)
    : option (World * (Error + list string)) :=
  if BatchSendMsgReq.IsSendAll req then getAllUserIDsLoop fuel 1 [] w
  else Some (w, inr (BatchSendMsgReq.RecvIDs req)).

(** The send loop over the recipients. *)
Fixpoint sendLoop (sendMsgReq : MsgData.t) (recvIDs : list string)
    (resp : BatchSendMsgResp.t) (w : World) : World * BatchSendMsgResp.t :=
  match recvIDs with
  | [] => (w, resp)
  | recvID :: rest =>
      let sendMsgReq := MsgData.set_RecvID recvID sendMsgReq in
      match rpc (EvSendMsg sendMsgReq) (rpcSendMsg E sendMsgReq) w with
      | (w1, inl _) =>
          sendLoop sendMsgReq rest
            {| BatchSendMsgResp.Results := BatchSendMsgResp.Results resp;
               BatchSendMsgResp.FailedIDs :=
                 (BatchSendMsgResp.FailedIDs resp ++ [recvID])%list |}
            w1
      | (w1, inr rpcResp) =>
          let (w2, modify) :=
            getModifyFields (Some sendMsgReq) (SendMsgResp.Modify rpcResp) w1 in
          sendLoop sendMsgReq rest
            {| BatchSendMsgResp.Results :=
                 (BatchSendMsgResp.Results resp ++
                  [ {| SingleReturnResult.ServerMsgID :=
                         SendMsgResp.ServerMsgID rpcResp;
                       SingleReturnResult.ClientMsgID :=
                         SendMsgResp.ClientMsgID rpcResp;
                       SingleReturnResult.SendTime :=
                         SendMsgResp.SendTime rpcResp;
                       SingleReturnResult.RecvID := recvID;
                       SingleReturnResult.Modify := modify |} ])%list;
               BatchSendMsgResp.FailedIDs := BatchSendMsgResp.FailedIDs resp |}
            w2
      end
  end.

Definition emptyBatchResp : BatchSendMsgResp.t :=
  {| BatchSendMsgResp.Results := []; BatchSendMsgResp.FailedIDs := [] |}.

Definition BatchSendMsg (draw : Entropy E) (fuel : nat) (now : Z)
    (c : Context.t) (w : World)
    : option (World * Response BatchSendMsgResp.t) :=
  match (req <- logged EvBindJSON
                  (argsError (bindBatchSendMsgReq E (Context.Body c))) ;;
         _ <- require (Context.IsAdmin c) onlyAppManager ;;
         ret req) w with
  | (w1, inl e) => Some (w1, GinError e)
  | (w1, inr req) =>
      match resolveRecvIDs fuel req w1 with
      | None => None
      | Some (w2, inl e) => Some (w2, GinError e)
      | Some (w2, inr recvIDs) =>
          Some (respond (
            sendMsgReq <-
              getSendMsgReq draw now (BatchSendMsgReq.SendMsg req) ;;
            lift (sendLoop sendMsgReq recvIDs emptyBatchResp)) w2)
      end
  end.

(** ** [SendSimpleMessage]. *)

(** Sender, session type and recipient, from the decoded key and the body. *)
Definition simpleRouting (keyMsgData : KeyMsgData.t)
    (req : SendSingleMsgReq.t) : string * Z * string :=
  if bool_decide (KeyMsgData.GroupID keyMsgData <> "") then
    (SendSingleMsgReq.SendID req, constant.ReadGroupChatType, "")
  else
    (KeyMsgData.RecvID keyMsgData, constant.SingleChatType,
     KeyMsgData.SendID keyMsgData).

(** The envelope of a quick send. *)
Definition simpleMsgData (draw : Entropy E) (keyMsgData : KeyMsgData.t)
    (req : SendSingleMsgReq.t) (sendID : string) (sessionType : Z)
    (recvID : string) (content : bytes) : MsgData.t :=
  {| MsgData.SendID := sendID;
     MsgData.RecvID := recvID;
     MsgData.GroupID := KeyMsgData.GroupID keyMsgData;
     MsgData.ClientMsgID := GetMsgIDByMD5 E draw sendID;
     MsgData.ServerMsgID := "";
     MsgData.SenderPlatformID := constant.AdminPlatformID;
     MsgData.SenderNickname := "";
     MsgData.SenderFaceURL := "";
     MsgData.SessionType := sessionType;
     MsgData.MsgFrom := constant.UserMsgType;
     MsgData.ContentType := constant.MarkdownText;
     MsgData.Content := content;
     MsgData.Seq := 0;
     MsgData.SendTime := 0;
     MsgData.CreateTime := 0;
     MsgData.Status := 0;
     MsgData.IsRead := false;
     MsgData.Options := ∅;
     MsgData.OfflinePushInfo := SendSingleMsgReq.OfflinePushInfo req;
     MsgData.AtUserIDList := [];
     MsgData.AttachedInfo := "";
     MsgData.Ex := SendSingleMsgReq.Ex req |}.

(** [SendSimpleMessage] up to the envelope it submits. *)
Definition SendSimpleMessage_envelope (draw : Entropy E) (c : Context.t)
    : M MsgData.t :=
  encodedKey <-
    match Context.Query c !! webhook.Key with
    | None => throw (ErrArgs "missing key in query")
    | Some encodedKey => ret encodedKey
    end ;;
  decodedData <- logged (EvBase64Decode encodedKey)
                   (argsError (base64DecodeString E encodedKey)) ;;
  req <- logged EvBindJSON
           (argsError (bindSendSingleMsgReq E (Context.Body c))) ;;
  keyMsgData <- logged (EvUnmarshalKey decodedData)
                  (argsError (jsonUnmarshalKeyMsgData E decodedData)) ;;
  let '(sendID, sessionType, recvID) := simpleRouting keyMsgData req in
  _ <- require (negb (bool_decide (KeyMsgData.SendID keyMsgData = "")))
         (ErrArgs "missing recvID or GroupID") ;;
  _ <- require (negb (bool_decide (sendID = "")))
         (ErrArgs "missing sendID") ;;
  content <- logged (EvJsonMarshal (SendSingleMsgReq.Content req))
               (match JsonMarshalMarkdownTextElem E
                        (SendSingleMsgReq.Content req) with
                | inl err => inl (ErrWrap err "")
                | inr content => inr content
                end) ;;
  ret (simpleMsgData draw keyMsgData req sendID sessionType recvID content).

Definition SendSimpleMessage (draw : Entropy E) (c : Context.t)
    : World -> World * Response ApiSendMsgResp.t :=
  respond (
    msgData <- SendSimpleMessage_envelope draw c ;;
    respPb <- rpc (EvSendSimpleMsg msgData) (rpcSendSimpleMsg E msgData) ;;
    recordAndRespond msgData respPb).

End Api.

Arguments initWorld E s : clear implicits.

(** ** A concrete environment, to run the handlers on.

    The descriptor tables are those of the protocol's two messages.  The
    services are driven by a [Config]: which recipients the backend refuses,
    whether recording the status fails, what the backend rewrites, and the
    pages of the directory.  The codecs are given on the requests used
    below, with the results the real codecs have there. *)
Module Stub.

Definition dq : string := String (Ascii.ascii_of_nat 34) EmptyString.

(** A JSON string literal, and a JSON object from keys and rendered values. *)
Definition jstr (s : string) : string := dq ++ s ++ dq.

Fixpoint jmembers (members : list (string * string)) : string :=
  match members with
  | [] => ""
  | [(k, v)] => jstr k ++ ":" ++ v
  | (k, v) :: rest => jstr k ++ ":" ++ v ++ "," ++ jmembers rest
  end.

Definition jobject (members : list (string * string)) : string :=
  "{" ++ jmembers members ++ "}".

Fixpoint renderAny (a : Any) : string :=
  match a with
  | ANull => "null"
  | ABool b => if b then "true" else "false"
  | ANumber literal => literal
  | AString s => jstr s
  | AArray l =>
      "[" ++ (fix items (l : list Any) : string :=
                match l with
                | [] => ""
                | [x] => renderAny x
                | x :: rest => renderAny x ++ "," ++ items rest
                end) l ++ "]"
  | AObject fields =>
      "{" ++ (fix members (fs : list (string * Any)) : string :=
                match fs with
                | [] => ""
                | [(k, v)] => jstr k ++ ":" ++ renderAny v
                | (k, v) :: rest =>
                    jstr k ++ ":" ++ renderAny v ++ "," ++ members rest
                end) fields ++ "}"
  end.

Record Config : Type := mkConfig {
  refused : list string;
  statusFails : bool;
  rewritesContent : bool;
  pages : list (list string)
}.

(** The envelope the backend hands back: it assigns the server ID and the
    send time, and may substitute the content. *)
Definition acknowledged (cfg : Config) (m : MsgData.t) : MsgData.t :=
  {| MsgData.SendID := MsgData.SendID m;
     MsgData.RecvID := MsgData.RecvID m;
     MsgData.GroupID := MsgData.GroupID m;
     MsgData.ClientMsgID := MsgData.ClientMsgID m;
     MsgData.ServerMsgID := "srv-1";
     MsgData.SenderPlatformID := MsgData.SenderPlatformID m;
     MsgData.SenderNickname := MsgData.SenderNickname m;
     MsgData.SenderFaceURL := MsgData.SenderFaceURL m;
     MsgData.SessionType := MsgData.SessionType m;
     MsgData.MsgFrom := MsgData.MsgFrom m;
     MsgData.ContentType := MsgData.ContentType m;
     MsgData.Content :=
       if rewritesContent cfg then "***" else MsgData.Content m;
     MsgData.Seq := MsgData.Seq m;
     MsgData.SendTime := 1700000000123;
     MsgData.CreateTime := MsgData.CreateTime m;
     MsgData.Status := MsgData.Status m;
     MsgData.IsRead := MsgData.IsRead m;
     MsgData.Options := MsgData.Options m;
     MsgData.OfflinePushInfo := MsgData.OfflinePushInfo m;
     MsgData.AtUserIDList := MsgData.AtUserIDList m;
     MsgData.AttachedInfo := MsgData.AttachedInfo m;
     MsgData.Ex := MsgData.Ex m |}.

Definition submit (cfg : Config) (m : MsgData.t) (n : nat)
    : nat * (Error + SendMsgResp.t) :=
  (S n,
   if bool_decide (MsgData.RecvID m ∈ refused cfg) then
     inl (ErrExternal "rpc: recipient refused")
   else
     inr {| SendMsgResp.ServerMsgID := "srv-1";
            SendMsgResp.ClientMsgID := MsgData.ClientMsgID m;
            SendMsgResp.SendTime := 1700000000123;
            SendMsgResp.Modify := Some (acknowledged cfg m) |}).

Definition setStatus (cfg : Config) (status : Z) (n : nat)
    : nat * option Error :=
  (n, if statusFails cfg then Some (ErrExternal "rpc: status not recorded")
      else None).

(** The directory: page [p] of the configured pages, empty past the last. *)
Definition page (cfg : Config) (pageNumber : Z) : list string :=
  if (pageNumber <? 1)%Z then []
  else nth (Z.to_nat (pageNumber - 1)) (pages cfg) [].

Definition getAllUserIDs (cfg : Config) (pageNumber showNumber : Z) (n : nat)
    : nat * (Error + list string) :=
  (n, inr (page cfg pageNumber)).

Definition textContent : ContentMap := [("text", AString "hi")].

Definition sendMsg (isOnlineOnly notOfflinePush : bool) (sendTime : Z)
    : SendMsg.t :=
  {| SendMsg.SendID := "u1";
     SendMsg.GroupID := "";
     SendMsg.SenderNickname := "alice";
     SendMsg.SenderFaceURL := "";
     SendMsg.SenderPlatformID := 1;
     SendMsg.Content := textContent;
     SendMsg.ContentType := constant.Text;
     SendMsg.SessionType := constant.SingleChatType;
     SendMsg.IsOnlineOnly := isOnlineOnly;
     SendMsg.NotOfflinePush := notOfflinePush;
     SendMsg.SendTime := sendTime;
     SendMsg.OfflinePushInfo := None;
     SendMsg.Ex := "" |}.

(** Request bodies. *)
Definition textBody : string :=
  jobject [("sendID", jstr "u1"); ("recvID", jstr "u2");
           ("contentType", "101"); ("sessionType", "1");
           ("content", jobject [("text", jstr "hi")])].

Definition batchBody : string :=
  jobject [("sendID", jstr "u1"); ("contentType", "101");
           ("sessionType", "1"); ("content", jobject [("text", jstr "hi")]);
           ("recvIDs", "[" ++ jstr "u2" ++ "," ++ jstr "u3" ++ ","
                           ++ jstr "u4" ++ "]")].

Definition broadcastBody : string :=
  jobject [("sendID", jstr "u1"); ("contentType", "101");
           ("sessionType", "1"); ("content", jobject [("text", jstr "hi")]);
           ("isSendAll", "true")].

Definition quickBody : string := jobject [("content", jstr "hello")].

Definition groupQuickBody : string :=
  jobject [("sendID", jstr "bot"); ("content", jstr "hello")].

Definition businessBody : string :=
  jobject [("key", jstr "k"); ("data", jstr "d");
           ("sendUserID", jstr "u1"); ("recvUserID", jstr "u2")].

Definition bind_SendMsgReq (body : string) : string + SendMsgReq.t :=
  if bool_decide (body = textBody) then
    inr {| SendMsgReq.RecvID := "u2"; SendMsgReq.SendMsg := sendMsg false false 0 |}
  else inl "unexpected EOF".

Definition bind_BatchSendMsgReq (body : string) : string + BatchSendMsgReq.t :=
  if bool_decide (body = batchBody) then
    inr {| BatchSendMsgReq.SendMsg := sendMsg false false 0;
           BatchSendMsgReq.IsSendAll := false;
           BatchSendMsgReq.RecvIDs := ["u2"; "u3"; "u4"] |}
  else if bool_decide (body = broadcastBody) then
    inr {| BatchSendMsgReq.SendMsg := sendMsg false false 0;
           BatchSendMsgReq.IsSendAll := true;
           BatchSendMsgReq.RecvIDs := [] |}
  else inl "unexpected EOF".

Definition bind_SendSingleMsgReq (body : string) : string + SendSingleMsgReq.t :=
  if bool_decide (body = quickBody) then
    inr {| SendSingleMsgReq.SendID := "";
           SendSingleMsgReq.Content := "hello";
           SendSingleMsgReq.OfflinePushInfo := None;
           SendSingleMsgReq.Ex := "" |}
  else if bool_decide (body = groupQuickBody) then
    inr {| SendSingleMsgReq.SendID := "bot";
           SendSingleMsgReq.Content := "hello";
           SendSingleMsgReq.OfflinePushInfo := None;
           SendSingleMsgReq.Ex := "" |}
  else inl "unexpected EOF".

Definition bind_BusinessNotificationReq (body : string)
    : string + BusinessNotificationReq.t :=
  if bool_decide (body = businessBody) then
    inr {| BusinessNotificationReq.Key := "k";
           BusinessNotificationReq.Data := "d";
           BusinessNotificationReq.SendUserID := "u1";
           BusinessNotificationReq.RecvUserID := "u2";
           BusinessNotificationReq.RecvGroupID := "";
           BusinessNotificationReq.SendMsg := false;
           BusinessNotificationReq.ReliabilityLevel := None |}
  else inl "unexpected EOF".

(** Routing keys: the base64 text, and the bytes it stands for. *)
Definition directKey : string := "eyJzZW5kSUQiOiJ1MSIsInJlY3ZJRCI6ImJvdCJ9".
Definition directKeyData : bytes :=
  jobject [("sendID", jstr "u1"); ("recvID", jstr "bot")].
Definition groupKey : string := "eyJzZW5kSUQiOiJ1MSIsImdyb3VwSUQiOiJnMSJ9".
Definition groupKeyData : bytes :=
  jobject [("sendID", jstr "u1"); ("groupID", jstr "g1")].
Definition emptyKey : string := "e30=".
Definition notJsonKey : string := "bm90IGpzb24=".
Definition notBase64Key : string := "!!!".

Definition decodeBase64 (s : string) : string + bytes :=
  if bool_decide (s = directKey) then inr directKeyData
  else if bool_decide (s = groupKey) then inr groupKeyData
  else if bool_decide (s = emptyKey) then inr "{}"
  else if bool_decide (s = notJsonKey) then inr "not json"
  else inl "illegal base64 data at input byte 0".

Definition unmarshalKey (bs : bytes) : string + KeyMsgData.t :=
  if bool_decide (bs = directKeyData) then
    inr {| KeyMsgData.SendID := "u1"; KeyMsgData.RecvID := "bot";
           KeyMsgData.GroupID := "" |}
  else if bool_decide (bs = groupKeyData) then
    inr {| KeyMsgData.SendID := "u1"; KeyMsgData.RecvID := "";
           KeyMsgData.GroupID := "g1" |}
  else if bool_decide (bs = "{}") then
    inr {| KeyMsgData.SendID := ""; KeyMsgData.RecvID := "";
           KeyMsgData.GroupID := "" |}
  else inl "invalid character 'o' in literal null (expecting 'u')".

Definition atUserListOf (content : ContentMap) : list string :=
  match list_find (fun kv => fst kv = "atUserList") content with
  | Some (_, (_, AArray l)) =>
      omap (fun a => match a with AString s => Some s | _ => None end) l
  | _ => []
  end.

Definition weakDecode (content : ContentMap) (kind : ElemKind)
    : string + Elem.t :=
  inr {| Elem.Kind := kind; Elem.AtUserList := atUserListOf content |}.

(** A stand-in for the generator: the digest of the time, the argument and
    the random number, left unevaluated; it tells two arguments and two
    readings apart, as the digest does. *)
Definition msgID (draw : Z * Z) (s : string) : string :=
  "md5(" ++ pretty (fst draw) ++ s ++ pretty (snd draw) ++ ")".

(** What the generator reads at one call: the clock in nanoseconds and a
    random number. *)
Definition reading : Z * Z := (1700000000000000000, 42)%Z.

Definition msgDataFields : list FieldDescriptor :=
  [ mkFD 1 true "sendID"; mkFD 2 true "recvID"; mkFD 3 true "groupID";
    mkFD 4 true "clientMsgID"; mkFD 5 true "serverMsgID";
    mkFD 6 true "senderPlatformID"; mkFD 7 true "senderNickname";
    mkFD 8 true "senderFaceURL"; mkFD 9 true "sessionType";
    mkFD 10 true "msgFrom"; mkFD 11 true "contentType";
    mkFD 12 true "content"; mkFD 14 true "seq"; mkFD 15 true "sendTime";
    mkFD 16 true "createTime"; mkFD 17 true "status"; mkFD 18 true "isRead";
    mkFD 19 true "options"; mkFD 20 true "offlinePushInfo";
    mkFD 21 true "atUserIDList"; mkFD 22 true "attachedInfo";
    mkFD 23 true "ex" ].

Definition sendMsgRespFields : list FieldDescriptor :=
  [ mkFD 1 true "serverMsgID"; mkFD 2 true "clientMsgID";
    mkFD 3 true "sendTime"; mkFD 4 true "modify" ].

Definition env (cfg : Config) : Env :=
  {| Services := nat;
     rpcSendMsg := submit cfg;
     rpcSendSimpleMsg := submit cfg;
     rpcSetSendMsgStatus := setStatus cfg;
     rpcGetAllUserIDs := getAllUserIDs cfg;
     rpcGetNotificationByID := fun _ n => (n, None);
     bindSendMsgReq := bind_SendMsgReq;
     bindBatchSendMsgReq := bind_BatchSendMsgReq;
     bindSendSingleMsgReq := bind_SendSingleMsgReq;
     bindBusinessNotificationReq := bind_BusinessNotificationReq;
     base64DecodeString := decodeBase64;
     jsonUnmarshalKeyMsgData := unmarshalKey;
     WeakDecode := weakDecode;
     validateStruct := fun _ => None;
     contentToJsonString := fun content => renderAny (AObject content);
     notificationElemToJsonString :=
       fun detail => jobject [("detail", jstr detail)];
     keyDataToJsonString :=
       fun key data => jobject [("key", jstr key); ("data", jstr data)];
     JsonMarshalMarkdownTextElem :=
       fun content => inr (jobject [("content", jstr content)]);
     Entropy := Z * Z;
     GetMsgIDByMD5 := msgID;
     GetOptionsByNotification :=
       fun cfg => {[ "unreadCount" := NotificationConfig.UnreadCount cfg ]};
     SendMsgResp_Fields := sendMsgRespFields;
     MsgData_Fields := msgDataFields |}.

Definition quiet : Config := mkConfig [] false false [].

(** A directory of 503 users: one full page and a short one. *)
Definition fullPage : list string :=
  map (fun i : nat => "user" ++ pretty i) (seq 0 500).

Definition directory : Config :=
  mkConfig [] false false [fullPage; ["x1"; "x2"; "x3"]].

(** An at-mention message, and a message of a content type outside the
    registry. *)
Definition atSendMsg : SendMsg.t :=
  {| SendMsg.SendID := "u1";
     SendMsg.GroupID := "g1";
     SendMsg.SenderNickname := "alice";
     SendMsg.SenderFaceURL := "";
     SendMsg.SenderPlatformID := 1;
     SendMsg.Content :=
       [("text", AString "hi"); ("atUserList", AArray [AString "u2"; AString "u3"])];
     SendMsg.ContentType := constant.AtText;
     SendMsg.SessionType := constant.ReadGroupChatType;
     SendMsg.IsOnlineOnly := false;
     SendMsg.NotOfflinePush := false;
     SendMsg.SendTime := 0;
     SendMsg.OfflinePushInfo := None;
     SendMsg.Ex := "" |}.

Definition withContentType (contentType : Z) (p : SendMsg.t) : SendMsg.t :=
  SendMsg.mk (SendMsg.SendID p) (SendMsg.GroupID p) (SendMsg.SenderNickname p)
    (SendMsg.SenderFaceURL p) (SendMsg.SenderPlatformID p) (SendMsg.Content p)
    contentType (SendMsg.SessionType p) (SendMsg.IsOnlineOnly p)
    (SendMsg.NotOfflinePush p) (SendMsg.SendTime p) (SendMsg.OfflinePushInfo p)
    (SendMsg.Ex p).

(** The environment [E0] with another directory behind the user client. *)
Definition withDirectory (E0 : Env)
    (f : Z -> Z -> Services E0 -> Services E0 * (Error + list string)) : Env :=
  mkEnv (Services E0) (rpcSendMsg E0) (rpcSendSimpleMsg E0)
    (rpcSetSendMsgStatus E0) f (rpcGetNotificationByID E0) (bindSendMsgReq E0)
    (bindBatchSendMsgReq E0) (bindSendSingleMsgReq E0)
    (bindBusinessNotificationReq E0) (base64DecodeString E0)
    (jsonUnmarshalKeyMsgData E0) (WeakDecode E0) (validateStruct E0)
    (contentToJsonString E0) (notificationElemToJsonString E0)
    (keyDataToJsonString E0) (JsonMarshalMarkdownTextElem E0)
    (Entropy E0) (GetMsgIDByMD5 E0) (GetOptionsByNotification E0)
        (SendMsgResp_Fields E0)
    (MsgData_Fields E0).

(** A directory without end: every page is full.  A directory that is
    down after its first page. *)
Definition endless : Env :=
  withDirectory (env quiet) (fun _ _ n => (n, inr fullPage)).

Definition failing : Env :=
  withDirectory (env quiet)
    (fun pageNumber _ n =>
       (S n, if bool_decide (pageNumber = 1%Z) then inr fullPage
             else inl (ErrExternal "rpc: user service unavailable"))).

(** A backend that refuses the three recipients of [batchBody]. *)
Definition deaf : Config := mkConfig ["u2"; "u3"; "u4"] false false [].

Definition context (key : option string) (body : string) (opUserID : string)
    : Context.t :=
  {| Context.Query :=
       match key with Some k => {[ webhook.Key := k ]} | None => ∅ end;
     Context.Body := body;
     Context.IsAdmin := true;
     Context.OpUserID := opUserID |}.

End Stub.

Arguments services {E} w.
Arguments msgDataDescriptor {E} w.
Arguments msgDataDescriptorOnce {E} w.
Arguments calls {E} w.
Arguments addCall {E} ev w.
Arguments setServices {E} s w.
Arguments getModifyFields : simpl never.
Arguments getMsgDataDescriptor : simpl never.
Arguments rpc : simpl never.
Arguments rpcErr : simpl never.

(** ** Vocabulary of the statements. *)

(** How often the body of [msgDataDescriptorOnce.Do] has run. *)
Definition isDerive (ev : Event) : bool :=
  match ev with EvDeriveDescriptor => true | _ => false end.

Definition derivations (evs : list Event) : nat :=
  length (List.filter isDerive evs).

(** The descriptor cache is sound: once the flag is set, the variable holds
    the list derived from the two descriptor tables, and the body has run
    exactly once; before, it has not run. *)
Definition cacheOK {E : Env} (w : World E) : Prop :=
  if msgDataDescriptorOnce w then
    msgDataDescriptor w
      = deriveMsgDataDescriptor (SendMsgResp_Fields E) (MsgData_Fields E)
    /\ derivations (calls w) = 1
  else derivations (calls w) = 0.

(** The states of a process: it starts with an empty cache, and its state
    changes by a logged call, by a move of the services and by a diff, the
    steps every handler is made of. *)
Inductive reachable {E : Env} : World E -> Prop :=
| reach_init (s : Services E) : reachable (initWorld E s)
| reach_call ev w :
    isDerive ev = false -> reachable w -> reachable (addCall ev w)
| reach_services s w : reachable w -> reachable (setServices s w)
| reach_diff req resp w :
    reachable w -> reachable (fst (getModifyFields E req resp w)).

(** The page number of the [i]-th directory request of "send to all": the
    counter starts at 1 and is incremented as an [int32]. *)
Definition pageNumberAt (i : nat) : Z :=
  Nat.iter i (fun pageNumber => wrap32 (pageNumber + 1)) 1%Z.

(** The recipients of the submissions in a log, in order. *)
Definition submissions (evs : list Event) : list string :=
  omap (fun ev => match ev with
                  | EvSendMsg m => Some (MsgData.RecvID m)
                  | _ => None
                  end) evs.

(** A step keeps a property of the world. *)
Definition keeps {E : Env} {A : Type} (I : World E -> Prop) (m : M E A)
    : Prop :=
  forall w, I w -> I (fst (m w)).

(** The log of [w] continues the log of [w0]. *)
Definition extends {E : Env} (w0 w : World E) : Prop :=
  exists evs, calls w = (calls w0 ++ evs)%list.


(** The [i]-th directory request of "send to all". *)
Definition requestAt (i : nat) : Event :=
  EvGetAllUserIDs (pageNumberAt i) showNumber.

(** [answers s j pages]: asked for its pages by the requests [j], [j + 1],
    ... in turn, from state [s] on, the directory answers with [pages]:
    pages of at least [showNumber] IDs, and then a shorter one, the last. *)
Inductive answers {E : Env}
    : Services E -> nat -> list (list string) -> Prop :=
| answers_short s j ids s' :
    rpcGetAllUserIDs E (pageNumberAt j) showNumber s = (s', inr ids) ->
    (Z.of_nat (length ids) < showNumber)%Z ->
    answers s j [ids]
| answers_full s j ids s' rest :
    rpcGetAllUserIDs E (pageNumberAt j) showNumber s = (s', inr ids) ->
    (showNumber <= Z.of_nat (length ids))%Z ->
    answers s' (S j) rest ->
    answers s j (ids :: rest).

(** [verdicts m s recvIDs vs]: submitted the envelope [m] for the
    recipients [recvIDs] in turn, from state [s] on, the backend accepts
    ([true]) or refuses ([false]) as [vs] says. *)
Inductive verdicts {E : Env} (m : MsgData.t)
    : Services E -> list string -> list bool -> Prop :=
| verdicts_nil s : verdicts m s [] []
| verdicts_refused s recvID rest s' err vs :
    rpcSendMsg E (MsgData.set_RecvID recvID m) s = (s', inl err) ->
    verdicts m s' rest vs ->
    verdicts m s (recvID :: rest) (false :: vs)
| verdicts_accepted s recvID rest s' resp vs :
    rpcSendMsg E (MsgData.set_RecvID recvID m) s = (s', inr resp) ->
    verdicts m s' rest vs ->
    verdicts m s (recvID :: rest) (true :: vs).

(** The recipients whose verdict is [v]. *)
Fixpoint withVerdict (v : bool) (recvIDs : list string) (vs : list bool)
    : list string :=
  match recvIDs, vs with
  | recvID :: recvIDs, b :: vs =>
      if Bool.eqb b v then recvID :: withVerdict v recvIDs vs
      else withVerdict v recvIDs vs
  | _, _ => []
  end.

(** The verdicts of a run in which the submission after [pre], and no
    other, is refused. *)
Definition oneRefused (pre post : list string) : list bool :=
  (replicate (length pre) true ++ false :: replicate (length post) true)%list.

(** The registry of [getSendMsgReq]: the element structure the content of
    a content type is decoded into, in the order of the [switch]. *)
Definition elemKindOf (contentType : Z) : option ElemKind :=
  if bool_decide (contentType = constant.Text) then Some TextElem
  else if bool_decide (contentType = constant.Picture) then Some PictureElem
  else if bool_decide (contentType = constant.Voice) then Some SoundElem
  else if bool_decide (contentType = constant.Video) then Some VideoElem
  else if bool_decide (contentType = constant.File) then Some FileElem
  else if bool_decide (contentType = constant.AtText) then Some AtElem
  else if bool_decide (contentType = constant.Custom) then Some CustomElem
  else if bool_decide (contentType = constant.MarkdownText) then
    Some MarkdownTextElem
  else if bool_decide (contentType = constant.OANotification) then
    Some OANotificationElem
  else None.

(** What [getSendMsgReq] does with the content once the element structure
    is chosen: decode, validate, build. *)
Definition decodeAndBuild (E : Env) (draw : Entropy E) (now : Z)
    (req : SendMsg.t)
    (kind : ElemKind) : Error + MsgData.t :=
  match WeakDecode E (SendMsg.Content req) kind with
  | inl text =>
      inl (ErrWrap (ErrExternal text) "failed to decode message content")
  | inr data =>
      match validateStruct E data with
      | Some text => inl (ErrWrap (ErrExternal text) "validation error")
      | None => inr (newUserSendMsgReq E draw now req data)
      end
  end.

(** The envelopes submitted through [SendMsg] in a log, in order. *)
Definition sent (evs : list Event) : list MsgData.t :=
  omap (fun ev => match ev with EvSendMsg m => Some m | _ => None end) evs.

(** The submissions of a message, through either call of the backend. *)
Definition isSubmission (ev : Event) : bool :=
  match ev with EvSendMsg _ | EvSendSimpleMsg _ => true | _ => false end.

(** The log of [w] continues the log of [w0], by calls of [P] only. *)
Definition only {E : Env} (P : Event -> bool) (w0 w : World E) : Prop :=
  exists evs, calls w = (calls w0 ++ evs)%list /\ forallb P evs = true.

(** The four handlers that send, and the calls each of them is written
    with. *)
Inductive Handler : Type :=
| HSendMessage
| HSendBusinessNotification
| HBatchSendMsg
| HSendSimpleMessage.

Definition footprint (h : Handler) (ev : Event) : bool :=
  match ev with
  | EvBindJSON | EvDeriveDescriptor => true
  | EvSendMsg _ =>
      match h with HSendSimpleMessage => false | _ => true end
  | EvGetNotificationByID _ =>
      match h with HSendMessage | HBatchSendMsg => true | _ => false end
  | EvSetSendMsgStatus _ =>
      match h with HSendMessage | HSendSimpleMessage => true | _ => false end
  | EvGetAllUserIDs _ _ =>
      match h with HBatchSendMsg => true | _ => false end
  | EvBase64Decode _ | EvUnmarshalKey _ | EvJsonMarshal _
  | EvSendSimpleMsg _ =>
      match h with HSendSimpleMessage => true | _ => false end
  end.

(** [fullPages s j pages s']: asked for its pages by the requests [j],
    [j + 1], ... in turn, from state [s] on, the directory answers with the
    full pages [pages], and is left in state [s']. *)
Inductive fullPages {E : Env}
    : Services E -> nat -> list (list string) -> Services E -> Prop :=
| fullPages_nil s j : fullPages s j [] s
| fullPages_cons s j ids s' rest s'' :
    rpcGetAllUserIDs E (pageNumberAt j) showNumber s = (s', inr ids) ->
    (showNumber <= Z.of_nat (length ids))%Z ->
    fullPages s' (S j) rest s'' ->
    fullPages s j (ids :: rest) s''.

(** What the diff stores for a field's value: the content bytes as text. *)
Definition rendered (name : string) (v : Value) : Value :=
  if bool_decide (name = "content") then
    match v with VBytes bs => VString bs | v => v end
  else v.

(** A diff reports no field of the acknowledgment structure. *)
Definition skipsAcknowledgment (E : Env) (modify : option (gmap string Value))
    : Prop :=
  forall fields field,
    modify = Some fields ->
    field ∈ SendMsgResp_Fields E -> HasJSONName field = true ->
    fields !! JSONName field = None.

(** ** The descriptor list. *)

Lemma skipSet_acc (respFields : list FieldDescriptor) (acc : gset string)
    (name : string) :
  name ∈ foldl (fun skip field =>
                  if HasJSONName field then {[ JSONName field ]} ∪ skip
                  else skip) acc respFields
  <-> name ∈ acc
      \/ exists field, field ∈ respFields /\ HasJSONName field = true
                       /\ JSONName field = name.
Proof.
  revert acc. induction respFields as [|f rest IH]; intros acc; simpl.
  - split; [auto | intros [?|(f & Hf & _)]; [done | by apply elem_of_nil in Hf]].
  - rewrite IH. split.
    + intros [Hin | (g & Hg & Hj & Hn)].
      * destruct (HasJSONName f) eqn:Hf.
        -- apply elem_of_union in Hin as [Hin | Hin]; [|by left].
           apply elem_of_singleton in Hin. right. exists f.
           split; [apply list_elem_of_here | done].
        -- by left.
      * right. exists g. split; [by apply list_elem_of_further | done].
    + intros [Hin | (g & Hg & Hj & Hn)].
      * left. destruct (HasJSONName f); [|done].
        apply elem_of_union. by right.
      * apply elem_of_cons in Hg as [-> | Hg].
        -- left. rewrite Hj. apply elem_of_union. left.
           by apply elem_of_singleton.
        -- right. by exists g.
Qed.

(** The skip set holds exactly the JSON names of the response structure. *)
Lemma skipSet_spec (respFields : list FieldDescriptor) (name : string) :
  name ∈ skipSet respFields
  <-> exists field, field ∈ respFields /\ HasJSONName field = true
                    /\ JSONName field = name.
Proof.
  unfold skipSet. rewrite skipSet_acc. split; [|by right].
  intros [Hin | H]; [set_solver | done].
Qed.

Lemma derive_acc (skip : gset string) (fields acc : list FieldDescriptor) :
  foldl (fun acc field =>
           if negb (HasJSONName field) then acc
           else if bool_decide (JSONName field ∈ skip) then acc
           else (acc ++ [field])%list) acc fields
  = (acc ++ filter (fun field => HasJSONName field = true
                                 /\ JSONName field ∉ skip) fields)%list.
Proof.
  revert acc. induction fields as [|f rest IH]; intros acc; simpl.
  - by rewrite filter_nil, app_nil_r.
  - rewrite IH, filter_cons.
    destruct (decide (HasJSONName f = true /\ JSONName f ∉ skip))
      as [[Hf Hout] | Hno].
    + rewrite Hf; simpl. rewrite bool_decide_eq_false_2 by done.
      by rewrite <- app_assoc.
    + destruct (HasJSONName f) eqn:Hf; simpl; [|done].
      rewrite bool_decide_eq_true_2; [done|].
      destruct (decide (JSONName f ∈ skip)); [done|]. by destruct Hno.
Qed.

(** The derived list keeps, in order, the fields of [MsgData] that have a
    JSON name outside the skip set. *)
Lemma deriveMsgDataDescriptor_filter (respFields fields : list FieldDescriptor) :
  deriveMsgDataDescriptor respFields fields
  = filter (fun field => HasJSONName field = true
                         /\ JSONName field ∉ skipSet respFields) fields.
Proof. unfold deriveMsgDataDescriptor. by rewrite derive_acc. Qed.

Lemma deriveMsgDataDescriptor_elem (respFields fields : list FieldDescriptor)
    (d : FieldDescriptor) :
  d ∈ deriveMsgDataDescriptor respFields fields ->
  d ∈ fields /\ HasJSONName d = true /\ JSONName d ∉ skipSet respFields.
Proof.
  rewrite deriveMsgDataDescriptor_filter, list_elem_of_filter. tauto.
Qed.

(** ** The diff loop. *)

Lemma Value_Equal_refl (v : Value) : Value_Equal v v = true.
Proof. unfold Value_Equal. by apply bool_decide_eq_true. Qed.

(** A key of the diff is the JSON name of a listed field whose two values
    differ, or was in the map before. *)
Lemma modifyLoop_acc_key (descriptors : list FieldDescriptor)
    (req resp : MsgData.t) (acc : gmap string Value) (name : string) :
  is_Some (foldl (modifyStep req resp) acc descriptors !! name) ->
  is_Some (acc !! name)
  \/ exists d, d ∈ descriptors /\ JSONName d = name
               /\ Value_Equal (ProtoGet req d) (ProtoGet resp d) = false.
Proof.
  revert acc. induction descriptors as [|d rest IH]; intros acc; simpl.
  - by left.
  - intros H. apply IH in H as [H | (d' & Hd' & Hn & Hne)].
    + unfold modifyStep in H.
      destruct (Value_Equal (ProtoGet req d) (ProtoGet resp d)) eqn:Heq;
        simpl in H; [by left|].
      destruct (decide (JSONName d = name)) as [Hn | Hn].
      * right. exists d. split; [apply list_elem_of_here | done].
      * rewrite lookup_insert_ne in H by done. by left.
    + right. exists d'. split; [by apply list_elem_of_further | done].
Qed.

Lemma modifyLoop_key (descriptors : list FieldDescriptor)
    (req resp : MsgData.t) (name : string) :
  is_Some (modifyLoop descriptors req resp !! name) ->
  exists d, d ∈ descriptors /\ JSONName d = name
            /\ Value_Equal (ProtoGet req d) (ProtoGet resp d) = false.
Proof.
  intros H. apply modifyLoop_acc_key in H as [H | H]; [|done].
  rewrite lookup_empty in H. by destruct H.
Qed.

(** A listed field whose values agree leaves the map as it is. *)
Lemma modifyLoop_acc_equal (descriptors : list FieldDescriptor)
    (req resp : MsgData.t) (acc : gmap string Value) :
  (forall d, d ∈ descriptors ->
             Value_Equal (ProtoGet req d) (ProtoGet resp d) = true) ->
  foldl (modifyStep req resp) acc descriptors = acc.
Proof.
  revert acc. induction descriptors as [|d rest IH]; intros acc Heq; simpl.
  - done.
  - rewrite IH by (intros d' Hd'; apply Heq; by apply list_elem_of_further).
    unfold modifyStep. rewrite Heq by apply list_elem_of_here. done.
Qed.

Lemma nilIfEmpty_Some (fields m : gmap string Value) :
  nilIfEmpty fields = Some m -> m = fields /\ fields <> ∅.
Proof.
  unfold nilIfEmpty. case_bool_decide; [done|]. intros [= <-]. done.
Qed.

(** ** Reasoning about handler steps. *)
Section Steps.

Context {E : Env}.

Lemma bind_inr {A B : Type} (m : M E A) (k : A -> M E B) w w' b :
  bind E m k w = (w', inr b) ->
  exists w1 a, m w = (w1, inr a) /\ k a w1 = (w', inr b).
Proof.
  unfold bind. destruct (m w) as [w1 [e|a]]; [done|]. intros H. by exists w1, a.
Qed.

Lemma bind_inl {A B : Type} (m : M E A) (k : A -> M E B) w w' e :
  bind E m k w = (w', inl e) ->
  m w = (w', inl e)
  \/ exists w1 a, m w = (w1, inr a) /\ k a w1 = (w', inl e).
Proof.
  unfold bind. destruct (m w) as [w1 [e1|a]].
  - intros [= <- <-]. by left.
  - intros H. right. by exists w1, a.
Qed.

Lemma bind_ok {A B : Type} (m : M E A) (k : A -> M E B) w w1 a :
  m w = (w1, inr a) -> bind E m k w = k a w1.
Proof. unfold bind. by intros ->. Qed.

Lemma bind_fail {A B : Type} (m : M E A) (k : A -> M E B) w w1 e :
  m w = (w1, inl e) -> bind E m k w = (w1, inl e).
Proof. unfold bind. by intros ->. Qed.

Lemma ret_inr {A : Type} (a b : A) (w w' : World E) :
  ret E a w = (w', inr b) -> w' = w /\ b = a.
Proof. unfold ret. by intros [= <- <-]. Qed.

Lemma require_inr (cond : bool) (e : Error) (w w' : World E) (u : unit) :
  require E cond e w = (w', inr u) -> cond = true /\ w' = w.
Proof. unfold require, ret, throw. destruct cond; [by intros [= <-]|done]. Qed.

Lemma logged_inr {A : Type} (ev : Event) (r : Error + A) (w w' : World E) a :
  logged E ev r w = (w', inr a) -> r = inr a /\ w' = addCall ev w.
Proof. unfold logged. by intros [= <- <-]. Qed.

Lemma argsError_inr {A : Type} (r : string + A) (a : A) :
  argsError r = inr a -> r = inr a.
Proof. destruct r; simpl; congruence. Qed.

(** ** What [getSendMsgReq] returns when it returns an envelope: the
    builder's result at the request, whose session type alone may have been
    rewritten. *)
Lemma selectElem_inr (req : SendMsg.t) w w' kind req' :
  selectElem E req w = (w', inr (kind, req')) ->
  req' = req
  \/ req' = SendMsg.set_SessionType constant.NotificationChatType req.
Proof.
  unfold selectElem. intros H.
  repeat case_bool_decide;
    try (apply ret_inr in H as [_ Heq]; injection Heq as _ ->; by left).
  - apply bind_inr in H as (w1 & u & _ & H).
    apply ret_inr in H as [_ Heq]. injection Heq as _ ->. by right.
  - by unfold throw in H.
Qed.

Lemma getSendMsgReq_inr (draw : Entropy E) (now : Z) (req : SendMsg.t) w w' m :
  getSendMsgReq E draw now req w = (w', inr m) ->
  exists req' data,
    m = newUserSendMsgReq E draw now req' data
    /\ (req' = req
        \/ req' = SendMsg.set_SessionType constant.NotificationChatType req).
Proof.
  unfold getSendMsgReq. intros H.
  apply bind_inr in H as (w1 & [kind req'] & Hsel & H).
  apply selectElem_inr in Hsel. unfold throw in H.
  destruct (WeakDecode E (SendMsg.Content req') kind) as [text|data]; [done|].
  destruct (validateStruct E data); [done|].
  apply ret_inr in H as [_ ->]. by exists req', data.
Qed.

End Steps.

(** ** Invariants of the world.

    A property of the world that survives a logged call, a move of the
    services and a diff survives every handler. *)
Section Invariant.

Context {E : Env}.
Variable I : World E -> Prop.
Hypothesis I_addCall :
  forall ev w, isDerive ev = false -> I w -> I (addCall ev w).
Hypothesis I_setServices : forall s w, I w -> I (setServices s w).
Hypothesis I_getModifyFields :
  forall req resp w, I w -> I (fst (getModifyFields E req resp w)).

Lemma keeps_ret {A : Type} (a : A) : keeps I (ret E a).
Proof. by intros w. Qed.

Lemma keeps_throw {A : Type} (e : Error) : keeps I (throw E (A := A) e).
Proof. by intros w. Qed.

Lemma keeps_bind {A B : Type} (m : M E A) (k : A -> M E B) :
  keeps I m -> (forall a, keeps I (k a)) -> keeps I (bind E m k).
Proof.
  intros Hm Hk w Hw. unfold bind. specialize (Hm w Hw).
  destruct (m w) as [w1 [e|a]]; [done|]. by apply Hk.
Qed.

Lemma keeps_logged {A : Type} (ev : Event) (r : Error + A) :
  isDerive ev = false -> keeps I (logged E ev r).
Proof. intros Hev w Hw. by apply I_addCall. Qed.

Lemma keeps_rpc {A : Type} (ev : Event)
    (f : Services E -> Services E * (Error + A)) :
  isDerive ev = false -> keeps I (rpc E ev f).
Proof.
  intros Hev w Hw. unfold rpc. destruct (f (services w)) as [s' r]; simpl.
  by apply I_setServices, I_addCall.
Qed.

Lemma keeps_rpcErr (ev : Event)
    (f : Services E -> Services E * option Error) :
  isDerive ev = false -> keeps I (rpcErr E ev f).
Proof. intros Hev. by apply keeps_rpc. Qed.

Lemma keeps_require (cond : bool) (e : Error) : keeps I (require E cond e).
Proof. intros w Hw. unfold require. by destruct cond. Qed.

Lemma keeps_lift {A : Type} (f : World E -> World E * A) :
  (forall w, I w -> I (fst (f w))) -> keeps I (lift E f).
Proof.
  intros Hf w Hw. unfold lift. specialize (Hf w Hw). by destruct (f w).
Qed.

Create HintDb keeps.

#[local] Hint Resolve keeps_ret keeps_throw keeps_logged keeps_rpc keeps_rpcErr
  keeps_require I_getModifyFields : keeps.

Ltac keeps_steps :=
  repeat first
    [ solve [eauto with keeps]
    | apply keeps_bind; [|intros ?]
    | apply keeps_lift; intros ? ?
    | case_bool_decide
    | match goal with
      | |- keeps _ (match ?x with _ => _ end) => destruct x
      | |- keeps _ (let '(_, _) := ?x in _) => destruct x
      end ].

Lemma keeps_getSendMsgReq (draw : Entropy E) (now : Z) (req : SendMsg.t) :
  keeps I (getSendMsgReq E draw now req).
Proof. unfold getSendMsgReq, selectElem. keeps_steps. Qed.

#[local] Hint Resolve keeps_getSendMsgReq : keeps.

Lemma keeps_ginRespSendMsg (req : MsgData.t) (resp : SendMsgResp.t) :
  keeps I (ginRespSendMsg E req resp).
Proof. unfold ginRespSendMsg. keeps_steps. Qed.

Lemma keeps_recordAndRespond (req : MsgData.t) (resp : SendMsgResp.t) :
  keeps I (recordAndRespond E req resp).
Proof. unfold recordAndRespond. keeps_steps. Qed.

#[local] Hint Resolve keeps_ginRespSendMsg keeps_recordAndRespond : keeps.

Lemma keeps_SendMessage_envelope (draw : Entropy E) (now : Z) (c : Context.t) :
  keeps I (SendMessage_envelope E draw now c).
Proof. unfold SendMessage_envelope. keeps_steps. Qed.

Lemma keeps_SendBusinessNotification_envelope (draw : Entropy E) (now : Z)
    (c : Context.t) :
  keeps I (SendBusinessNotification_envelope E draw now c).
Proof. unfold SendBusinessNotification_envelope. keeps_steps. Qed.

Lemma keeps_SendSimpleMessage_envelope (draw : Entropy E) (c : Context.t) :
  keeps I (SendSimpleMessage_envelope E draw c).
Proof. unfold SendSimpleMessage_envelope. keeps_steps. Qed.

#[local] Hint Resolve keeps_SendMessage_envelope
  keeps_SendBusinessNotification_envelope keeps_SendSimpleMessage_envelope
  : keeps.

Lemma keeps_respond {R : Type} (m : M E R) (w : World E) :
  keeps I m -> I w -> I (fst (respond E m w)).
Proof.
  intros Hm Hw. unfold respond. specialize (Hm w Hw).
  by destruct (m w) as [w1 [e|r]].
Qed.

Lemma inv_SendMessage (draw : Entropy E) (now : Z) (c : Context.t)
    (w : World E) :
  I w -> I (fst (SendMessage E draw now c w)).
Proof. apply keeps_respond. keeps_steps. Qed.

Lemma inv_SendBusinessNotification (draw : Entropy E) (now : Z) (c : Context.t)
    (w : World E) :
  I w -> I (fst (SendBusinessNotification E draw now c w)).
Proof. apply keeps_respond. keeps_steps. Qed.

Lemma inv_SendSimpleMessage (draw : Entropy E) (c : Context.t) (w : World E) :
  I w -> I (fst (SendSimpleMessage E draw c w)).
Proof. apply keeps_respond. keeps_steps. Qed.

Lemma inv_sendLoop (sendMsgReq : MsgData.t) (recvIDs : list string)
    (resp : BatchSendMsgResp.t) (w : World E) :
  I w -> I (fst (sendLoop E sendMsgReq recvIDs resp w)).
Proof.
  revert sendMsgReq resp w.
  induction recvIDs as [|recvID rest IH]; intros sendMsgReq resp w Hw; simpl.
  - done.
  - pose proof (keeps_rpc
                  (EvSendMsg (MsgData.set_RecvID recvID sendMsgReq))
                  (rpcSendMsg E (MsgData.set_RecvID recvID sendMsgReq))
                  eq_refl w Hw) as H1.
    destruct (rpc E _ _ w) as [w1 [e|rpcResp]]; simpl in H1.
    + by apply IH.
    + pose proof (I_getModifyFields
                    (Some (MsgData.set_RecvID recvID sendMsgReq))
                    (SendMsgResp.Modify rpcResp) w1 H1) as H2.
      destruct (getModifyFields E _ _ w1) as [w2 modify]. by apply IH.
Qed.

Lemma inv_getAllUserIDsLoop (fuel : nat) (pageNumber : Z)
    (recvIDs : list string) (w w' : World E) r :
  getAllUserIDsLoop E fuel pageNumber recvIDs w = Some (w', r) ->
  I w -> I w'.
Proof.
  revert pageNumber recvIDs w.
  induction fuel as [|fuel IH]; intros pageNumber recvIDs w; simpl; [done|].
  intros H Hw.
  pose proof (keeps_rpc (EvGetAllUserIDs pageNumber showNumber)
                (rpcGetAllUserIDs E pageNumber showNumber) eq_refl w Hw) as H1.
  destruct (rpc E _ _ w) as [w1 [e|part]]; simpl in H1.
  - by simplify_eq.
  - destruct (Z.of_nat (length part) <? showNumber)%Z.
    + by simplify_eq.
    + by eapply IH.
Qed.

Lemma inv_BatchSendMsg (draw : Entropy E) (fuel : nat) (now : Z) (c : Context.t)
    (w w' : World E) r :
  BatchSendMsg E draw fuel now c w = Some (w', r) -> I w -> I w'.
Proof.
  unfold BatchSendMsg. intros H Hw.
  assert (keeps I (bind E
            (logged E EvBindJSON
               (argsError (bindBatchSendMsgReq E (Context.Body c))))
            (fun req => bind E (require E (Context.IsAdmin c) onlyAppManager)
                          (fun _ => ret E req)))) as Hk by keeps_steps.
  specialize (Hk w Hw). destruct (bind E _ _ w) as [w1 [e|req]]; simpl in Hk.
  - by simplify_eq.
  - unfold resolveRecvIDs in H.
    assert (exists w2 r2,
               (if BatchSendMsgReq.IsSendAll req
                then getAllUserIDsLoop E fuel 1 [] w1
                else Some (w1, inr (BatchSendMsgReq.RecvIDs req)))
               = Some (w2, r2) /\ I w2) as (w2 & r2 & Hres & Hw2).
    { destruct (BatchSendMsgReq.IsSendAll req).
      - destruct (getAllUserIDsLoop E fuel 1 [] w1) as [[w2 r2]|] eqn:Hl;
          [|done].
        exists w2, r2. split; [done|]. by eapply inv_getAllUserIDsLoop.
      - by eexists _, _. }
    rewrite Hres in H. destruct r2 as [e|recvIDs].
    + by simplify_eq.
    + simplify_eq. replace w' with (fst (w', r)) by done. rewrite <- H.
      apply keeps_respond; [|done].
      keeps_steps. by apply inv_sendLoop.
Qed.

End Invariant.

(** ** The descriptor cache is sound in every state of the process. *)
Section Cache.

Context {E : Env}.

Lemma derivations_app (evs evs' : list Event) :
  derivations (evs ++ evs') = derivations evs + derivations evs'.
Proof. unfold derivations. by rewrite List.filter_app, length_app. Qed.

Lemma derivations_snoc (evs : list Event) (ev : Event) :
  derivations (evs ++ [ev])
  = derivations evs + (if isDerive ev then 1 else 0).
Proof.
  rewrite derivations_app. unfold derivations at 2. simpl.
  by destruct (isDerive ev).
Qed.

Lemma cacheOK_init (s : Services E) : cacheOK (initWorld E s).
Proof. reflexivity. Qed.

Lemma cacheOK_addCall (ev : Event) (w : World E) :
  isDerive ev = false -> cacheOK w -> cacheOK (addCall ev w).
Proof.
  unfold cacheOK, addCall; simpl. intros Hev.
  rewrite derivations_snoc, Hev, Nat.add_0_r. done.
Qed.

Lemma cacheOK_setServices (s : Services E) (w : World E) :
  cacheOK w -> cacheOK (setServices s w).
Proof. done. Qed.

(** The getter always hands out the derived list; it runs the derivation
    when the flag is not set, and leaves the world alone when it is. *)
Lemma getMsgDataDescriptor_spec (w : World E) :
  cacheOK w ->
  cacheOK (fst (getMsgDataDescriptor E w))
  /\ snd (getMsgDataDescriptor E w)
     = deriveMsgDataDescriptor (SendMsgResp_Fields E) (MsgData_Fields E)
  /\ msgDataDescriptorOnce (fst (getMsgDataDescriptor E w)) = true
  /\ (msgDataDescriptorOnce w = true -> fst (getMsgDataDescriptor E w) = w).
Proof.
  unfold cacheOK, getMsgDataDescriptor.
  destruct (msgDataDescriptorOnce w) eqn:Honce; simpl.
  - rewrite Honce. intros [Hd Hn]. done.
  - intros Hn. rewrite derivations_snoc, Hn. done.
Qed.

Lemma cacheOK_getModifyFields (req resp : option MsgData.t) (w : World E) :
  cacheOK w -> cacheOK (fst (getModifyFields E req resp w)).
Proof.
  intros Hw. unfold getModifyFields.
  destruct req as [req|], resp as [resp|]; try done.
  pose proof (getMsgDataDescriptor_spec w Hw) as (Hok & _).
  destruct (getMsgDataDescriptor E w) as [w' ds]. done.
Qed.

(** Every state of the process has a sound cache: the derivation has run at
    most once, and once it has run the cached list is the derived one. *)
Lemma reachable_cacheOK (w : World E) : reachable w -> cacheOK w.
Proof.
  induction 1.
  - apply cacheOK_init.
  - by apply cacheOK_addCall.
  - by apply cacheOK_setServices.
  - by apply cacheOK_getModifyFields.
Qed.

(** The handlers take a state of the process to a state of the process. *)
Lemma reachable_SendMessage (draw : Entropy E) (now : Z) (c : Context.t)
    (w : World E) :
  reachable w -> reachable (fst (SendMessage E draw now c w)).
Proof.
  apply inv_SendMessage; auto using @reach_call, @reach_services, @reach_diff.
Qed.

Lemma reachable_SendBusinessNotification (draw : Entropy E) (now : Z)
    (c : Context.t)
    (w : World E) :
  reachable w -> reachable (fst (SendBusinessNotification E draw now c w)).
Proof.
  apply inv_SendBusinessNotification;
    auto using @reach_call, @reach_services, @reach_diff.
Qed.

Lemma reachable_SendSimpleMessage (draw : Entropy E) (c : Context.t)
    (w : World E) :
  reachable w -> reachable (fst (SendSimpleMessage E draw c w)).
Proof.
  apply inv_SendSimpleMessage;
    auto using @reach_call, @reach_services, @reach_diff.
Qed.

Lemma reachable_BatchSendMsg (draw : Entropy E) (fuel : nat) (now : Z)
    (c : Context.t)
    (w w' : World E) r :
  BatchSendMsg E draw fuel now c w = Some (w', r) ->
  reachable w -> reachable w'.
Proof.
  apply inv_BatchSendMsg; auto using @reach_call, @reach_services, @reach_diff.
Qed.

End Cache.

(** ** The call log only grows. *)
Section Log.

Context {E : Env}.

Lemma extends_refl (w : World E) : extends w w.
Proof. exists []. by rewrite app_nil_r. Qed.

Lemma extends_addCall (w0 : World E) ev w :
  extends w0 w -> extends w0 (addCall ev w).
Proof.
  intros [evs Hevs]. exists (evs ++ [ev])%list. simpl.
  by rewrite Hevs, app_assoc.
Qed.

Lemma extends_setServices (w0 : World E) s w :
  extends w0 w -> extends w0 (setServices s w).
Proof. done. Qed.

Lemma extends_getModifyFields (w0 : World E) req resp w :
  extends w0 w -> extends w0 (fst (getModifyFields E req resp w)).
Proof.
  intros [evs Hevs]. unfold getModifyFields.
  destruct req as [req|], resp as [resp|]; try by exists evs.
  unfold getMsgDataDescriptor. destruct (msgDataDescriptorOnce w); simpl.
  - by exists evs.
  - exists (evs ++ [EvDeriveDescriptor])%list. by rewrite Hevs, app_assoc.
Qed.

(** A step that follows an envelope only adds to the log. *)
Lemma extends_respond {R : Type} (m : M E R) (w : World E) :
  keeps (extends w) m -> extends w (fst (respond E m w)).
Proof. intros Hm. apply keeps_respond; [done | apply extends_refl]. Qed.

End Log.

(** ** The diff engine. *)

(** What [getModifyFields] computes in a state whose cache is sound: the
    loop over the derived list. *)
Lemma getModifyFields_sound (E : Env) (w : World E) (req resp : MsgData.t) :
  cacheOK w ->
  snd (getModifyFields E (Some req) (Some resp) w)
  = nilIfEmpty
      (modifyLoop
         (deriveMsgDataDescriptor (SendMsgResp_Fields E) (MsgData_Fields E))
         req resp).
Proof.
  intros Hw. unfold getModifyFields.
  pose proof (getMsgDataDescriptor_spec w Hw) as (_ & Hd & _).
  destruct (getMsgDataDescriptor E w) as [w' ds]. simpl in *. by rewrite Hd.
Qed.

(** C3: the diff never reports a field whose JSON name is a JSON name of the
    acknowledgment structure [SendMsgResp], whatever the two envelopes hold;
    and the descriptor list behind it is derived lazily and once: in every
    state of the process the derivation has run at most once and not at all
    before the first diff, a diff of two envelopes leaves the flag set with
    the derived list cached and exactly one derivation in the log, and a
    diff in a state whose flag is set changes nothing. *)
Theorem getModifyFields_skips_acknowledgment_fields
    (E : Env) (w : World E) (req resp : option MsgData.t) :
  reachable w ->
  let w' := fst (getModifyFields E req resp w) in
  let modify := snd (getModifyFields E req resp w) in
  (forall fields field,
      modify = Some fields ->
      field ∈ SendMsgResp_Fields E -> HasJSONName field = true ->
      fields !! JSONName field = None)
  /\ reachable w'
  /\ derivations (calls w') <= 1
  /\ (msgDataDescriptorOnce w = false -> derivations (calls w) = 0)
  /\ (msgDataDescriptorOnce w = true -> w' = w)
  /\ (is_Some req -> is_Some resp ->
      msgDataDescriptorOnce w' = true
      /\ msgDataDescriptor w'
         = deriveMsgDataDescriptor (SendMsgResp_Fields E) (MsgData_Fields E)
      /\ derivations (calls w') = 1).
Proof.
  intros Hreach w' modify.
  assert (reachable w') as Hreach' by by apply reach_diff.
  pose proof (reachable_cacheOK w Hreach) as Hw.
  pose proof (reachable_cacheOK w' Hreach') as Hw'.
  split; [|split; [done|split; [|split; [|split]]]].
  - intros fields field Hm Hin Hjson.
    destruct req as [req|], resp as [resp|]; try done.
    subst modify. rewrite getModifyFields_sound in Hm by done.
    apply nilIfEmpty_Some in Hm as [-> _].
    destruct (modifyLoop _ req resp !! JSONName field) as [v|] eqn:Hl; [|done].
    exfalso.
    apply mk_is_Some, modifyLoop_key in Hl as (d & Hd & Hn & _).
    apply deriveMsgDataDescriptor_elem in Hd as (_ & _ & Hout).
    apply Hout, skipSet_spec. exists field. by rewrite Hn.
  - unfold cacheOK in Hw'. destruct (msgDataDescriptorOnce w'); lia.
  - intros Hoff. unfold cacheOK in Hw. by rewrite Hoff in Hw.
  - intros Hon. subst w'. unfold getModifyFields.
    destruct req as [req|], resp as [resp|]; try done.
    pose proof (getMsgDataDescriptor_spec w Hw) as (_ & _ & _ & Hsame).
    destruct (getMsgDataDescriptor E w) as [w1 ds]. by apply Hsame.
  - intros [req' ->] [resp' ->]. subst w'. unfold getModifyFields in *.
    pose proof (getMsgDataDescriptor_spec w Hw) as (Hok & _ & Hset & _).
    destruct (getMsgDataDescriptor E w) as [w1 ds]. simpl in *.
    unfold cacheOK in Hok. rewrite Hset in Hok. by destruct Hok.
Qed.

(** In the concrete environment, first diff of the process: the backend has
    assigned the server ID and the send time and has rewritten the content;
    only the content is reported. *)
Lemma getModifyFields_skips_acknowledgment_fields_witness :
  let E := Stub.env (Stub.mkConfig [] false true []) in
  let req := newUserSendMsgReq E Stub.reading 1700000000000
      (Stub.sendMsg false false 0)
               (Elem.mk TextElem []) in
  let ack := Stub.acknowledged (Stub.mkConfig [] false true []) req in
  ProtoGet req (mkFD 5 true "serverMsgID") <> ProtoGet ack (mkFD 5 true "serverMsgID")
  /\ snd (getModifyFields E (Some req) (Some ack) (initWorld E 0))
     = Some {[ "content" := VString "***" ]}
  /\ forall fields field,
      snd (getModifyFields E (Some req) (Some ack) (initWorld E 0)) = Some fields ->
      field ∈ SendMsgResp_Fields E -> HasJSONName field = true ->
      fields !! JSONName field = None.
Proof.
  intros E req ack. split; [done|]. split; [by vm_compute|].
  apply (getModifyFields_skips_acknowledgment_fields E (initWorld E 0)
           (Some req) (Some ack)).
  apply reach_init.
Defined.

(** C6: in every state of the process, the diff of an envelope against an
    acknowledgment that echoes every compared field is the nil map, and so
    is the diff of an envelope against itself; and no diff is ever an empty
    map. *)
Theorem getModifyFields_reflexive
    (E : Env) (w : World E) (req resp : MsgData.t) :
  reachable w ->
  Forall (fun d => Value_Equal (ProtoGet req d) (ProtoGet resp d) = true)
         (deriveMsgDataDescriptor (SendMsgResp_Fields E) (MsgData_Fields E)) ->
  snd (getModifyFields E (Some req) (Some resp) w) = None
  /\ snd (getModifyFields E (Some req) (Some req) w) = None
  /\ forall req' resp' w0, snd (getModifyFields E req' resp' w0) <> Some ∅.
Proof.
  intros Hw%reachable_cacheOK Hecho. split; [|split].
  - rewrite getModifyFields_sound by done. unfold modifyLoop.
    rewrite modifyLoop_acc_equal; [done|].
    intros d Hd. rewrite Forall_forall in Hecho. by apply Hecho.
  - rewrite getModifyFields_sound by done. unfold modifyLoop.
    rewrite modifyLoop_acc_equal; [done|]. intros d _. apply Value_Equal_refl.
  - intros req' resp' w0. unfold getModifyFields.
    destruct req' as [req'|], resp' as [resp'|]; try done.
    destruct (getMsgDataDescriptor E w0) as [w1 ds]; simpl.
    unfold nilIfEmpty. case_bool_decide; [done|]. by intros [=].
Qed.

(** In the concrete environment: the backend assigns the server ID and the
    send time, which are not compared, and echoes the rest. *)
Lemma getModifyFields_reflexive_witness :
  let E := Stub.env Stub.quiet in
  let req := newUserSendMsgReq E Stub.reading 1700000000000
      (Stub.sendMsg false false 0)
               (Elem.mk TextElem []) in
  let ack := Stub.acknowledged Stub.quiet req in
  ack <> req
  /\ snd (getModifyFields E (Some req) (Some ack) (initWorld E 0)) = None.
Proof.
  intros E req ack. split; [done|].
  apply (getModifyFields_reflexive E (initWorld E 0) req ack).
  - apply reach_init.
  - refine (bool_decide_unpack _ _). by vm_compute.
Defined.

(** ** The delivery-option toggles. *)

Lemma SetOptions_lookup (options : gmap string bool) (value : bool)
    (key : string) :
  SetOptions options value !! key
  = if bool_decide (key ∈ [constant.IsHistory; constant.IsPersistent;
                           constant.IsSenderSync;
                           constant.IsConversationUpdate])
    then Some value else options !! key.
Proof.
  unfold SetOptions, SetSwitchFromOptions.
  case_bool_decide as Hin.
  - set_unfold in Hin.
    destruct Hin as [-> | [-> | [-> | [-> | []]]]]; by simplify_map_eq.
  - set_unfold in Hin.
    rewrite !lookup_insert_ne by (intros <-; tauto). done.
Qed.

(** C5: whatever option flag set the toggles are applied to and whatever
    the other toggle is, [onlineOnly] maps history, persistence, sender sync
    and conversation update to false, and [suppressOfflinePush] maps offline
    push to false; a toggle that is off leaves the switches it names as they
    were; and the envelope the builder makes carries the toggles of the
    request applied to the empty set. *)
Theorem applyToggles_forces_switches
    (E : Env) (draw : Entropy E) (base : gmap string bool) (other : bool)
    (now : Z) (params : SendMsg.t) (data : Elem.t) :
  (applyToggles base true other !! constant.IsHistory = Some false
   /\ applyToggles base true other !! constant.IsPersistent = Some false
   /\ applyToggles base true other !! constant.IsSenderSync = Some false
   /\ applyToggles base true other !! constant.IsConversationUpdate
      = Some false)
  /\ applyToggles base other true !! constant.IsOfflinePush = Some false
  /\ (forall key, key <> constant.IsOfflinePush ->
                  applyToggles base false other !! key = base !! key)
  /\ applyToggles base other false !! constant.IsOfflinePush
     = base !! constant.IsOfflinePush
  /\ MsgData.Options (newUserSendMsgReq E draw now params data)
     = applyToggles ∅ (SendMsg.IsOnlineOnly params)
                    (SendMsg.NotOfflinePush params).
Proof.
  unfold applyToggles. split; [|split; [|split; [|split]]].
  - unfold SetSwitchFromOptions at 1 2 3 4.
    destruct other;
      rewrite ?lookup_insert_ne by done; rewrite !SetOptions_lookup; done.
  - unfold SetSwitchFromOptions. by rewrite lookup_insert_eq.
  - intros key Hkey. destruct other; [|done].
    unfold SetSwitchFromOptions. by rewrite lookup_insert_ne.
  - destruct other; [|done]. by rewrite SetOptions_lookup.
  - done.
Qed.

(** ** The envelopes the handlers submit. *)
Section Envelopes.

Context {E : Env}.

Lemma SendMessage_envelope_inr (draw : Entropy E) (now : Z) (c : Context.t) w
    w' m :
  SendMessage_envelope E draw now c w = (w', inr m) ->
  exists req m0,
    bindSendMsgReq E (Context.Body c) = inr req
    /\ Context.IsAdmin c = true
    /\ getSendMsgReq E draw now (SendMsgReq.SendMsg req) (addCall EvBindJSON w)
       = (w', inr m0)
    /\ m = MsgData.set_RecvID (SendMsgReq.RecvID req) m0.
Proof.
  unfold SendMessage_envelope. intros H.
  apply bind_inr in H as (w1 & req & Hbind & H).
  apply logged_inr in Hbind as [Hbind ->]. apply argsError_inr in Hbind.
  apply bind_inr in H as (w2 & u & Hadm & H).
  apply require_inr in Hadm as [Hadm ->].
  apply bind_inr in H as (w3 & m0 & Hget & H).
  apply ret_inr in H as [-> ->]. by exists req, m0.
Qed.

Lemma SendBusinessNotification_envelope_inr (draw : Entropy E) (now : Z)
    (c : Context.t) w w' m :
  SendBusinessNotification_envelope E draw now c w = (w', inr m) ->
  exists req sessionType reliabilityLevel,
    bindBusinessNotificationReq E (Context.Body c) = inr req
    /\ Context.IsAdmin c = true
    /\ m = businessNotificationMsgData E draw now c req sessionType
        reliabilityLevel
    /\ w' = addCall EvBindJSON w.
Proof.
  unfold SendBusinessNotification_envelope. intros H.
  apply bind_inr in H as (w1 & req & Hbind & H).
  apply logged_inr in Hbind as [Hbind ->]. apply argsError_inr in Hbind.
  apply bind_inr in H as (w2 & u & Hc1 & H). apply require_inr in Hc1 as [_ ->].
  apply bind_inr in H as (w3 & u' & Hc2 & H). apply require_inr in Hc2 as [_ ->].
  apply bind_inr in H as (w4 & u'' & Hadm & H).
  apply require_inr in Hadm as [Hadm ->].
  apply ret_inr in H as [-> ->]. by eexists req, _, _.
Qed.

(** What a quick send has gone through when it has an envelope to submit. *)
Lemma SendSimpleMessage_envelope_inr (draw : Entropy E) (c : Context.t) w w' m :
  SendSimpleMessage_envelope E draw c w = (w', inr m) ->
  exists encodedKey decodedData req keyMsgData content,
    Context.Query c !! webhook.Key = Some encodedKey
    /\ base64DecodeString E encodedKey = inr decodedData
    /\ bindSendSingleMsgReq E (Context.Body c) = inr req
    /\ jsonUnmarshalKeyMsgData E decodedData = inr keyMsgData
    /\ KeyMsgData.SendID keyMsgData <> ""
    /\ (simpleRouting keyMsgData req).1.1 <> ""
    /\ JsonMarshalMarkdownTextElem E (SendSingleMsgReq.Content req)
       = inr content
    /\ m = simpleMsgData E draw keyMsgData req
             (simpleRouting keyMsgData req).1.1
             (simpleRouting keyMsgData req).1.2
             (simpleRouting keyMsgData req).2 content
    /\ calls w'
       = (calls w ++ [EvBase64Decode encodedKey; EvBindJSON;
                      EvUnmarshalKey decodedData;
                      EvJsonMarshal (SendSingleMsgReq.Content req)])%list.
Proof.
  unfold SendSimpleMessage_envelope. intros H.
  apply bind_inr in H as (w1 & encodedKey & Hq & H).
  destruct (Context.Query c !! webhook.Key) as [k|] eqn:Hkey;
    [|by unfold throw in Hq].
  apply ret_inr in Hq as [-> ->].
  apply bind_inr in H as (w2 & decodedData & Hb64 & H).
  apply logged_inr in Hb64 as [Hb64 ->]. apply argsError_inr in Hb64.
  apply bind_inr in H as (w3 & req & Hbind & H).
  apply logged_inr in Hbind as [Hbind ->]. apply argsError_inr in Hbind.
  apply bind_inr in H as (w4 & keyMsgData & Hun & H).
  apply logged_inr in Hun as [Hun ->]. apply argsError_inr in Hun.
  destruct (simpleRouting keyMsgData req) as [[sendID sessionType] recvID]
    eqn:Hroute.
  apply bind_inr in H as (w5 & u & Hc1 & H).
  apply require_inr in Hc1 as [Hc1 ->].
  apply bind_inr in H as (w6 & u' & Hc2 & H).
  apply require_inr in Hc2 as [Hc2 ->].
  apply bind_inr in H as (w7 & content & Hjs & H).
  apply logged_inr in Hjs as [Hjs ->].
  apply ret_inr in H as [-> ->].
  apply negb_true_iff, bool_decide_eq_false in Hc1, Hc2.
  destruct (JsonMarshalMarkdownTextElem E (SendSingleMsgReq.Content req))
    as [e|content'] eqn:Hm; [done|]. injection Hjs as ->.
  exists k, decodedData, req, keyMsgData, content. rewrite Hroute.
  repeat split; try done.
  unfold addCall; simpl. by rewrite <- !app_assoc.
Qed.

End Envelopes.

Lemma getSendMsgReq_fields (E : Env) (draw : Entropy E) (now : Z)
    (req : SendMsg.t) w w' m :
  getSendMsgReq E draw now req w = (w', inr m) ->
  MsgData.SendID m = SendMsg.SendID req
  /\ MsgData.ClientMsgID m = GetMsgIDByMD5 E draw (SendMsg.SendID req)
  /\ MsgData.CreateTime m = now
  /\ MsgData.SendTime m = SendMsg.SendTime req.
Proof.
  intros H. apply getSendMsgReq_inr in H as (req' & data & -> & [-> | ->]);
    done.
Qed.





(** On the business-notification path the operating user makes a
    difference as well: two notifications of the sender "u1", sent by two
    operators at the same reading of the generator, carry two IDs. *)
Example ClientMsgID_business_notification :
  let E := Stub.env Stub.quiet in
  exists w1 m1 w2 m2,
    SendBusinessNotification_envelope E Stub.reading 1700000000000
      (Stub.context None Stub.businessBody "admin1") (initWorld E 0)
    = (w1, inr m1)
    /\ SendBusinessNotification_envelope E Stub.reading 1700000000000
         (Stub.context None Stub.businessBody "admin2") (initWorld E 0)
       = (w2, inr m2)
    /\ MsgData.SendID m1 = "u1" /\ MsgData.SendID m2 = "u1"
    /\ MsgData.ClientMsgID m1 = GetMsgIDByMD5 E Stub.reading "admin1"
    /\ MsgData.ClientMsgID m2 = GetMsgIDByMD5 E Stub.reading "admin2"
    /\ MsgData.ClientMsgID m1 <> MsgData.ClientMsgID m2.
Proof.
  intros E. eexists _, _, _, _.
  split; [by vm_compute|]. split; [by vm_compute|]. by vm_compute.
Qed.

(** ** Submission: the call that follows the envelope. *)
Section Submission.

Context {E : Env}.

Ltac extends_closed :=
  first
    [ apply extends_refl
    | intros;
      first [ apply extends_addCall | apply extends_setServices
            | apply extends_getModifyFields ];
      assumption ].

Lemma recordAndRespond_extends (m : MsgData.t) (respPb : SendMsgResp.t)
    (w : World E) :
  extends w (fst (recordAndRespond E m respPb w)).
Proof.
  apply (keeps_recordAndRespond (extends w)); extends_closed.
Qed.

Lemma ginRespSendMsg_extends (m : MsgData.t) (respPb : SendMsgResp.t)
    (w : World E) :
  extends w (fst (ginRespSendMsg E m respPb w)).
Proof.
  apply (keeps_ginRespSendMsg (extends w)); extends_closed.
Qed.

(** A handler that has an envelope calls the backend with it next. *)
Lemma respond_submit_calls {R : Type} (ev : Event)
    (f : Services E -> Services E * (Error + SendMsgResp.t))
    (k : SendMsgResp.t -> M E R) (w : World E) :
  (forall respPb w1, extends w1 (fst (k respPb w1))) ->
  exists rest,
    calls (fst (respond E (bind E (rpc E ev f) k) w))
    = (calls w ++ ev :: rest)%list.
Proof.
  intros Hk. unfold respond, bind, rpc.
  destruct (f (services w)) as [s' [e|respPb]]; simpl.
  - by exists [].
  - specialize (Hk respPb (setServices s' (addCall ev w))).
    destruct (k respPb _) as [w2 [e|r]]; simpl in *;
      destruct Hk as [evs ->]; exists evs; simpl; by rewrite <- app_assoc.

Qed.

Lemma SendSimpleMessage_submits (draw : Entropy E) (c : Context.t) (w w' :
    World E) m :
  SendSimpleMessage_envelope E draw c w = (w', inr m) ->
  exists rest,
    calls (fst (SendSimpleMessage E draw c w))
    = (calls w' ++ EvSendSimpleMsg m :: rest)%list.
Proof.
  intros H. unfold SendSimpleMessage, respond.
  rewrite (bind_ok _ _ _ _ _ H).
  apply (respond_submit_calls (EvSendSimpleMsg m) (rpcSendSimpleMsg E m)
           (recordAndRespond E m) w').
  intros respPb w1. apply recordAndRespond_extends.
Qed.

Lemma SendMessage_submits (draw : Entropy E) (now : Z) (c : Context.t) (w w' :
    World E) m :
  SendMessage_envelope E draw now c w = (w', inr m) ->
  exists rest,
    calls (fst (SendMessage E draw now c w))
    = (calls w' ++ EvSendMsg m :: rest)%list.
Proof.
  intros H. unfold SendMessage, respond.
  rewrite (bind_ok _ _ _ _ _ H).
  apply (respond_submit_calls (EvSendMsg m) (rpcSendMsg E m)
           (recordAndRespond E m) w').
  intros respPb w1. apply recordAndRespond_extends.
Qed.

Lemma SendBusinessNotification_submits (draw : Entropy E) (now : Z)
    (c : Context.t)
    (w w' : World E) m :
  SendBusinessNotification_envelope E draw now c w = (w', inr m) ->
  exists rest,
    calls (fst (SendBusinessNotification E draw now c w))
    = (calls w' ++ EvSendMsg m :: rest)%list.
Proof.
  intros H. unfold SendBusinessNotification, respond.
  rewrite (bind_ok _ _ _ _ _ H).
  apply (respond_submit_calls (EvSendMsg m) (rpcSendMsg E m)
           (ginRespSendMsg E m) w').
  intros respPb w1. apply ginRespSendMsg_extends.
Qed.

End Submission.

(** X24: the envelopes of single send, batch send and business-notification
    send carry the clock's reading at build time as creation time, whatever
    send time the caller supplied; single and batch send carry the caller's
    send time as it came, and business-notification and quick send, whose
    requests have none, leave it unset. *)
Theorem CreateTime_now_SendTime_untouched (E : Env) (draw : Entropy E) :
  (forall now c w w' m,
      SendMessage_envelope E draw now c w = (w', inr m) ->
      MsgData.CreateTime m = now
      /\ exists req,
          bindSendMsgReq E (Context.Body c) = inr req
          /\ MsgData.SendTime m = SendMsg.SendTime (SendMsgReq.SendMsg req))
  /\ (forall now req w w' m recvID,
         getSendMsgReq E draw now req w = (w', inr m) ->
         MsgData.CreateTime (MsgData.set_RecvID recvID m) = now
         /\ MsgData.SendTime (MsgData.set_RecvID recvID m)
            = SendMsg.SendTime req)
  /\ (forall now c w w' m,
         SendBusinessNotification_envelope E draw now c w = (w', inr m) ->
         MsgData.CreateTime m = now /\ MsgData.SendTime m = 0%Z)
  /\ (forall c w w' m,
         SendSimpleMessage_envelope E draw c w = (w', inr m) ->
         MsgData.SendTime m = 0%Z).
Proof.
  split; [|split; [|split]].
  - intros now c w w' m H.
    apply SendMessage_envelope_inr in H as (req & m0 & Hb & _ & H & ->).
    apply getSendMsgReq_fields in H as (_ & _ & Hc & Hs).
    split; [done|]. by exists req.
  - intros now req w w' m recvID H.
    by apply getSendMsgReq_fields in H as (_ & _ & Hc & Hs).
  - intros now c w w' m H.
    apply SendBusinessNotification_envelope_inr in H
      as (req & st & rl & _ & _ & -> & _). done.
  - intros c w w' m H.
    apply SendSimpleMessage_envelope_inr in H
      as (? & ? & ? & ? & ? & _ & _ & _ & _ & _ & _ & _ & -> & _). done.
Qed.

(** A batch template built at 1700000000000 from a request whose send time
    is 5. *)
Lemma CreateTime_now_SendTime_untouched_witness :
  let E := Stub.env Stub.quiet in
  exists w' m,
    getSendMsgReq E Stub.reading 1700000000000 (Stub.sendMsg false false 5)
        (initWorld E 0)
    = (w', inr m)
    /\ MsgData.CreateTime (MsgData.set_RecvID "u2" m) = 1700000000000%Z
    /\ MsgData.SendTime (MsgData.set_RecvID "u2" m) = 5%Z.
Proof.
  intros E.
  destruct (getSendMsgReq E Stub.reading 1700000000000 (Stub.sendMsg false
      false 5)
              (initWorld E 0)) as [w' [e|m]] eqn:H; [by vm_compute in H|].
  exists w', m. split; [done|].
  exact (proj1 (proj2 (CreateTime_now_SendTime_untouched E Stub.reading))
           1700000000000%Z (Stub.sendMsg false false 5) (initWorld E 0)
           w' m "u2" H).
Defined.

(** C7: the claim fails on the quick-send path.  The envelope literal of
    [SendSimpleMessage] sets no [CreateTime], unlike the literals of
    [newUserSendMsgReq] and [SendBusinessNotification]: the envelope that
    quick send submits carries the creation time 0, not the clock's
    reading. *)
Lemma CreateTime_quick_send_counterexample :
  let E := Stub.env Stub.quiet in
  let c := Stub.context (Some Stub.directKey) Stub.quickBody "admin" in
  exists w' m rest,
    SendSimpleMessage_envelope E Stub.reading c (initWorld E 0) = (w', inr m)
    /\ calls (fst (SendSimpleMessage E Stub.reading c (initWorld E 0)))
       = (calls w' ++ EvSendSimpleMsg m :: rest)%list
    /\ MsgData.CreateTime m = 0%Z.
Proof.
  intros E c. eexists _, _, _.
  split; [by vm_compute|]. split; by vm_compute.
Qed.

(** ** Quick send. *)

(** C9: in quick send, a key without group ID puts the key's recipient ID
    on the envelope as sender and the key's sender ID as recipient; a key
    with a group ID takes the sender from the request body and leaves the
    recipient empty.  The envelope is the one the backend is called with. *)
Theorem SendSimpleMessage_roles
    (E : Env) (draw : Entropy E) (c : Context.t) (w w' : World E) (m :
        MsgData.t)
    (encodedKey : string) (decodedData : bytes)
    (req : SendSingleMsgReq.t) (keyMsgData : KeyMsgData.t) :
  Context.Query c !! webhook.Key = Some encodedKey ->
  base64DecodeString E encodedKey = inr decodedData ->
  bindSendSingleMsgReq E (Context.Body c) = inr req ->
  jsonUnmarshalKeyMsgData E decodedData = inr keyMsgData ->
  SendSimpleMessage_envelope E draw c w = (w', inr m) ->
  (exists rest,
      calls (fst (SendSimpleMessage E draw c w))
      = (calls w' ++ EvSendSimpleMsg m :: rest)%list)
  /\ (KeyMsgData.GroupID keyMsgData = "" ->
        MsgData.SendID m = KeyMsgData.RecvID keyMsgData
        /\ MsgData.RecvID m = KeyMsgData.SendID keyMsgData
        /\ MsgData.GroupID m = ""
        /\ MsgData.SessionType m = constant.SingleChatType)
  /\ (KeyMsgData.GroupID keyMsgData <> "" ->
        MsgData.SendID m = SendSingleMsgReq.SendID req
        /\ MsgData.RecvID m = ""
        /\ MsgData.GroupID m = KeyMsgData.GroupID keyMsgData
        /\ MsgData.SessionType m = constant.ReadGroupChatType).
Proof.
  intros Hq Hb Hbind Hun H. split; [by apply SendSimpleMessage_submits|].
  apply SendSimpleMessage_envelope_inr in H
    as (k' & d' & req' & key' & content & Hq' & Hb' & Hbind' & Hun' & _ & _
        & _ & -> & _).
  rewrite Hq in Hq'. injection Hq' as <-.
  rewrite Hb in Hb'. injection Hb' as <-.
  rewrite Hbind in Hbind'. injection Hbind' as <-.
  rewrite Hun in Hun'. injection Hun' as <-.
  unfold simpleRouting, simpleMsgData.
  split; intros Hg; case_bool_decide; simpl; done.
Qed.

(** A direct key whose sender is "u1" and whose recipient is "bot": the
    envelope goes from "bot" to "u1".  A group key for "g1", with "bot" as
    the sender of the body: the envelope goes from "bot" to the group. *)
Lemma SendSimpleMessage_roles_witness :
  let E := Stub.env Stub.quiet in
  let direct := Stub.context (Some Stub.directKey) Stub.quickBody "admin" in
  let group := Stub.context (Some Stub.groupKey) Stub.groupQuickBody "admin" in
  (exists w' m,
      SendSimpleMessage_envelope E Stub.reading direct (initWorld E 0) = (w',
          inr m)
      /\ MsgData.SendID m = "bot" /\ MsgData.RecvID m = "u1"
      /\ MsgData.GroupID m = "")
  /\ (exists w' m,
         SendSimpleMessage_envelope E Stub.reading group (initWorld E 0) = (w',
             inr m)
         /\ MsgData.SendID m = "bot" /\ MsgData.RecvID m = ""
         /\ MsgData.GroupID m = "g1").
Proof.
  intros E direct group. split.
  - destruct (SendSimpleMessage_envelope E Stub.reading direct (initWorld E 0))
      as [w' [e|m]] eqn:H; [by vm_compute in H|].
    exists w', m. split; [done|].
    destruct (SendSimpleMessage_roles E Stub.reading direct (initWorld E 0) w' m
                Stub.directKey Stub.directKeyData
                (SendSingleMsgReq.mk "" "hello" None "")
                (KeyMsgData.mk "u1" "bot" ""))
      as (_ & Hdirect & _); try reflexivity; [exact H|].
    destruct (Hdirect eq_refl) as (Hs & Hr & Hg & _). done.
  - destruct (SendSimpleMessage_envelope E Stub.reading group (initWorld E 0))
      as [w' [e|m]] eqn:H; [by vm_compute in H|].
    exists w', m. split; [done|].
    destruct (SendSimpleMessage_roles E Stub.reading group (initWorld E 0) w' m
                Stub.groupKey Stub.groupKeyData
                (SendSingleMsgReq.mk "bot" "hello" None "")
                (KeyMsgData.mk "u1" "" "g1"))
      as (_ & _ & Hgroup); try reflexivity; [exact H|].
    destruct (Hgroup ltac:(done)) as (Hs & Hr & Hg & _). done.
Defined.

(** C8, as the code has it.  A key that is not base64 fails the request
    with the decoding error and nothing else has run.  A key that decodes
    is followed by the binding of the body, whose error is the one
    reported; then a key whose bytes do not parse fails the request with
    the parse error, and a parsed key without sender ID fails it with
    "missing recvID or GroupID": in both cases the body has been bound,
    and neither the content serialization nor any backend call has run. *)
Theorem SendSimpleMessage_key_errors
    (E : Env) (draw : Entropy E) (c : Context.t) (w : World E) (encodedKey :
        string) :
  Context.Query c !! webhook.Key = Some encodedKey ->
  let w1 := addCall (EvBase64Decode encodedKey) w in
  let w2 := addCall EvBindJSON w1 in
  (forall text,
      base64DecodeString E encodedKey = inl text ->
      SendSimpleMessage E draw c w = (w1, GinError (ErrArgs text)))
  /\ (forall decodedData text,
         base64DecodeString E encodedKey = inr decodedData ->
         bindSendSingleMsgReq E (Context.Body c) = inl text ->
         SendSimpleMessage E draw c w = (w2, GinError (ErrArgs text)))
  /\ (forall decodedData req text,
         base64DecodeString E encodedKey = inr decodedData ->
         bindSendSingleMsgReq E (Context.Body c) = inr req ->
         jsonUnmarshalKeyMsgData E decodedData = inl text ->
         SendSimpleMessage E draw c w
         = (addCall (EvUnmarshalKey decodedData) w2, GinError (ErrArgs text)))
  /\ (forall decodedData req keyMsgData,
         base64DecodeString E encodedKey = inr decodedData ->
         bindSendSingleMsgReq E (Context.Body c) = inr req ->
         jsonUnmarshalKeyMsgData E decodedData = inr keyMsgData ->
         KeyMsgData.SendID keyMsgData = "" ->
         SendSimpleMessage E draw c w
         = (addCall (EvUnmarshalKey decodedData) w2,
            GinError (ErrArgs "missing recvID or GroupID"))).
Proof.
  intros Hq w1 w2. subst w1 w2.
  unfold SendSimpleMessage, SendSimpleMessage_envelope, respond, bind, logged,
    ret, throw.
  rewrite Hq. split; [|split; [|split]].
  - intros text ->. done.
  - intros decodedData text H1 H2. rewrite H1; simpl. by rewrite H2.
  - intros decodedData req text H1 H2 H3.
    rewrite H1; simpl. rewrite H2; simpl. by rewrite H3.
  - intros decodedData req keyMsgData H1 H2 H3 Hs.
    rewrite H1; simpl. rewrite H2; simpl. rewrite H3; simpl.
    destruct (simpleRouting keyMsgData req) as [[sendID sessionType] recvID].
    rewrite Hs. done.
Qed.

(** The key "!!!" is not base64: the request fails before the body, which
    would not bind either, is looked at.  The key "e30=" is base64 of an
    empty object, which names no sender: the request fails with the
    argument error, the body bound and nothing serialized or submitted. *)
Lemma SendSimpleMessage_key_errors_witness :
  let E := Stub.env Stub.quiet in
  bindSendSingleMsgReq E "{" = inl "unexpected EOF"
  /\ SendSimpleMessage E Stub.reading (Stub.context (Some Stub.notBase64Key)
      "{" "admin")
       (initWorld E 0)
     = (addCall (EvBase64Decode Stub.notBase64Key) (initWorld E 0),
        GinError (ErrArgs "illegal base64 data at input byte 0"))
  /\ SendSimpleMessage E Stub.reading
       (Stub.context (Some Stub.emptyKey) Stub.quickBody "admin")
       (initWorld E 0)
     = (mkWorld E 0 [] false
          [EvBase64Decode Stub.emptyKey; EvBindJSON; EvUnmarshalKey "{}"],
        GinError (ErrArgs "missing recvID or GroupID")).
Proof.
  intros E. split; [reflexivity|]. split.
  - apply (proj1 (SendSimpleMessage_key_errors E Stub.reading
                    (Stub.context (Some Stub.notBase64Key) "{" "admin")
                    (initWorld E 0) Stub.notBase64Key eq_refl)).
    reflexivity.
  - apply (proj2 (proj2 (proj2 (SendSimpleMessage_key_errors E Stub.reading
                    (Stub.context (Some Stub.emptyKey) Stub.quickBody "admin")
                    (initWorld E 0) Stub.emptyKey eq_refl)))
             "{}" (SendSingleMsgReq.mk "" "hello" None "")
             (KeyMsgData.mk "" "" ""));
      reflexivity.
Defined.

(** C8 as stated fails for a key that is base64 of bytes that do not
    parse: the body is bound before the key is parsed, and with a body that
    does not bind the request fails with the body's error. *)
Lemma SendSimpleMessage_malformed_key_counterexample :
  let E := Stub.env Stub.quiet in
  let c := Stub.context (Some Stub.notJsonKey) "{" "admin" in
  base64DecodeString E Stub.notJsonKey = inr "not json"
  /\ jsonUnmarshalKeyMsgData E "not json"
     = inl "invalid character 'o' in literal null (expecting 'u')"
  /\ bindSendSingleMsgReq E "{" = inl "unexpected EOF"
  /\ snd (SendSimpleMessage E Stub.reading c (initWorld E 0))
     = GinError (ErrArgs "unexpected EOF")
  /\ calls (fst (SendSimpleMessage E Stub.reading c (initWorld E 0)))
     = [EvBase64Decode Stub.notJsonKey; EvBindJSON].
Proof. intros E c. repeat split; by vm_compute. Qed.

(** ** Recording the delivery status. *)

Lemma recordAndRespond_status_error (E : Env) (m : MsgData.t)
    (respPb : SendMsgResp.t) (w : World E) s err :
  rpcSetSendMsgStatus E constant.MsgSendSuccessed (services w) = (s, Some err) ->
  recordAndRespond E m respPb w
  = (setServices s (addCall (EvSetSendMsgStatus constant.MsgSendSuccessed) w),
     inl err).
Proof.
  intros H. unfold recordAndRespond, bind, rpcErr, rpc. by rewrite H.
Qed.

Lemma recordAndRespond_inr (E : Env) (m : MsgData.t)
    (respPb : SendMsgResp.t) (w w' : World E) r :
  recordAndRespond E m respPb w = (w', inr r) ->
  exists s,
    rpcSetSendMsgStatus E constant.MsgSendSuccessed (services w) = (s, None).
Proof.
  unfold recordAndRespond, bind, rpcErr, rpc.
  destruct (rpcSetSendMsgStatus E _ (services w)) as [s [err|]]; [done|].
  intros _. by exists s.
Qed.

(** C10: in single send and in quick send, when the backend has accepted
    the submission and recording the delivery status fails, the handler
    answers with that error: no success result and no diff (the descriptor
    cache and the log show none), although the submission is in the log.
    A success answer needs the envelope, the accepted submission and the
    recorded status. *)
Theorem status_error_fails_the_send (E : Env) (draw : Entropy E) :
  (forall now c w w1 m s2 respPb s3 err,
      SendMessage_envelope E draw now c w = (w1, inr m) ->
      rpcSendMsg E m (services w1) = (s2, inr respPb) ->
      rpcSetSendMsgStatus E constant.MsgSendSuccessed s2 = (s3, Some err) ->
      SendMessage E draw now c w
      = (mkWorld E s3 (msgDataDescriptor w1) (msgDataDescriptorOnce w1)
           (calls w1 ++ [EvSendMsg m;
                         EvSetSendMsgStatus constant.MsgSendSuccessed]),
         GinError err))
  /\ (forall c w w1 m s2 respPb s3 err,
         SendSimpleMessage_envelope E draw c w = (w1, inr m) ->
         rpcSendSimpleMsg E m (services w1) = (s2, inr respPb) ->
         rpcSetSendMsgStatus E constant.MsgSendSuccessed s2 = (s3, Some err) ->
         SendSimpleMessage E draw c w
         = (mkWorld E s3 (msgDataDescriptor w1) (msgDataDescriptorOnce w1)
              (calls w1 ++ [EvSendSimpleMsg m;
                            EvSetSendMsgStatus constant.MsgSendSuccessed]),
            GinError err))
  /\ (forall now c w r,
         snd (SendMessage E draw now c w) = GinSuccess r ->
         exists w1 m s2 respPb s3,
           SendMessage_envelope E draw now c w = (w1, inr m)
           /\ rpcSendMsg E m (services w1) = (s2, inr respPb)
           /\ rpcSetSendMsgStatus E constant.MsgSendSuccessed s2 = (s3, None))
  /\ (forall c w r,
         snd (SendSimpleMessage E draw c w) = GinSuccess r ->
         exists w1 m s2 respPb s3,
           SendSimpleMessage_envelope E draw c w = (w1, inr m)
           /\ rpcSendSimpleMsg E m (services w1) = (s2, inr respPb)
           /\ rpcSetSendMsgStatus E constant.MsgSendSuccessed s2 = (s3, None)).
Proof.
  split; [|split; [|split]].
  - intros now c w w1 m s2 respPb s3 err Henv Hsend Hstatus.
    unfold SendMessage, respond. rewrite (bind_ok _ _ _ _ _ Henv).
    unfold bind at 1, rpc at 1. rewrite Hsend.
    rewrite (recordAndRespond_status_error E m respPb _ s3 err) by done.
    unfold setServices, addCall; simpl. by rewrite <- app_assoc.
  - intros c w w1 m s2 respPb s3 err Henv Hsend Hstatus.
    unfold SendSimpleMessage, respond. rewrite (bind_ok _ _ _ _ _ Henv).
    unfold bind at 1, rpc at 1. rewrite Hsend.
    rewrite (recordAndRespond_status_error E m respPb _ s3 err) by done.
    unfold setServices, addCall; simpl. by rewrite <- app_assoc.
  - intros now c w r H. unfold SendMessage, respond in H.
    destruct (bind E _ _ w) as [w' [e|r']] eqn:Hrun; [done|].
    apply bind_inr in Hrun as (w1 & m & Henv & Hrun).
    apply bind_inr in Hrun as (w2 & respPb & Hrpc & Hrec).
    apply recordAndRespond_inr in Hrec as [s3 Hrec].
    unfold rpc in Hrpc.
    destruct (rpcSendMsg E m (services w1)) as [s2 res] eqn:Hf.
    injection Hrpc as <- ->. by exists w1, m, s2, respPb, s3.
  - intros c w r H. unfold SendSimpleMessage, respond in H.
    destruct (bind E _ _ w) as [w' [e|r']] eqn:Hrun; [done|].
    apply bind_inr in Hrun as (w1 & m & Henv & Hrun).
    apply bind_inr in Hrun as (w2 & respPb & Hrpc & Hrec).
    apply recordAndRespond_inr in Hrec as [s3 Hrec].
    unfold rpc in Hrpc.
    destruct (rpcSendSimpleMsg E m (services w1)) as [s2 res] eqn:Hf.
    injection Hrpc as <- ->. by exists w1, m, s2, respPb, s3.
Qed.

(** A backend that accepts the message and then fails to record the status:
    the single send answers with the status error, one submission made. *)
Lemma status_error_fails_the_send_witness :
  let E := Stub.env (Stub.mkConfig [] true false []) in
  let c := Stub.context None Stub.textBody "admin" in
  snd (SendMessage E Stub.reading 1700000000000 c (initWorld E 0))
  = GinError (ErrExternal "rpc: status not recorded")
  /\ services (fst (SendMessage E Stub.reading 1700000000000 c (initWorld E
      0))) = 1.
Proof.
  intros E c.
  destruct (SendMessage_envelope E Stub.reading 1700000000000 c (initWorld E 0))
    as [w1 [e|m]] eqn:Henv; [by vm_compute in Henv|].
  rewrite (proj1 (status_error_fails_the_send E Stub.reading) 1700000000000%Z c
             (initWorld E 0) w1 m (S (services w1))
             {| SendMsgResp.ServerMsgID := "srv-1";
                SendMsgResp.ClientMsgID := MsgData.ClientMsgID m;
                SendMsgResp.SendTime := 1700000000123;
                SendMsgResp.Modify :=
                  Some (Stub.acknowledged (Stub.mkConfig [] true false []) m) |}
             (S (services w1)) (ErrExternal "rpc: status not recorded")
             Henv eq_refl eq_refl).
  split; [done|]. simpl. vm_compute in Henv. by simplify_eq.
Defined.

(** ** Batch send. *)
Section Batch.

Context {E : Env}.

Lemma submissions_app (evs evs' : list Event) :
  submissions (evs ++ evs') = (submissions evs ++ submissions evs')%list.
Proof. apply omap_app. Qed.

(** A diff adds no submission to the log and leaves the services alone. *)
Lemma getModifyFields_calls (req resp : option MsgData.t) (w : World E) :
  services (fst (getModifyFields E req resp w)) = services w
  /\ exists evs,
      calls (fst (getModifyFields E req resp w)) = (calls w ++ evs)%list
      /\ submissions evs = [].
Proof.
  unfold getModifyFields, getMsgDataDescriptor.
  destruct req as [req|], resp as [resp|];
    try (split; [done|]; exists []; by rewrite app_nil_r).
  destruct (msgDataDescriptorOnce w); simpl; (split; [done|]).
  - exists []. by rewrite app_nil_r.
  - by exists [EvDeriveDescriptor].
Qed.

(** The send loop visits every recipient, in order, whatever the verdicts:
    the refused ones are appended to the failure list, the others to the
    results. *)
Lemma sendLoop_verdicts (m : MsgData.t) (recvIDs : list string)
    (vs : list bool) (s : Services E) :
  verdicts m s recvIDs vs ->
  forall (sendMsgReq : MsgData.t) (resp : BatchSendMsgResp.t) (w : World E),
    services w = s ->
    (forall recvID,
        MsgData.set_RecvID recvID sendMsgReq = MsgData.set_RecvID recvID m) ->
    let out := sendLoop E sendMsgReq recvIDs resp w in
    BatchSendMsgResp.FailedIDs (snd out)
    = (BatchSendMsgResp.FailedIDs resp ++ withVerdict false recvIDs vs)%list
    /\ map SingleReturnResult.RecvID (BatchSendMsgResp.Results (snd out))
       = (map SingleReturnResult.RecvID (BatchSendMsgResp.Results resp)
          ++ withVerdict true recvIDs vs)%list
    /\ exists evs,
        calls (fst out) = (calls w ++ evs)%list /\ submissions evs = recvIDs.
Proof.
  induction 1 as [s | s recvID rest s' err vs Hrpc Hrest IH
                    | s recvID rest s' rpcResp vs Hrpc Hrest IH];
    intros sendMsgReq resp w Hs Hsame; simpl.
  - rewrite !app_nil_r. repeat split. exists []. by rewrite app_nil_r.
  - unfold rpc. rewrite Hs, Hsame, Hrpc.
    edestruct (IH (MsgData.set_RecvID recvID m)) as (Hf & Hr & evs & Hc & Hsub);
      [|done|rewrite Hf, Hr, Hc]; [done|]. simpl. rewrite <- !app_assoc.
    repeat split. eexists. split; [done|]. simpl. by rewrite Hsub.
  - unfold rpc. rewrite Hs, Hsame, Hrpc.
    destruct (getModifyFields_calls
                (Some (MsgData.set_RecvID recvID m))
                (SendMsgResp.Modify rpcResp)
                (setServices s'
                   (addCall (EvSendMsg (MsgData.set_RecvID recvID m)) w)))
      as (Hserv & evs0 & Hevs0 & Hsub0).
    destruct (getModifyFields E _ _ _) as [w2 modify]; simpl in Hserv, Hevs0.
    edestruct (IH (MsgData.set_RecvID recvID m)) as (Hf & Hr & evs & Hc & Hsub);
      [|done|rewrite Hf, Hr, Hc, Hevs0]; [done|]. simpl.
    rewrite map_app. simpl. rewrite <- !app_assoc.
    repeat split. eexists. split; [done|].
    rewrite !submissions_app. simpl. by rewrite Hsub0, Hsub.
Qed.

End Batch.

Lemma withVerdict_all_true (v : bool) (recvIDs : list string) :
  withVerdict v recvIDs (replicate (length recvIDs) true)
  = if v then recvIDs else [].
Proof.
  induction recvIDs as [|r rest IH]; simpl; [by destruct v|].
  rewrite IH. by destruct v.
Qed.

Lemma withVerdict_app (v : bool) (l1 l2 : list string) (vs1 vs2 : list bool) :
  length l1 = length vs1 ->
  withVerdict v (l1 ++ l2) (vs1 ++ vs2)
  = (withVerdict v l1 vs1 ++ withVerdict v l2 vs2)%list.
Proof.
  revert vs1. induction l1 as [|r l1 IH]; intros [|b vs1] Hlen; try done.
  simpl in *. rewrite IH by lia. by destruct (Bool.eqb b v).
Qed.

Lemma withVerdict_oneRefused (pre post : list string) (K : string) :
  withVerdict false (pre ++ K :: post) (oneRefused pre post) = [K]
  /\ withVerdict true (pre ++ K :: post) (oneRefused pre post)
     = (pre ++ post)%list.
Proof.
  unfold oneRefused.
  rewrite !withVerdict_app by (by rewrite length_replicate).
  simpl. rewrite !withVerdict_all_true. done.
Qed.

(** C2: a batch send over the recipients [pre ++ K :: post] in which the
    backend refuses the submission for [K] and accepts every other one
    answers with success: the failure list is [[K]], the results are those
    of the other recipients in their order, one fewer than the recipients,
    and every recipient has been submitted to, in order, those after [K]
    included. *)
Theorem BatchSendMsg_one_failure
    (E : Env) (draw : Entropy E) (fuel : nat) (now : Z) (c : Context.t) (w w1
        w2 : World E)
    (req : BatchSendMsgReq.t) (sendMsgReq : MsgData.t)
    (pre post : list string) (K : string) :
  bindBatchSendMsgReq E (Context.Body c) = inr req ->
  Context.IsAdmin c = true ->
  resolveRecvIDs E fuel req (addCall EvBindJSON w)
  = Some (w1, inr (pre ++ K :: post)%list) ->
  getSendMsgReq E draw now (BatchSendMsgReq.SendMsg req) w1
  = (w2, inr sendMsgReq) ->
  verdicts sendMsgReq (services w2) (pre ++ K :: post) (oneRefused pre post) ->
  exists w' resp evs,
    BatchSendMsg E draw fuel now c w = Some (w', GinSuccess resp)
    /\ BatchSendMsgResp.FailedIDs resp = [K]
    /\ map SingleReturnResult.RecvID (BatchSendMsgResp.Results resp)
       = (pre ++ post)%list
    /\ length (BatchSendMsgResp.Results resp)
       = length (pre ++ K :: post) - 1
    /\ calls w' = (calls w2 ++ evs)%list
    /\ submissions evs = (pre ++ K :: post)%list.
Proof.
  intros Hbind Hadmin Hres Hget Hverdicts.
  destruct (sendLoop_verdicts sendMsgReq _ _ _ Hverdicts sendMsgReq
              emptyBatchResp w2 eq_refl (fun _ => eq_refl))
    as (Hf & Hr & evs & Hcalls & Hsub).
  destruct (withVerdict_oneRefused pre post K) as [HfK HrK].
  rewrite HfK in Hf. rewrite HrK in Hr. simpl in Hf, Hr.
  destruct (sendLoop E sendMsgReq (pre ++ K :: post) emptyBatchResp w2)
    as [w' resp] eqn:Hloop. simpl in *.
  exists w', resp, evs. split; [|split; [done|split; [done|split; [|done]]]].
  - unfold BatchSendMsg.
    replace (bind E (logged E EvBindJSON
                       (argsError (bindBatchSendMsgReq E (Context.Body c))))
               _ w)
      with (addCall EvBindJSON w, inr req : Error + BatchSendMsgReq.t)
      by (unfold bind, logged, require, ret; by rewrite Hbind, Hadmin).
    rewrite Hres. unfold respond. rewrite (bind_ok _ _ _ _ _ Hget).
    unfold lift. by rewrite Hloop.
  - apply (f_equal length) in Hr. rewrite length_map in Hr. rewrite Hr.
    rewrite !length_app. simpl. lia.
Qed.

(** Three recipients, the backend refuses "u3": the failure list is
    ["u3"], the results are those of "u2" and "u4". *)
Lemma BatchSendMsg_one_failure_witness :
  let E := Stub.env (Stub.mkConfig ["u3"] false false []) in
  let c := Stub.context None Stub.batchBody "admin" in
  exists w' resp,
    BatchSendMsg E Stub.reading 0 1700000000000 c (initWorld E 0)
    = Some (w', GinSuccess resp)
    /\ BatchSendMsgResp.FailedIDs resp = ["u3"]
    /\ map SingleReturnResult.RecvID (BatchSendMsgResp.Results resp)
       = ["u2"; "u4"].
Proof.
  intros E c.
  destruct
      (getSendMsgReq E Stub.reading 1700000000000 (Stub.sendMsg false false 0)
              (addCall EvBindJSON (initWorld E 0)))
    as [w2 [e|m]] eqn:Hget; [by vm_compute in Hget|].
  assert (services w2 = 0) as Hs by (vm_compute in Hget; by simplify_eq).
  destruct (BatchSendMsg_one_failure E Stub.reading 0 1700000000000 c
      (initWorld E 0)
              (addCall EvBindJSON (initWorld E 0)) w2
              (BatchSendMsgReq.mk (Stub.sendMsg false false 0) false
                 ["u2"; "u3"; "u4"])
              m ["u2"] ["u4"] "u3" eq_refl eq_refl eq_refl Hget)
    as (w' & resp & evs & Hrun & Hf & Hr & _).
  - rewrite Hs.
    eapply verdicts_accepted; [reflexivity|].
    eapply verdicts_refused; [reflexivity|].
    eapply verdicts_accepted; [reflexivity|].
    apply verdicts_nil.
  - by exists w', resp.
Defined.

(** ** Paging through the directory. *)

(** Below the end of the [int32] range the page counter is the request's
    index plus one. *)
Lemma pageNumberAt_small (i : nat) :
  (Z.of_nat i < 2 ^ 31 - 1)%Z -> pageNumberAt i = (Z.of_nat i + 1)%Z.
Proof.
  unfold pageNumberAt. induction i as [|i IH]; intros Hi; [done|].
  rewrite Nat.iter_succ, IH by lia. unfold wrap32.
  rewrite Z.mod_small by lia. lia.
Qed.

(** The loop follows the directory's answers: it asks once per page, and
    stops with the short one. *)
Lemma getAllUserIDsLoop_answers (E : Env) (s : Services E) (j : nat)
    (pages : list (list string)) :
  answers s j pages ->
  forall (fuel : nat) (recvIDs : list string) (w : World E),
    services w = s ->
    length pages <= fuel ->
    exists w',
      getAllUserIDsLoop E fuel (pageNumberAt j) recvIDs w
      = Some (w', inr (recvIDs ++ concat pages)%list)
      /\ calls w' = (calls w ++ map requestAt (seq j (length pages)))%list.
Proof.
  induction 1 as [s j ids s' Hrpc Hshort | s j ids s' rest Hrpc Hfull Hrest IH];
    intros fuel recvIDs w Hs Hfuel;
    (destruct fuel as [|fuel]; [simpl in Hfuel; lia|]);
    simpl; unfold rpc; rewrite Hs, Hrpc.
  - apply Z.ltb_lt in Hshort. rewrite Hshort.
    eexists. split; [by rewrite app_nil_r|]. done.
  - apply Z.ltb_ge in Hfull. rewrite Hfull.
    change (wrap32 (pageNumberAt j + 1)) with (pageNumberAt (S j)).
    destruct (IH fuel (recvIDs ++ ids)%list
                (setServices s' (addCall (requestAt j) w)))
      as (w' & Hrun & Hcalls); [done|simpl in Hfuel; lia|].
    exists w'. split.
    + unfold requestAt in Hrun. rewrite Hrun. by rewrite <- app_assoc.
    + rewrite Hcalls. simpl. by rewrite <- app_assoc.
Qed.

(** C4: when "send to all" is requested and the directory answers with full
    pages and then a short one, the paging loop stops, given fuel for one
    request per page: it has asked once per page, the short page last and
    none after it, each time for 500 IDs, the recipients are the pages' IDs
    in order, as many as the pages hold together, and the page numbers
    asked for are 1, 2, 3, ... as long as the counter stays below the end
    of the [int32] range. *)
Theorem resolveRecvIDs_pages
    (E : Env) (pages : list (list string)) (fuel : nat)
    (req : BatchSendMsgReq.t) (w : World E) :
  BatchSendMsgReq.IsSendAll req = true ->
  answers (services w) 0 pages ->
  length pages <= fuel ->
  exists w',
    resolveRecvIDs E fuel req w = Some (w', inr (concat pages))
    /\ calls w' = (calls w ++ map requestAt (seq 0 (length pages)))%list
    /\ length (concat pages) = sum_list (map length pages)
    /\ (forall i, (Z.of_nat i < 2 ^ 31 - 1)%Z ->
                  requestAt i = EvGetAllUserIDs (Z.of_nat i + 1) 500).
Proof.
  intros Hall Hanswers Hfuel.
  destruct (getAllUserIDsLoop_answers E _ _ _ Hanswers fuel [] w eq_refl Hfuel)
    as (w' & Hrun & Hcalls).
  exists w'. unfold resolveRecvIDs. rewrite Hall.
  split; [done|]. split; [done|]. split.
  - clear. induction pages as [|ids rest IH]; [done|].
    simpl. by rewrite length_app, IH.
  - intros i Hi. unfold requestAt. by rewrite pageNumberAt_small.
Qed.

(** A directory of one full page and a page of three: two requests, for
    pages 1 and 2, and 503 recipients. *)
Lemma resolveRecvIDs_pages_witness :
  let E := Stub.env Stub.directory in
  let req := BatchSendMsgReq.mk (Stub.sendMsg false false 0) true [] in
  exists w',
    resolveRecvIDs E 2 req (initWorld E 0)
    = Some (w', inr (Stub.fullPage ++ ["x1"; "x2"; "x3"])%list)
    /\ calls w' = [EvGetAllUserIDs 1 500; EvGetAllUserIDs 2 500]
    /\ length (Stub.fullPage ++ ["x1"; "x2"; "x3"]) = 503.
Proof.
  intros E req.
  destruct (resolveRecvIDs_pages E [Stub.fullPage; ["x1"; "x2"; "x3"]] 2 req
              (initWorld E 0))
    as (w' & Hrun & Hcalls & _).
  - reflexivity.
  - eapply answers_full; [reflexivity|by vm_compute|].
    eapply answers_short; [reflexivity|by vm_compute].
  - simpl. lia.
  - exists w'. split; [|split; [done|reflexivity]]. rewrite Hrun. reflexivity.
Defined.

(** ** The content-type registry. *)

(** An envelope that [getSendMsgReq] returns carries the content type of the
    request; a notification has its session type rewritten, every other
    type keeps the request's. *)
Lemma getSendMsgReq_ContentType (E : Env) (draw : Entropy E) (now : Z)
    (req : SendMsg.t)
    (w w' : World E) (m : MsgData.t) :
  getSendMsgReq E draw now req w = (w', inr m) ->
  MsgData.ContentType m = SendMsg.ContentType req
  /\ (SendMsg.ContentType req = constant.OANotification ->
      MsgData.SessionType m = constant.NotificationChatType)
  /\ (SendMsg.ContentType req <> constant.OANotification ->
      MsgData.SessionType m = SendMsg.SessionType req).
Proof.
  unfold getSendMsgReq. intros H.
  apply bind_inr in H as (w1 & [kind req'] & Hsel & H). unfold throw in H.
  destruct (WeakDecode E (SendMsg.Content req') kind) as [text|data]; [done|].
  destruct (validateStruct E data); [done|].
  apply ret_inr in H as [_ ->]. simpl.
  unfold selectElem in Hsel.
  repeat case_bool_decide;
    try (apply ret_inr in Hsel as [_ Heq]; injection Heq as _ ->;
         split; [done|split; [intros Hc|done]];
         match goal with
         | Hct : SendMsg.ContentType req = _ |- _ => by rewrite Hc in Hct
         end).
  - apply bind_inr in Hsel as (w2 & u & _ & Hsel).
    apply ret_inr in Hsel as [_ Heq]. injection Heq as _ ->. done.
  - by unfold throw in Hsel.
Qed.

(** X2: a content type outside the registry fails the request before
    anything is decoded or called. *)
Lemma getSendMsgReq_unsupported (E : Env) (draw : Entropy E) (now : Z)
    (req : SendMsg.t)
    (w : World E) :
  SendMsg.ContentType req
    ∉ [constant.Text; constant.Picture; constant.Voice; constant.Video;
       constant.File; constant.AtText; constant.Custom;
       constant.MarkdownText; constant.OANotification] ->
  getSendMsgReq E draw now req w
  = (w, inl (ErrWrap (ErrArgs "") "unsupported content type")).
Proof.
  intros Hout. unfold getSendMsgReq, selectElem, bind.
  repeat (case_bool_decide as Hct;
          [exfalso; apply Hout; rewrite Hct;
           repeat (first [apply list_elem_of_here | apply list_elem_of_further])
          |clear Hct]).
  done.
Qed.

(** ** Runs in the concrete environment. *)

(** The text "hi" from "u1" to "u2", no options: the envelope submitted is
    a text message to "u2" whose option flags are all unset; the backend's
    changes to server ID and send time are not reported. *)
Example SendMessage_text :
  let E := Stub.env Stub.quiet in
  let c := Stub.context None Stub.textBody "admin" in
  exists w' m,
    SendMessage_envelope E Stub.reading 1700000000000 c (initWorld E 0) = (w',
        inr m)
    /\ MsgData.ContentType m = constant.Text
    /\ MsgData.RecvID m = "u2"
    /\ MsgData.Options m = ∅
    /\ snd (SendMessage E Stub.reading 1700000000000 c (initWorld E 0))
       = GinSuccess
           {| ApiSendMsgResp.SendMsgResp :=
                {| SendMsgResp.ServerMsgID := "srv-1";
                   SendMsgResp.ClientMsgID := "md5(1700000000000000000u142)";
                   SendMsgResp.SendTime := 1700000000123;
                   SendMsgResp.Modify := None |};
              ApiSendMsgResp.Modify := None |}.
Proof. intros E c. eexists _, _. by vm_compute. Qed.

(** A caller who is not an app manager is turned away after the body is
    bound, and nothing is sent. *)
Example SendMessage_not_admin :
  let E := Stub.env Stub.quiet in
  let c := Context.mk ∅ Stub.textBody false "u7" in
  SendMessage E Stub.reading 1700000000000 c (initWorld E 0)
  = (addCall EvBindJSON (initWorld E 0), GinError onlyAppManager).
Proof. reflexivity. Qed.

(** A broadcast over a directory of 503 users: two page requests, then 503
    submissions, all accepted. *)
Example BatchSendMsg_broadcast :
  let E := Stub.env Stub.directory in
  let c := Stub.context None Stub.broadcastBody "admin" in
  exists w' resp,
    BatchSendMsg E Stub.reading 2 1700000000000 c (initWorld E 0)
    = Some (w', GinSuccess resp)
    /\ length (BatchSendMsgResp.Results resp) = 503
    /\ BatchSendMsgResp.FailedIDs resp = []
    /\ submissions (calls w') = (Stub.fullPage ++ ["x1"; "x2"; "x3"])%list
    /\ derivations (calls w') = 1
    /\ BatchSendMsg E Stub.reading 1 1700000000000 c (initWorld E 0) = None.
Proof. intros E c. eexists _, _. by vm_compute. Qed.

(** ** More on the content-type registry. *)
Section Registry.

Context {E : Env}.

Lemma selectElem_registered (req : SendMsg.t) (kind : ElemKind) (w : World E) :
  elemKindOf (SendMsg.ContentType req) = Some kind ->
  SendMsg.ContentType req <> constant.OANotification ->
  selectElem E req w = (w, inr (kind, req)).
Proof.
  unfold elemKindOf, selectElem.
  repeat (case_bool_decide; [by intros [= <-]|]). done.
Qed.

Lemma selectElem_notification (req : SendMsg.t) (w : World E) :
  SendMsg.ContentType req = constant.OANotification ->
  selectElem E req w
  = bind E
      (rpcErr E (EvGetNotificationByID (SendMsg.SendID req))
         (rpcGetNotificationByID E (SendMsg.SendID req)))
      (fun _ =>
         ret E (OANotificationElem,
                SendMsg.set_SessionType constant.NotificationChatType req))
      w.
Proof. unfold selectElem. intros ->. done. Qed.

End Registry.

(** X1: the envelope [getSendMsgReq] returns carries the request's content
    type, sender ID and metadata, group, extension and push info, the origin
    "system", no recipient, and as content the JSON of the request's
    content, wrapped as the detail of a notification element for the
    notification type; the session type is the request's, rewritten to
    "notification" for the notification type. *)
Theorem getSendMsgReq_envelope_of_request
    (E : Env) (draw : Entropy E) (now : Z) (req : SendMsg.t) (w w' : World E)
        (m : MsgData.t) :
  getSendMsgReq E draw now req w = (w', inr m) ->
  MsgData.ContentType m = SendMsg.ContentType req
  /\ MsgData.SendID m = SendMsg.SendID req
  /\ MsgData.SessionType m
     = (if bool_decide (SendMsg.ContentType req = constant.OANotification)
        then constant.NotificationChatType else SendMsg.SessionType req)
  /\ MsgData.Content m
     = (if bool_decide (SendMsg.ContentType req = constant.OANotification)
        then notificationElemToJsonString E
               (contentToJsonString E (SendMsg.Content req))
        else contentToJsonString E (SendMsg.Content req))
  /\ MsgData.MsgFrom m = constant.SysMsgType
  /\ MsgData.RecvID m = ""
  /\ MsgData.GroupID m = SendMsg.GroupID req
  /\ MsgData.SenderPlatformID m = SendMsg.SenderPlatformID req
  /\ MsgData.SenderNickname m = SendMsg.SenderNickname req
  /\ MsgData.SenderFaceURL m = SendMsg.SenderFaceURL req
  /\ MsgData.OfflinePushInfo m = SendMsg.OfflinePushInfo req
  /\ MsgData.Ex m = SendMsg.Ex req.
Proof.
  intros H.
  destruct (getSendMsgReq_ContentType E draw now req w w' m H) as (Hct & Hnot &
      Hother).
  apply getSendMsgReq_inr in H as (req' & data & -> & Hreq').
  split; [done|]. split.
  { by destruct Hreq' as [-> | ->]. }
  split.
  { case_bool_decide; [by apply Hnot | by apply Hother]. }
  destruct Hreq' as [-> | ->]; simpl; repeat split; done.
Qed.

(** An at-mention message to a group. *)
Lemma getSendMsgReq_envelope_of_request_witness :
  let E := Stub.env Stub.quiet in
  exists w' m,
    getSendMsgReq E Stub.reading 1700000000000 Stub.atSendMsg (initWorld E 0)
    = (w', inr m)
    /\ MsgData.ContentType m = constant.AtText
    /\ MsgData.SendID m = "u1"
    /\ MsgData.SessionType m = constant.ReadGroupChatType
    /\ MsgData.GroupID m = "g1".
Proof.
  intros E.
  destruct (getSendMsgReq E Stub.reading 1700000000000 Stub.atSendMsg
      (initWorld E 0))
    as [w' [e|m]] eqn:H; [by vm_compute in H|].
  exists w', m. split; [done|].
  destruct (getSendMsgReq_envelope_of_request E Stub.reading _ _ _ _ _ H)
    as (Hct & Hs & Hst & _ & _ & _ & Hg & _).
  rewrite Hct, Hs, Hst, Hg. done.
Defined.

(** X3: for a registered content type other than the notification type,
    [getSendMsgReq] calls no service and logs nothing; a content that does
    not decode fails with "failed to decode message content", a decoded
    content that does not validate fails with "validation error", and
    otherwise the envelope is the builder's at the request as it came. *)
Theorem getSendMsgReq_registered
    (E : Env) (draw : Entropy E) (now : Z) (req : SendMsg.t) (kind : ElemKind)
        (w : World E) :
  elemKindOf (SendMsg.ContentType req) = Some kind ->
  SendMsg.ContentType req <> constant.OANotification ->
  getSendMsgReq E draw now req w = (w, decodeAndBuild E draw now req kind).
Proof.
  intros Hkind Hnot. unfold getSendMsgReq.
  rewrite (bind_ok _ _ _ _ _ (selectElem_registered req kind w Hkind Hnot)).
  unfold decodeAndBuild, throw, ret.
  destruct (WeakDecode E (SendMsg.Content req) kind) as [text|data]; [done|].
  by destruct (validateStruct E data).
Qed.

Lemma getSendMsgReq_registered_witness :
  let E := Stub.env Stub.quiet in
  fst (getSendMsgReq E Stub.reading 1700000000000 Stub.atSendMsg (initWorld E
      0))
  = initWorld E 0.
Proof.
  intros E.
  rewrite (getSendMsgReq_registered E Stub.reading 1700000000000 Stub.atSendMsg
      AtElem
             (initWorld E 0)); done.
Defined.

(** X4: for the notification type, [getSendMsgReq] first asks the user
    service about the sender, once; an error of that call is returned as it
    is, nothing decoded; otherwise the content is decoded and validated as
    an OA notification element, and the envelope is built from the request
    with its session type set to "notification". *)
Theorem getSendMsgReq_notification
    (E : Env) (draw : Entropy E) (now : Z) (req : SendMsg.t) (w : World E)
    (s' : Services E) (r : option Error) :
  SendMsg.ContentType req = constant.OANotification ->
  rpcGetNotificationByID E (SendMsg.SendID req) (services w) = (s', r) ->
  getSendMsgReq E draw now req w
  = (setServices s' (addCall (EvGetNotificationByID (SendMsg.SendID req)) w),
     match r with
     | Some err => inl err
     | None =>
         decodeAndBuild E draw now
           (SendMsg.set_SessionType constant.NotificationChatType req)
           OANotificationElem
     end).
Proof.
  intros Hct Hrpc. unfold getSendMsgReq. unfold bind at 1.
  rewrite (selectElem_notification req w Hct).
  unfold bind, rpcErr, rpc, ret. simpl. rewrite Hrpc.
  destruct r as [err|]; [done|]. unfold decodeAndBuild, throw. simpl.
  destruct (WeakDecode E (SendMsg.Content req) OANotificationElem)
    as [text|data]; [done|].
  by destruct (validateStruct E data).
Qed.

(** A notification from "u1": one call to the user service, then the
    envelope, a notification-session message. *)
Lemma getSendMsgReq_notification_witness :
  let E := Stub.env Stub.quiet in
  let req := Stub.withContentType constant.OANotification
               (Stub.sendMsg false false 0) in
  exists m,
    getSendMsgReq E Stub.reading 1700000000000 req (initWorld E 0)
    = (addCall (EvGetNotificationByID "u1") (initWorld E 0), inr m)
    /\ MsgData.SessionType m = constant.NotificationChatType.
Proof.
  intros E req. eexists.
  rewrite (getSendMsgReq_notification E Stub.reading 1700000000000 req
      (initWorld E 0)
             0 None eq_refl eq_refl).
  split; reflexivity.
Defined.

(** A message whose content type is 107, which the registry does not
    list. *)
Lemma getSendMsgReq_unsupported_witness :
  let E := Stub.env Stub.quiet in
  getSendMsgReq E Stub.reading 1700000000000
    (Stub.withContentType 107 (Stub.sendMsg false false 0)) (initWorld E 0)
  = (initWorld E 0, inl (ErrWrap (ErrArgs "") "unsupported content type")).
Proof.
  intros E.
  apply (getSendMsgReq_unsupported E Stub.reading 1700000000000
           (Stub.withContentType 107 (Stub.sendMsg false false 0))
           (initWorld E 0)).
  simpl. rewrite !elem_of_cons, elem_of_nil.
  unfold constant.Text, constant.Picture, constant.Voice, constant.Video,
    constant.File, constant.AtText, constant.Custom, constant.MarkdownText,
    constant.OANotification.
  intros H. repeat (destruct H as [H|H]; [discriminate H|]). exact H.
Defined.

(** X5: given that decoding fills the element structure it was handed, the
    envelope of an at-mention message carries the decoded list of mentioned
    users, and the envelope of every other content type, plain text
    included, carries none. *)
Theorem getSendMsgReq_AtUserIDList
    (E : Env) (draw : Entropy E) (now : Z) (req : SendMsg.t) (w w' : World E)
        (m : MsgData.t) :
  (forall content kind data,
      WeakDecode E content kind = inr data -> Elem.Kind data = kind) ->
  getSendMsgReq E draw now req w = (w', inr m) ->
  (SendMsg.ContentType req = constant.AtText ->
   exists data,
     WeakDecode E (SendMsg.Content req) AtElem = inr data
     /\ MsgData.AtUserIDList m = Elem.AtUserList data)
  /\ (SendMsg.ContentType req <> constant.AtText ->
      MsgData.AtUserIDList m = []).
Proof.
  intros Hkind H.
  destruct (elemKindOf (SendMsg.ContentType req)) as [kind|] eqn:Hk.
  2:{ unfold getSendMsgReq in H.
      apply bind_inr in H as (w1 & [kind req'] & Hsel & _).
      unfold elemKindOf, selectElem in *.
      repeat (case_bool_decide; [done|]). by unfold throw in Hsel. }
  destruct (decide (SendMsg.ContentType req = constant.OANotification))
    as [Hnot|Hnot].
  - destruct (rpcGetNotificationByID E (SendMsg.SendID req) (services w))
      as [s' r] eqn:Hrpc.
    rewrite (getSendMsgReq_notification E draw now req w s' r Hnot Hrpc) in H.
    destruct r as [err|]; [done|]. injection H as _ H.
    unfold decodeAndBuild in H.
    destruct (WeakDecode E _ OANotificationElem) as [text|data]; [done|].
    destruct (validateStruct E data); [done|]. injection H as <-.
    split; [intros Hat; by rewrite Hnot in Hat|]. intros _.
    unfold newUserSendMsgReq; simpl. rewrite Hnot.
    by rewrite bool_decide_eq_false_2 by (intros [?|?]; done).
  - rewrite (getSendMsgReq_registered E draw now req kind w Hk Hnot) in H.
    injection H as _ H. unfold decodeAndBuild in H.
    destruct (WeakDecode E (SendMsg.Content req) kind) as [text|data] eqn:Hd;
      [done|].
    destruct (validateStruct E data); [done|]. injection H as <-.
    apply Hkind in Hd as Hdk. split.
    + intros Hat. assert (kind = AtElem) as ->.
      { unfold elemKindOf in Hk. rewrite Hat in Hk. by injection Hk as <-. }
      exists data. split; [done|]. unfold newUserSendMsgReq; simpl.
      rewrite Hat, Hdk. by rewrite bool_decide_eq_true_2 by by right.
    + intros Hat. unfold newUserSendMsgReq; simpl.
      case_bool_decide as Hc; [|done].
      destruct Hc as [Htext|?]; [|done].
      assert (kind = TextElem) as ->.
      { unfold elemKindOf in Hk. rewrite Htext in Hk. by injection Hk as <-. }
      by rewrite Hdk.
Qed.

Lemma Stub_weakDecode_kind (cfg : Stub.Config) content kind data :
  WeakDecode (Stub.env cfg) content kind = inr data -> Elem.Kind data = kind.
Proof. simpl. unfold Stub.weakDecode. by intros [= <-]. Qed.

(** An at-mention message that names "u2" and "u3". *)
Lemma getSendMsgReq_AtUserIDList_witness :
  let E := Stub.env Stub.quiet in
  exists w' m,
    getSendMsgReq E Stub.reading 1700000000000 Stub.atSendMsg (initWorld E 0) =
        (w', inr m)
    /\ MsgData.AtUserIDList m = ["u2"; "u3"].
Proof.
  intros E.
  destruct (getSendMsgReq E Stub.reading 1700000000000 Stub.atSendMsg
      (initWorld E 0))
    as [w' [e|m]] eqn:H; [by vm_compute in H|].
  exists w', m. split; [done|].
  destruct (getSendMsgReq_AtUserIDList E Stub.reading _ _ _ _ _
              (Stub_weakDecode_kind Stub.quiet) H) as [Hat _].
  destruct (Hat eq_refl) as (data & Hd & ->).
  vm_compute in Hd. by injection Hd as <-.
Defined.

(** ** Business notifications. *)

(** X6: the envelope of a business notification is addressed to exactly one
    of a user and a group, and its session type says which; it is a
    system-originated business notification of the request's sender whose
    content is the key and the data wrapped in a notification element, and
    its options are those of the notification policy at the request's
    reliability level, 1 when the request names none, unread count off. *)
Theorem SendBusinessNotification_envelope_addressing
    (E : Env) (draw : Entropy E) (now : Z) (c : Context.t) (w w' : World E) (m
        : MsgData.t) :
  SendBusinessNotification_envelope E draw now c w = (w', inr m) ->
  exists req,
    bindBusinessNotificationReq E (Context.Body c) = inr req
    /\ w' = addCall EvBindJSON w
    /\ MsgData.SendID m = BusinessNotificationReq.SendUserID req
    /\ MsgData.RecvID m = BusinessNotificationReq.RecvUserID req
    /\ MsgData.GroupID m = BusinessNotificationReq.RecvGroupID req
    /\ ((MsgData.RecvID m <> "" /\ MsgData.GroupID m = ""
         /\ MsgData.SessionType m = constant.SingleChatType)
        \/ (MsgData.RecvID m = "" /\ MsgData.GroupID m <> ""
            /\ MsgData.SessionType m = constant.ReadGroupChatType))
    /\ MsgData.ContentType m = constant.BusinessNotification
    /\ MsgData.MsgFrom m = constant.SysMsgType
    /\ MsgData.Content m
       = notificationElemToJsonString E
           (keyDataToJsonString E (BusinessNotificationReq.Key req)
                                  (BusinessNotificationReq.Data req))
    /\ MsgData.Options m
       = GetOptionsByNotification E
           {| NotificationConfig.IsSendMsg :=
                BusinessNotificationReq.SendMsg req;
              NotificationConfig.ReliabilityLevel :=
                default 1%Z (BusinessNotificationReq.ReliabilityLevel req);
              NotificationConfig.UnreadCount := false |}.
Proof.
  unfold SendBusinessNotification_envelope. intros H.
  apply bind_inr in H as (w1 & req & Hbind & H).
  apply logged_inr in Hbind as [Hbind ->]. apply argsError_inr in Hbind.
  apply bind_inr in H as (w2 & u & Hc1 & H). apply require_inr in Hc1 as [Hc1 ->].
  apply bind_inr in H as (w3 & u' & Hc2 & H). apply require_inr in Hc2 as [Hc2 ->].
  apply bind_inr in H as (w4 & u'' & Hadm & H).
  apply require_inr in Hadm as [Hadm ->].
  apply ret_inr in H as [-> ->].
  apply negb_true_iff, bool_decide_eq_false in Hc1, Hc2.
  exists req. simpl. repeat split; try done.
  - destruct (decide (BusinessNotificationReq.RecvUserID req = "")) as [Hu|Hu],
      (decide (BusinessNotificationReq.RecvGroupID req = "")) as [Hg|Hg].
    + by destruct Hc1.
    + right. rewrite bool_decide_eq_false_2 by (intros Hne; by apply Hne).
      done.
    + left. by rewrite bool_decide_eq_true_2.
    + by destruct Hc2.
Qed.

(** A notification from "u1" to the user "u2". *)
Lemma SendBusinessNotification_envelope_addressing_witness :
  let E := Stub.env Stub.quiet in
  let c := Stub.context None Stub.businessBody "admin" in
  exists w' m,
    SendBusinessNotification_envelope E Stub.reading 1700000000000 c
      (initWorld E 0)
    = (w', inr m)
    /\ MsgData.RecvID m = "u2" /\ MsgData.GroupID m = ""
    /\ MsgData.SessionType m = constant.SingleChatType.
Proof.
  intros E c.
  destruct (SendBusinessNotification_envelope E Stub.reading 1700000000000 c
      (initWorld E 0))
    as [w' [e|m]] eqn:H; [by vm_compute in H|].
  exists w', m. split; [done|].
  destruct (SendBusinessNotification_envelope_addressing E Stub.reading _ _ _ _
      _ H)
    as (req & Hbind & _ & _ & Hr & Hg & Haddr & _).
  vm_compute in Hbind. injection Hbind as <-. simpl in Hr, Hg.
  rewrite Hr, Hg in *.
  destruct Haddr as [(_ & _ & Hs) | (Hempty & _)]; [done|discriminate Hempty].
Defined.

(** X7: a business notification that names neither a user nor a group, or
    both, is refused as an argument error once the body is bound, before
    the caller's privilege is looked at and without a call to the
    backend. *)
Theorem SendBusinessNotification_addressing_errors
    (E : Env) (draw : Entropy E) (now : Z) (c : Context.t) (w : World E)
    (req : BusinessNotificationReq.t) :
  bindBusinessNotificationReq E (Context.Body c) = inr req ->
  (BusinessNotificationReq.RecvUserID req = "" ->
   BusinessNotificationReq.RecvGroupID req = "" ->
   SendBusinessNotification E draw now c w
   = (addCall EvBindJSON w,
      GinError (ErrWrap (ErrArgs "")
         "recvUserID and recvGroupID cannot be empty at the same time")))
  /\ (BusinessNotificationReq.RecvUserID req <> "" ->
      BusinessNotificationReq.RecvGroupID req <> "" ->
      SendBusinessNotification E draw now c w
      = (addCall EvBindJSON w,
         GinError (ErrWrap (ErrArgs "")
            "recvUserID and recvGroupID cannot be set at the same time"))).
Proof.
  intros Hbind.
  unfold SendBusinessNotification, SendBusinessNotification_envelope, respond,
    bind, logged, require, ret, throw.
  rewrite Hbind; simpl. split; intros Hu Hg.
  - by rewrite bool_decide_eq_true_2.
  - rewrite bool_decide_eq_false_2 by (intros [? _]; done). simpl.
    by rewrite bool_decide_eq_true_2.
Qed.

(** The request of the concrete environment with the group "g1" added to
    the user "u2", sent by a caller who is no app manager. *)
Lemma SendBusinessNotification_addressing_errors_witness :
  let E0 := Stub.env Stub.quiet in
  let both := BusinessNotificationReq.mk "k" "d" "u1" "u2" "g1" false None in
  let E := mkEnv (Services E0) (rpcSendMsg E0) (rpcSendSimpleMsg E0)
             (rpcSetSendMsgStatus E0) (rpcGetAllUserIDs E0)
             (rpcGetNotificationByID E0) (bindSendMsgReq E0)
             (bindBatchSendMsgReq E0) (bindSendSingleMsgReq E0)
             (fun _ => inr both)
             (base64DecodeString E0) (jsonUnmarshalKeyMsgData E0)
             (WeakDecode E0) (validateStruct E0) (contentToJsonString E0)
             (notificationElemToJsonString E0) (keyDataToJsonString E0)
             (JsonMarshalMarkdownTextElem E0) (Entropy E0) (GetMsgIDByMD5 E0)
             (GetOptionsByNotification E0) (SendMsgResp_Fields E0)
             (MsgData_Fields E0) in
  SendBusinessNotification E Stub.reading 1700000000000 (Context.mk ∅ "" false
      "u7")
    (initWorld E 0)
  = (addCall EvBindJSON (initWorld E 0),
     GinError (ErrWrap (ErrArgs "")
        "recvUserID and recvGroupID cannot be set at the same time")).
Proof.
  intros E0 both E.
  apply (proj2 (SendBusinessNotification_addressing_errors E Stub.reading
      1700000000000
                  (Context.mk ∅ "" false "u7") (initWorld E 0) both eq_refl));
    done.
Defined.

(** ** Privilege. *)

(** X8: for a caller who is no app manager, single send, batch send and
    business-notification send bind the body and stop: the answer is the
    binding error, or the permission error when the body binds (for a
    business notification an addressing error comes first), and neither the
    backend nor the directory nor the user service has been called. *)
Theorem unprivileged_caller_reaches_no_service
    (E : Env) (draw : Entropy E) (fuel : nat) (now : Z) (c : Context.t)
    (w : World E) :
  Context.IsAdmin c = false ->
  SendMessage E draw now c w
  = (addCall EvBindJSON w,
     GinError (match bindSendMsgReq E (Context.Body c) with
               | inl text => ErrArgs text
               | inr _ => onlyAppManager
               end))
  /\ BatchSendMsg E draw fuel now c w
     = Some (addCall EvBindJSON w,
             GinError (match bindBatchSendMsgReq E (Context.Body c) with
                       | inl text => ErrArgs text
                       | inr _ => onlyAppManager
                       end))
  /\ SendBusinessNotification E draw now c w
     = (addCall EvBindJSON w,
        GinError
          (match bindBusinessNotificationReq E (Context.Body c) with
           | inl text => ErrArgs text
           | inr req =>
               let recvUserID := BusinessNotificationReq.RecvUserID req in
               let recvGroupID := BusinessNotificationReq.RecvGroupID req in
               if bool_decide (recvUserID = "" /\ recvGroupID = "") then
                 ErrWrap (ErrArgs "")
                   "recvUserID and recvGroupID cannot be empty at the same time"
               else if bool_decide (recvUserID <> "" /\ recvGroupID <> "") then
                 ErrWrap (ErrArgs "")
                   "recvUserID and recvGroupID cannot be set at the same time"
               else onlyAppManager
           end)).
Proof.
  intros Hadm. split; [|split].
  - unfold SendMessage, SendMessage_envelope, respond, bind, logged, require,
      throw. rewrite Hadm.
    by destruct (bindSendMsgReq E (Context.Body c)).
  - unfold BatchSendMsg, bind, logged, require, throw. rewrite Hadm.
    by destruct (bindBatchSendMsgReq E (Context.Body c)).
  - unfold SendBusinessNotification, SendBusinessNotification_envelope,
      respond, bind, logged, require, throw, ret. rewrite Hadm.
    destruct (bindBusinessNotificationReq E (Context.Body c)) as [text|req];
      simpl; [done|].
    by repeat (case_bool_decide; simpl).
Qed.

(** A well-formed single send by the user "u7". *)
Lemma unprivileged_caller_reaches_no_service_witness :
  let E := Stub.env Stub.quiet in
  SendMessage E Stub.reading 1700000000000 (Context.mk ∅ Stub.textBody false
      "u7")
    (initWorld E 0)
  = (addCall EvBindJSON (initWorld E 0), GinError onlyAppManager).
Proof.
  intros E.
  apply (proj1 (unprivileged_caller_reaches_no_service E Stub.reading 0
      1700000000000
                  (Context.mk ∅ Stub.textBody false "u7") (initWorld E 0)
                  eq_refl)).
Defined.

(** ** Quick send. *)

(** X10: the envelope of a quick send has a sender, and is addressed to
    exactly one of a user and a group, with the session type saying which;
    it is a user-originated Markdown text sent from the admin platform,
    with no option set, no identity of the sender beyond the ID, and the
    offline push information and the extension of the body. *)
Theorem SendSimpleMessage_envelope_addressing
    (E : Env) (draw : Entropy E) (c : Context.t) (w w' : World E) (m :
        MsgData.t) :
  SendSimpleMessage_envelope E draw c w = (w', inr m) ->
  MsgData.SendID m <> ""
  /\ ((MsgData.RecvID m <> "" /\ MsgData.GroupID m = ""
       /\ MsgData.SessionType m = constant.SingleChatType)
      \/ (MsgData.RecvID m = "" /\ MsgData.GroupID m <> ""
          /\ MsgData.SessionType m = constant.ReadGroupChatType))
  /\ MsgData.ContentType m = constant.MarkdownText
  /\ MsgData.MsgFrom m = constant.UserMsgType
  /\ MsgData.SenderPlatformID m = constant.AdminPlatformID
  /\ MsgData.Options m = ∅
  /\ MsgData.SenderNickname m = "" /\ MsgData.SenderFaceURL m = ""
  /\ exists req,
       bindSendSingleMsgReq E (Context.Body c) = inr req
       /\ JsonMarshalMarkdownTextElem E (SendSingleMsgReq.Content req)
          = inr (MsgData.Content m)
       /\ MsgData.OfflinePushInfo m = SendSingleMsgReq.OfflinePushInfo req
       /\ MsgData.Ex m = SendSingleMsgReq.Ex req.
Proof.
  intros H.
  apply SendSimpleMessage_envelope_inr in H
    as (encodedKey & decodedData & req & keyMsgData & content
        & _ & _ & Hbind & _ & Hrecv & Hsend & Hjs & -> & _).
  unfold simpleMsgData; simpl. split; [done|].
  split; [|do 6 (split; [done|]); by exists req].
  revert Hsend. unfold simpleRouting. case_bool_decide as Hg; simpl; intros Hs.
  - by right.
  - left. repeat split; [done|].
    destruct (decide (KeyMsgData.GroupID keyMsgData = "")); [done|].
    by destruct Hg.
Qed.

(** The quick send to the group "g1". *)
Lemma SendSimpleMessage_envelope_addressing_witness :
  let E := Stub.env Stub.quiet in
  let c := Stub.context (Some Stub.groupKey) Stub.groupQuickBody "admin" in
  exists w' m,
    SendSimpleMessage_envelope E Stub.reading c (initWorld E 0) = (w', inr m)
    /\ MsgData.SendID m <> ""
    /\ MsgData.ContentType m = constant.MarkdownText.
Proof.
  intros E c.
  destruct (SendSimpleMessage_envelope E Stub.reading c (initWorld E 0)) as [w'
      [e|m]] eqn:H;
    [by vm_compute in H|].
  exists w', m. split; [done|].
  destruct (SendSimpleMessage_envelope_addressing E Stub.reading c _ _ _ H)
    as (Hs & _ & Hct & _).
  done.
Defined.

(** X11: quick send gets as far as an envelope exactly when the query has a
    key that decodes and parses to a routing structure with a sender ID,
    the body binds, the routing leaves a non-empty sender, and the content
    serializes. *)
Theorem SendSimpleMessage_envelope_iff
    (E : Env) (draw : Entropy E) (c : Context.t) (w : World E) :
  (exists w' m, SendSimpleMessage_envelope E draw c w = (w', inr m))
  <-> exists encodedKey decodedData req keyMsgData content,
        Context.Query c !! webhook.Key = Some encodedKey
        /\ base64DecodeString E encodedKey = inr decodedData
        /\ bindSendSingleMsgReq E (Context.Body c) = inr req
        /\ jsonUnmarshalKeyMsgData E decodedData = inr keyMsgData
        /\ KeyMsgData.SendID keyMsgData <> ""
        /\ (simpleRouting keyMsgData req).1.1 <> ""
        /\ JsonMarshalMarkdownTextElem E (SendSingleMsgReq.Content req)
           = inr content.
Proof.
  split.
  - intros (w' & m & H).
    apply SendSimpleMessage_envelope_inr in H
      as (encodedKey & decodedData & req & keyMsgData & content & H).
    exists encodedKey, decodedData, req, keyMsgData, content. tauto.
  - intros (encodedKey & decodedData & req & keyMsgData & content
            & Hq & Hb64 & Hbind & Hun & Hrecv & Hsend & Hjs).
    unfold SendSimpleMessage_envelope, bind, logged, require, ret, throw,
      argsError.
    rewrite Hq; simpl. rewrite Hb64; simpl. rewrite Hbind; simpl.
    rewrite Hun; simpl.
    destruct (simpleRouting keyMsgData req) as [[sendID sessionType] recvID].
    simpl in Hsend.
    rewrite !bool_decide_eq_false_2 by done. simpl. rewrite Hjs.
    by eauto.
Qed.

(** X12: the failures of quick send that are not the key's.  Without a key
    in the query the request fails at once, nothing has run.  With a
    routing structure that has a sender ID but leaves the envelope without
    a sender (a group key with no sender in the body, a direct key with no
    recipient ID), it fails with "missing sendID" before the content is
    serialized.  A content that does not serialize fails it with the
    serializer's error, and the backend has not been called. *)
Theorem SendSimpleMessage_late_errors
    (E : Env) (draw : Entropy E) (c : Context.t) (w : World E) :
  (Context.Query c !! webhook.Key = None ->
   SendSimpleMessage E draw c w = (w, GinError (ErrArgs
       "missing key in query")))
  /\ forall encodedKey decodedData req keyMsgData,
       Context.Query c !! webhook.Key = Some encodedKey ->
       base64DecodeString E encodedKey = inr decodedData ->
       bindSendSingleMsgReq E (Context.Body c) = inr req ->
       jsonUnmarshalKeyMsgData E decodedData = inr keyMsgData ->
       KeyMsgData.SendID keyMsgData <> "" ->
       let w3 := addCall (EvUnmarshalKey decodedData)
                   (addCall EvBindJSON
                      (addCall (EvBase64Decode encodedKey) w)) in
       ((simpleRouting keyMsgData req).1.1 = "" ->
        SendSimpleMessage E draw c w
        = (w3, GinError (ErrArgs "missing sendID")))
       /\ forall err,
            (simpleRouting keyMsgData req).1.1 <> "" ->
            JsonMarshalMarkdownTextElem E (SendSingleMsgReq.Content req)
            = inl err ->
            SendSimpleMessage E draw c w
            = (addCall (EvJsonMarshal (SendSingleMsgReq.Content req)) w3,
               GinError (ErrWrap err "")).
Proof.
  split.
  - intros Hq.
    unfold SendSimpleMessage, SendSimpleMessage_envelope, respond, bind, throw.
    by rewrite Hq.
  - intros encodedKey decodedData req keyMsgData Hq Hb64 Hbind Hun Hrecv w3.
    subst w3.
    unfold SendSimpleMessage, SendSimpleMessage_envelope, respond, bind,
      logged, require, ret, throw, argsError.
    rewrite Hq; simpl. rewrite Hb64; simpl. rewrite Hbind; simpl.
    rewrite Hun; simpl.
    destruct (simpleRouting keyMsgData req) as [[sendID sessionType] recvID].
    simpl. rewrite (bool_decide_eq_false_2 _ Hrecv). simpl. split.
    + intros ->. by rewrite bool_decide_eq_true_2.
    + intros err Hsend Hjs. rewrite (bool_decide_eq_false_2 _ Hsend). simpl.
      by rewrite Hjs.
Qed.

(** A quick send without key, on a body that would bind; and a quick send
    to a group whose body names no sender. *)
Lemma SendSimpleMessage_late_errors_witness :
  let E := Stub.env Stub.quiet in
  SendSimpleMessage E Stub.reading (Stub.context None Stub.quickBody "admin")
    (initWorld E 0)
  = (initWorld E 0, GinError (ErrArgs "missing key in query"))
  /\ snd (SendSimpleMessage E Stub.reading
            (Stub.context (Some Stub.groupKey) Stub.quickBody "admin")
            (initWorld E 0))
     = GinError (ErrArgs "missing sendID").
Proof.
  intros E. split.
  - apply (proj1 (SendSimpleMessage_late_errors E Stub.reading
                    (Stub.context None Stub.quickBody "admin")
                    (initWorld E 0))).
    reflexivity.
  - rewrite (proj1 (proj2 (SendSimpleMessage_late_errors E Stub.reading
                             (Stub.context (Some Stub.groupKey) Stub.quickBody
                                "admin")
                             (initWorld E 0))
                      Stub.groupKey Stub.groupKeyData
                      (SendSingleMsgReq.mk "" "hello" None "")
                      (KeyMsgData.mk "u1" "" "g1")
                      eq_refl eq_refl eq_refl eq_refl ltac:(done))
               eq_refl).
    reflexivity.
Defined.

(** ** More on batch send. *)

Lemma set_RecvID_twice (r r' : string) (m : MsgData.t) :
  MsgData.set_RecvID r (MsgData.set_RecvID r' m) = MsgData.set_RecvID r m.
Proof. done. Qed.

Lemma getModifyFields_log (E : Env) (req resp : option MsgData.t)
    (w : World E) :
  services (fst (getModifyFields E req resp w)) = services w
  /\ exists evs,
      calls (fst (getModifyFields E req resp w)) = (calls w ++ evs)%list
      /\ (evs = [] \/ evs = [EvDeriveDescriptor]).
Proof.
  unfold getModifyFields, getMsgDataDescriptor.
  destruct req as [req|], resp as [resp|];
    try (split; [done|]; exists []; rewrite app_nil_r; by auto).
  destruct (msgDataDescriptorOnce w); simpl; (split; [done|]).
  - exists []. rewrite app_nil_r. by auto.
  - exists [EvDeriveDescriptor]. by auto.
Qed.

Lemma sent_app (evs evs' : list Event) :
  sent (evs ++ evs') = (sent evs ++ sent evs')%list.
Proof. apply omap_app. Qed.

(** The send loop accounts for every recipient, whatever the backend
    answers: each one is submitted once, in order, with the template as the
    envelope, and ends up among the failed IDs or among the results. *)
Lemma sendLoop_accounts
    (E : Env) (sendMsgReq : MsgData.t) (recvIDs : list string)
    (resp : BatchSendMsgResp.t) (w : World E) :
  let out := sendLoop E sendMsgReq recvIDs resp w in
  exists failed results evs,
    BatchSendMsgResp.FailedIDs (snd out)
    = (BatchSendMsgResp.FailedIDs resp ++ failed)%list
    /\ BatchSendMsgResp.Results (snd out)
       = (BatchSendMsgResp.Results resp ++ results)%list
    /\ failed `sublist_of` recvIDs
    /\ map SingleReturnResult.RecvID results `sublist_of` recvIDs
    /\ (failed ++ map SingleReturnResult.RecvID results)%list ≡ₚ recvIDs
    /\ calls (fst out) = (calls w ++ evs)%list
    /\ sent evs = map (fun recvID => MsgData.set_RecvID recvID sendMsgReq) recvIDs.
Proof.
  revert sendMsgReq resp w.
  induction recvIDs as [|recvID rest IH]; intros sendMsgReq resp w; simpl.
  - exists [], [], []. by rewrite !app_nil_r.
  - unfold rpc.
    destruct (rpcSendMsg E (MsgData.set_RecvID recvID sendMsgReq) (services w))
      as [s' [err|rpcResp]].
    + edestruct IH as (failed & results & evs & Hf & Hr & Hsf & Hsr & Hp & Hc & Hs).
      rewrite Hf, Hr, Hc. simpl.
      exists (recvID :: failed), results,
        (EvSendMsg (MsgData.set_RecvID recvID sendMsgReq) :: evs).
      rewrite <- !app_assoc. simpl. rewrite Hs.
      repeat split; try done.
      * by apply sublist_skip.
      * by apply sublist_cons.
      * by f_equiv.
    + destruct (getModifyFields_log E
                  (Some (MsgData.set_RecvID recvID sendMsgReq))
                  (SendMsgResp.Modify rpcResp)
                  (setServices s'
                     (addCall (EvSendMsg (MsgData.set_RecvID recvID sendMsgReq)) w)))
        as (_ & evs0 & Hc0 & Hevs0).
      destruct (getModifyFields E _ _ _) as [w2 modify]. simpl in Hc0.
      edestruct IH as (failed & results & evs & Hf & Hr & Hsf & Hsr & Hp & Hc & Hs).
      rewrite Hf, Hr, Hc, Hc0. simpl.
      eexists failed, (_ :: results),
        (EvSendMsg (MsgData.set_RecvID recvID sendMsgReq) :: evs0 ++ evs)%list.
      rewrite <- !app_assoc. simpl. rewrite sent_app, Hs.
      repeat split; try done.
      * by apply sublist_cons.
      * by apply sublist_skip.
      * rewrite <- Permutation_middle. by f_equiv.
      * by destruct Hevs0 as [-> | ->].
Qed.

(** X13: once the recipients are resolved and the template envelope is
    built, batch send answers with success whatever the backend does with
    the submissions, even when it refuses them all.  The failed IDs and the
    recipients of the results each keep the order of the recipient list and
    together are the recipient list, so their numbers add up to its length;
    and the envelopes submitted are, in order, the template with each
    recipient substituted. *)
Theorem BatchSendMsg_accounts_for_every_recipient
    (E : Env) (draw : Entropy E) (fuel : nat) (now : Z) (c : Context.t) (w w2
        w3 : World E)
    (req : BatchSendMsgReq.t) (recvIDs : list string) (m : MsgData.t) :
  bindBatchSendMsgReq E (Context.Body c) = inr req ->
  Context.IsAdmin c = true ->
  resolveRecvIDs E fuel req (addCall EvBindJSON w) = Some (w2, inr recvIDs) ->
  getSendMsgReq E draw now (BatchSendMsgReq.SendMsg req) w2 = (w3, inr m) ->
  exists w' resp evs,
    BatchSendMsg E draw fuel now c w = Some (w', GinSuccess resp)
    /\ BatchSendMsgResp.FailedIDs resp `sublist_of` recvIDs
    /\ map SingleReturnResult.RecvID (BatchSendMsgResp.Results resp)
       `sublist_of` recvIDs
    /\ (BatchSendMsgResp.FailedIDs resp
        ++ map SingleReturnResult.RecvID (BatchSendMsgResp.Results resp))%list
       ≡ₚ recvIDs
    /\ length (BatchSendMsgResp.FailedIDs resp)
       + length (BatchSendMsgResp.Results resp) = length recvIDs
    /\ calls w' = (calls w3 ++ evs)%list
    /\ sent evs = map (fun recvID => MsgData.set_RecvID recvID m) recvIDs.
Proof.
  intros Hbind Hadm Hres Htpl.
  destruct (sendLoop_accounts E m recvIDs emptyBatchResp w3)
    as (failed & results & evs & Hf & Hr & Hsf & Hsr & Hp & Hc & Hs).
  simpl in Hf, Hr.
  destruct (sendLoop E m recvIDs emptyBatchResp w3) as [w' resp] eqn:Hloop.
  simpl in *. exists w', resp, evs.
  unfold BatchSendMsg, bind, logged, require, ret. rewrite Hbind, Hadm. simpl.
  rewrite Hres. unfold respond, bind. rewrite Htpl. unfold lift.
  rewrite Hloop. rewrite Hf, Hr. repeat split; try done.
  apply Permutation_length in Hp.
  by rewrite length_app, length_map in Hp.
Qed.

(** A batch to three recipients, all of whom the backend refuses. *)
Lemma BatchSendMsg_accounts_for_every_recipient_witness :
  let E := Stub.env Stub.deaf in
  let c := Stub.context None Stub.batchBody "admin" in
  exists w' resp,
    BatchSendMsg E Stub.reading 0 1700000000000 c (initWorld E 0)
    = Some (w', GinSuccess resp)
    /\ length (BatchSendMsgResp.FailedIDs resp)
       + length (BatchSendMsgResp.Results resp) = 3
    /\ BatchSendMsgResp.Results resp = [].
Proof.
  intros E c.
  destruct
      (getSendMsgReq E Stub.reading 1700000000000 (Stub.sendMsg false false 0)
              (addCall EvBindJSON (initWorld E 0)))
    as [w3 [e|m]] eqn:Hget; [by vm_compute in Hget|].
  destruct (BatchSendMsg_accounts_for_every_recipient E Stub.reading 0
      1700000000000 c
              (initWorld E 0) (addCall EvBindJSON (initWorld E 0)) w3
              (BatchSendMsgReq.mk (Stub.sendMsg false false 0) false
                 ["u2"; "u3"; "u4"])
              ["u2"; "u3"; "u4"] m eq_refl eq_refl eq_refl Hget)
    as (w' & resp & evs & Hrun & _ & _ & _ & Hl & _).
  exists w', resp. repeat split; [done..|].
  vm_compute in Hrun. by simplify_eq.
Defined.

(** ** What a handler calls. *)
Section Only.

Context {E : Env}.
Variable P : Event -> bool.

Lemma only_refl (w : World E) : only P w w.
Proof. exists []. by rewrite app_nil_r. Qed.

Lemma only_addCall (w0 : World E) ev w :
  P ev = true -> only P w0 w -> only P w0 (addCall ev w).
Proof.
  intros Hev (evs & Hevs & HP). exists (evs ++ [ev])%list. simpl.
  rewrite Hevs, app_assoc, forallb_app, HP. simpl. by rewrite Hev.
Qed.

Lemma only_setServices (w0 : World E) s w :
  only P w0 w -> only P w0 (setServices s w).
Proof. done. Qed.

Lemma only_getModifyFields (w0 : World E) req resp w :
  P EvDeriveDescriptor = true ->
  only P w0 w -> only P w0 (fst (getModifyFields E req resp w)).
Proof.
  intros HP (evs & Hevs & Hall).
  destruct (getModifyFields_log E req resp w) as (_ & evs' & Hc & Hevs').
  exists (evs ++ evs')%list. rewrite Hc, Hevs, app_assoc, forallb_app, Hall.
  split; [done|]. destruct Hevs' as [-> | ->]; simpl; [done|by rewrite HP].
Qed.

Lemma only_logged {A : Type} w0 (ev : Event) (r : Error + A) :
  P ev = true -> keeps (only P w0) (logged E ev r).
Proof. intros Hev w Hw. by apply only_addCall. Qed.

Lemma only_rpc {A : Type} w0 (ev : Event)
    (f : Services E -> Services E * (Error + A)) :
  P ev = true -> keeps (only P w0) (rpc E ev f).
Proof.
  intros Hev w Hw. unfold rpc. destruct (f (services w)) as [s' r]; simpl.
  by apply only_setServices, only_addCall.
Qed.

Lemma only_rpcErr w0 (ev : Event)
    (f : Services E -> Services E * option Error) :
  P ev = true -> keeps (only P w0) (rpcErr E ev f).
Proof. intros Hev. by apply only_rpc. Qed.

Lemma only_getSendMsgReq (draw : Entropy E) w0 (now : Z) (req : SendMsg.t) :
  (forall id, P (EvGetNotificationByID id) = true) ->
  keeps (only P w0) (getSendMsgReq E draw now req).
Proof.
  intros HP. unfold getSendMsgReq, selectElem.
  apply keeps_bind.
  - repeat case_bool_decide;
      try apply keeps_ret; try apply keeps_throw.
    apply keeps_bind; [by apply only_rpcErr | intros ?; apply keeps_ret].
  - intros [kind req'].
    destruct (WeakDecode E (SendMsg.Content req') kind); [apply keeps_throw|].
    destruct (validateStruct E _); [apply keeps_throw | apply keeps_ret].
Qed.

Lemma only_ginRespSendMsg w0 (req : MsgData.t) (resp : SendMsgResp.t) :
  P EvDeriveDescriptor = true ->
  keeps (only P w0) (ginRespSendMsg E req resp).
Proof.
  intros HP. unfold ginRespSendMsg.
  apply keeps_bind; [|intros ?; apply keeps_ret].
  apply keeps_lift. intros w Hw. by apply only_getModifyFields.
Qed.

Lemma only_recordAndRespond w0 (req : MsgData.t) (resp : SendMsgResp.t) :
  P EvDeriveDescriptor = true ->
  (forall status, P (EvSetSendMsgStatus status) = true) ->
  keeps (only P w0) (recordAndRespond E req resp).
Proof.
  intros HP Hst. unfold recordAndRespond.
  apply keeps_bind; [by apply only_rpcErr|intros ?].
  by apply only_ginRespSendMsg.
Qed.

Lemma only_sendLoop w0 (sendMsgReq : MsgData.t) (recvIDs : list string)
    (resp : BatchSendMsgResp.t) (w : World E) :
  P EvDeriveDescriptor = true ->
  (forall m, P (EvSendMsg m) = true) ->
  only P w0 w -> only P w0 (fst (sendLoop E sendMsgReq recvIDs resp w)).
Proof.
  intros HP Hsend. revert sendMsgReq resp w.
  induction recvIDs as [|recvID rest IH]; intros sendMsgReq resp w Hw; simpl.
  - done.
  - pose proof (only_rpc w0
                  (EvSendMsg (MsgData.set_RecvID recvID sendMsgReq))
                  (rpcSendMsg E (MsgData.set_RecvID recvID sendMsgReq))
                  (Hsend _) w Hw) as H1.
    destruct (rpc E _ _ w) as [w1 [e|rpcResp]]; simpl in H1.
    + by apply IH.
    + pose proof (only_getModifyFields w0
                    (Some (MsgData.set_RecvID recvID sendMsgReq))
                    (SendMsgResp.Modify rpcResp) w1 HP H1) as H2.
      destruct (getModifyFields E _ _ w1) as [w2 modify]. by apply IH.
Qed.

Lemma only_getAllUserIDsLoop w0 (fuel : nat) (pageNumber : Z)
    (recvIDs : list string) (w w' : World E) r :
  (forall pageNumber showNumber,
      P (EvGetAllUserIDs pageNumber showNumber) = true) ->
  getAllUserIDsLoop E fuel pageNumber recvIDs w = Some (w', r) ->
  only P w0 w -> only P w0 w'.
Proof.
  intros HP. revert pageNumber recvIDs w.
  induction fuel as [|fuel IH]; intros pageNumber recvIDs w; simpl; [done|].
  intros H Hw.
  pose proof (only_rpc w0 (EvGetAllUserIDs pageNumber showNumber)
                (rpcGetAllUserIDs E pageNumber showNumber) (HP _ _) w Hw) as H1.
  destruct (rpc E _ _ w) as [w1 [e|part]]; simpl in H1.
  - by simplify_eq.
  - destruct (Z.of_nat (length part) <? showNumber)%Z.
    + by simplify_eq.
    + by eapply IH.
Qed.

End Only.

Ltac only_steps :=
  repeat first
    [ apply keeps_ret | apply keeps_throw | apply keeps_require
    | apply only_logged; reflexivity
    | apply only_rpc; reflexivity
    | apply only_rpcErr; reflexivity
    | apply only_getSendMsgReq; intros ?; reflexivity
    | apply only_ginRespSendMsg; reflexivity
    | apply only_recordAndRespond; [reflexivity | intros ?; reflexivity]
    | apply keeps_bind; [|intros ?]
    | case_bool_decide
    | match goal with
      | |- keeps _ (match ?x with _ => _ end) => destruct x
      | |- keeps _ (let '(_, _) := ?x in _) => destruct x
      end ].

(** X17: each handler calls only the services it is written with.  Single
    send never pages through the directory; a business notification is not
    checked against the notification accounts, and neither it nor batch
    send records a delivery status; quick send submits through its own call
    and never through [SendMsg]; and only quick send decodes a key. *)
Theorem handlers_call_only_their_services
    (E : Env) (draw : Entropy E) (now : Z) (c : Context.t) (w : World E) :
  only (footprint HSendMessage) w (fst (SendMessage E draw now c w))
  /\ only (footprint HSendBusinessNotification) w
       (fst (SendBusinessNotification E draw now c w))
  /\ only (footprint HSendSimpleMessage) w (fst (SendSimpleMessage E draw c w))
  /\ forall fuel,
       match BatchSendMsg E draw fuel now c w with
       | Some (w', _) => only (footprint HBatchSendMsg) w w'
       | None => True
       end.
Proof.
  split; [|split; [|split]].
  - unfold SendMessage.
    apply (keeps_respond (only (footprint HSendMessage) w));
      [|apply only_refl].
    unfold SendMessage_envelope. only_steps.
  - unfold SendBusinessNotification.
    apply (keeps_respond (only (footprint HSendBusinessNotification) w));
      [|apply only_refl].
    unfold SendBusinessNotification_envelope. only_steps.
  - unfold SendSimpleMessage.
    apply (keeps_respond (only (footprint HSendSimpleMessage) w));
      [|apply only_refl].
    unfold SendSimpleMessage_envelope. only_steps.
  - intros fuel. unfold BatchSendMsg.
    assert (keeps (only (footprint HBatchSendMsg) w)
              (bind E (logged E EvBindJSON
                         (argsError (bindBatchSendMsgReq E (Context.Body c))))
                 (fun req => bind E (require E (Context.IsAdmin c) onlyAppManager)
                               (fun _ => ret E req)))) as H1 by only_steps.
    specialize (H1 w (only_refl _ w)).
    destruct (bind E _ _ w) as [w1 [e|req]]; simpl in H1; [done|].
    assert (forall recvIDs w2,
               only (footprint HBatchSendMsg) w w2 ->
               only (footprint HBatchSendMsg) w
                 (fst (respond E
                         (bind E (getSendMsgReq E draw now
                             (BatchSendMsgReq.SendMsg req))
                            (fun sendMsgReq =>
                               lift E (sendLoop E sendMsgReq recvIDs
                                         emptyBatchResp))) w2))) as Hsend.
    { intros recvIDs w2 Hw2.
      apply (keeps_respond (only (footprint HBatchSendMsg) w)); [|done].
      apply keeps_bind; [by apply only_getSendMsgReq|intros m].
      apply keeps_lift. intros w3 Hw3. by apply only_sendLoop. }
    unfold resolveRecvIDs.
    destruct (BatchSendMsgReq.IsSendAll req).
    + destruct (getAllUserIDsLoop E fuel 1 [] w1) as [[w2 [e|recvIDs]]|] eqn:Hloop;
        [| |done];
        (assert (only (footprint HBatchSendMsg) w w2) as Hw2
           by (eapply only_getAllUserIDsLoop; [|exact Hloop|exact H1]; done)).
      * done.
      * specialize (Hsend recvIDs w2 Hw2). by destruct (respond E _ w2).
    + specialize (Hsend (BatchSendMsgReq.RecvIDs req) w1 H1).
      by destruct (respond E _ w1).
Qed.

(** X14: when batch send answers with an error, no message has been
    submitted and no diff has been taken (the descriptor cache is as it
    was): the error comes from binding the body, from the privilege check,
    from the directory or from building the template, all of which precede
    the first submission. *)
Theorem BatchSendMsg_error_sends_nothing
    (E : Env) (draw : Entropy E) (fuel : nat) (now : Z) (c : Context.t)
    (w w' : World E) (e : Error) :
  BatchSendMsg E draw fuel now c w = Some (w', GinError e) ->
  only (fun ev => negb (isSubmission ev)) w w'
  /\ msgDataDescriptorOnce w' = msgDataDescriptorOnce w
  /\ msgDataDescriptor w' = msgDataDescriptor w.
Proof.
  set (P := fun ev => negb (isSubmission ev)).
  set (C := fun w1 : World E =>
              msgDataDescriptorOnce w1 = msgDataDescriptorOnce w
              /\ msgDataDescriptor w1 = msgDataDescriptor w).
  set (I := fun w1 : World E => only P w w1 /\ C w1).
  assert (forall ev w1, P ev = true -> isDerive ev = false ->
                        I w1 -> I (addCall ev w1)) as I_addCall.
  { intros ev w1 HP _ [H1 H2]. split; [by apply only_addCall | done]. }
  assert (I w) as Hw by (split; [apply only_refl | done]).
  unfold BatchSendMsg, bind, logged, require, ret, throw.
  specialize (I_addCall EvBindJSON w eq_refl eq_refl Hw).
  destruct (argsError (bindBatchSendMsgReq E (Context.Body c))) as [e1|req];
    [by intros [= <- <-]|].
  destruct (Context.IsAdmin c); [|by intros [= <- <-]].
  set (w1 := addCall EvBindJSON w) in *.
  assert (forall w2 r, resolveRecvIDs E fuel req w1 = Some (w2, r) -> I w2)
    as Hres.
  { unfold resolveRecvIDs. intros w2 r.
    destruct (BatchSendMsgReq.IsSendAll req); [|by intros [= <- <-]].
    intros Hloop. split.
    - eapply only_getAllUserIDsLoop; [|exact Hloop|apply I_addCall]. done.
    - eapply (inv_getAllUserIDsLoop C); [| |exact Hloop|apply I_addCall]; done. }
  destruct (resolveRecvIDs E fuel req w1) as [[w2 [e2|recvIDs]]|] eqn:Hr;
    [| |done].
  - intros [= <- <-]. by eapply Hres.
  - specialize (Hres w2 _ eq_refl) as [Ho Hd].
    unfold respond, bind.
    pose proof (only_getSendMsgReq P draw w now (BatchSendMsgReq.SendMsg req)
                  (fun _ => eq_refl) w2 Ho) as H3.
    pose proof (keeps_getSendMsgReq C ltac:(done) ltac:(done) draw now
                  (BatchSendMsgReq.SendMsg req) w2 Hd) as H4.
    destruct (getSendMsgReq E draw now (BatchSendMsgReq.SendMsg req) w2)
      as [w3 [e3|m]]; simpl in *.
    + by intros [= <- <-].
    + unfold lift. by destruct (sendLoop E m recvIDs emptyBatchResp w3).
Qed.

(** A broadcast against a directory that is down after its first page. *)
Lemma BatchSendMsg_error_sends_nothing_witness :
  let E := Stub.failing in
  let c := Stub.context None Stub.broadcastBody "admin" in
  exists w' e,
    BatchSendMsg E Stub.reading 2 1700000000000 c (initWorld E 0) = Some (w',
        GinError e)
    /\ only (fun ev => negb (isSubmission ev)) (initWorld E 0) w'.
Proof.
  intros E c.
  destruct (BatchSendMsg E Stub.reading 2 1700000000000 c (initWorld E 0))
    as [[w' [e|r]]|] eqn:H; [|by vm_compute in H..].
  exists w', e. split; [done|].
  apply (BatchSendMsg_error_sends_nothing E Stub.reading 2 1700000000000 c _ _
      _ H).
Defined.

(** ** More on paging through the directory. *)

Lemma pageNumberAt_S (j : nat) :
  wrap32 (pageNumberAt j + 1) = pageNumberAt (S j).
Proof. done. Qed.

(** The paging loop over a run of full pages: it asks for each of them and
    goes on with the IDs collected. *)
Lemma getAllUserIDsLoop_fullPages (E : Env) (s : Services E) (j : nat)
    (pages : list (list string)) (s' : Services E) :
  fullPages s j pages s' ->
  forall (fuel : nat) (recvIDs : list string) (w : World E),
    services w = s ->
    getAllUserIDsLoop E (length pages + fuel) (pageNumberAt j) recvIDs w
    = getAllUserIDsLoop E fuel (pageNumberAt (j + length pages))
        (recvIDs ++ concat pages)
        (mkWorld E s' (msgDataDescriptor w) (msgDataDescriptorOnce w)
           (calls w ++ map requestAt (seq j (length pages)))).
Proof.
  induction 1 as [s j | s j ids s' rest s'' Hrpc Hfull Hrest IH];
    intros fuel recvIDs w Hs; simpl.
  - rewrite Nat.add_0_r, !app_nil_r. subst s. by destruct w.
  - unfold rpc. rewrite Hs, Hrpc.
    apply Z.ltb_ge in Hfull. rewrite Hfull, pageNumberAt_S.
    rewrite IH by done. simpl.
    by rewrite <- !app_assoc, Nat.add_succ_r.
Qed.

(** X15: when the directory fails after any number of full pages, batch
    send answers with the directory's error: the IDs collected so far are
    dropped, the template is not built and nothing is submitted; the log
    shows the binding and the page requests, the failed one last. *)
Theorem BatchSendMsg_directory_error
    (E : Env) (draw : Entropy E) (fuel : nat) (now : Z) (c : Context.t)
    (w : World E)
    (req : BatchSendMsgReq.t) (pages : list (list string))
    (s' s'' : Services E) (err : Error) :
  bindBatchSendMsgReq E (Context.Body c) = inr req ->
  Context.IsAdmin c = true ->
  BatchSendMsgReq.IsSendAll req = true ->
  fullPages (services w) 0 pages s' ->
  rpcGetAllUserIDs E (pageNumberAt (length pages)) showNumber s'
  = (s'', inl err) ->
  length pages < fuel ->
  BatchSendMsg E draw fuel now c w
  = Some (mkWorld E s'' (msgDataDescriptor w) (msgDataDescriptorOnce w)
            (calls w ++ EvBindJSON
                        :: map requestAt (seq 0 (S (length pages)))),
          GinError err).
Proof.
  intros Hbind Hadm Hall Hpages Herr Hfuel.
  rewrite seq_S, map_app.
  unfold BatchSendMsg, bind, logged, require, ret. rewrite Hbind, Hadm. simpl.
  unfold resolveRecvIDs. rewrite Hall.
  replace fuel with (length pages + S (fuel - S (length pages))) by lia.
  change 1%Z with (pageNumberAt 0).
  rewrite (getAllUserIDsLoop_fullPages E _ _ _ _ Hpages) by done.
  simpl. unfold rpc. simpl. rewrite Herr. simpl.
  unfold setServices, addCall; simpl. by rewrite <- !app_assoc.
Qed.

(** The same broadcast: one full page, then the error. *)
Lemma BatchSendMsg_directory_error_witness :
  let E := Stub.failing in
  let c := Stub.context None Stub.broadcastBody "admin" in
  BatchSendMsg E Stub.reading 2 1700000000000 c (initWorld E 0)
  = Some (mkWorld E 2 [] false
            [EvBindJSON; EvGetAllUserIDs 1 500; EvGetAllUserIDs 2 500],
          GinError (ErrExternal "rpc: user service unavailable")).
Proof.
  intros E c.
  apply (BatchSendMsg_directory_error E Stub.reading 2 1700000000000 c
      (initWorld E 0)
           (BatchSendMsgReq.mk (Stub.sendMsg false false 0) true [])
           [Stub.fullPage] 1 2).
  - reflexivity.
  - reflexivity.
  - reflexivity.
  - eapply fullPages_cons; [reflexivity | by vm_compute | apply fullPages_nil].
  - reflexivity.
  - simpl. lia.
Defined.

(** X16: the paging loop has no bound of its own.  Against a directory
    whose every answer is a full page, "send to all" asks for page after
    page and never answers: no number of page requests is enough. *)
Theorem BatchSendMsg_endless_directory
    (E : Env) (draw : Entropy E) (now : Z) (c : Context.t) (w : World E)
    (req : BatchSendMsgReq.t) :
  bindBatchSendMsgReq E (Context.Body c) = inr req ->
  Context.IsAdmin c = true ->
  BatchSendMsgReq.IsSendAll req = true ->
  (forall pageNumber s,
      exists s' ids,
        rpcGetAllUserIDs E pageNumber showNumber s = (s', inr ids)
        /\ (showNumber <= Z.of_nat (length ids))%Z) ->
  forall fuel, BatchSendMsg E draw fuel now c w = None.
Proof.
  intros Hbind Hadm Hall Hfull fuel.
  assert (forall fuel pageNumber recvIDs (w1 : World E),
             getAllUserIDsLoop E fuel pageNumber recvIDs w1 = None) as Hloop.
  { clear fuel. induction fuel as [|fuel IH]; intros pageNumber recvIDs w1;
      simpl; [done|].
    unfold rpc.
    destruct (Hfull pageNumber (services w1)) as (s' & ids & -> & Hlen).
    apply Z.ltb_ge in Hlen. by rewrite Hlen. }
  unfold BatchSendMsg, bind, logged, require, ret. rewrite Hbind, Hadm. simpl.
  unfold resolveRecvIDs. by rewrite Hall, Hloop.
Qed.

(** A broadcast against the directory without end. *)
Lemma BatchSendMsg_endless_directory_witness :
  let E := Stub.endless in
  let c := Stub.context None Stub.broadcastBody "admin" in
  BatchSendMsg E Stub.reading 1000 1700000000000 c (initWorld E 0) = None.
Proof.
  intros E c.
  apply (BatchSendMsg_endless_directory E Stub.reading 1700000000000 c
      (initWorld E 0)
           (BatchSendMsgReq.mk (Stub.sendMsg false false 0) true [])).
  - reflexivity.
  - reflexivity.
  - reflexivity.
  - intros pageNumber s. exists s, Stub.fullPage. split; [done|by vm_compute].
Defined.

(** ** More on the diff. *)

Lemma modifyStep_lookup_ne (req resp : MsgData.t) (acc : gmap string Value)
    (d : FieldDescriptor) (name : string) :
  JSONName d <> name -> modifyStep req resp acc d !! name = acc !! name.
Proof.
  intros Hne. unfold modifyStep.
  destruct (negb _); [|done]. by rewrite lookup_insert_ne.
Qed.

Lemma modifyLoop_acc_lookup_other (descriptors : list FieldDescriptor)
    (req resp : MsgData.t) (acc : gmap string Value) (name : string) :
  name ∉ JSONName <$> descriptors ->
  foldl (modifyStep req resp) acc descriptors !! name = acc !! name.
Proof.
  revert acc. induction descriptors as [|d rest IH]; intros acc Hn; simpl.
  - done.
  - rewrite fmap_cons in Hn. apply not_elem_of_cons in Hn as [Hne Hn].
    rewrite IH by done. by apply modifyStep_lookup_ne.
Qed.

Lemma modifyLoop_acc_lookup (descriptors : list FieldDescriptor)
    (req resp : MsgData.t) (acc : gmap string Value) (d : FieldDescriptor) :
  NoDup (JSONName <$> descriptors) ->
  d ∈ descriptors ->
  foldl (modifyStep req resp) acc descriptors !! JSONName d
  = if Value_Equal (ProtoGet req d) (ProtoGet resp d) then acc !! JSONName d
    else Some (rendered (JSONName d) (ProtoGet resp d)).
Proof.
  revert acc. induction descriptors as [|d' rest IH]; intros acc Hnd Hd; simpl.
  - by apply elem_of_nil in Hd.
  - rewrite fmap_cons in Hnd. apply NoDup_cons in Hnd as [Hnotin Hnd].
    apply elem_of_cons in Hd as [-> | Hd].
    + rewrite modifyLoop_acc_lookup_other by done.
      unfold modifyStep, rendered.
      destruct (Value_Equal (ProtoGet req d') (ProtoGet resp d')); simpl;
        [done|]. by rewrite lookup_insert_eq.
    + rewrite IH by done.
      destruct (Value_Equal (ProtoGet req d) (ProtoGet resp d)); [|done].
      apply modifyStep_lookup_ne. intros Heq. apply Hnotin. rewrite Heq.
      by apply list_elem_of_fmap_2.
Qed.

Lemma default_nilIfEmpty (fields : gmap string Value) :
  default ∅ (nilIfEmpty fields) = fields.
Proof. unfold nilIfEmpty. by case_bool_decide. Qed.

(** X18: the diff is exact on the fields it compares.  When the JSON names
    of the envelope's fields are distinct, as they are in a protocol
    message, a field with a JSON name outside the skip set is reported
    exactly when its two values differ, and then with the backend's value,
    the content bytes as text. *)
Theorem getModifyFields_reports_every_change
    (E : Env) (w : World E) (req resp : MsgData.t) (d : FieldDescriptor) :
  reachable w ->
  NoDup (JSONName <$> MsgData_Fields E) ->
  d ∈ MsgData_Fields E ->
  HasJSONName d = true ->
  JSONName d ∉ skipSet (SendMsgResp_Fields E) ->
  default ∅ (snd (getModifyFields E (Some req) (Some resp) w)) !! JSONName d
  = if Value_Equal (ProtoGet req d) (ProtoGet resp d) then None
    else Some (rendered (JSONName d) (ProtoGet resp d)).
Proof.
  intros Hw Hnd Hd Hj Hskip.
  rewrite getModifyFields_sound by by apply reachable_cacheOK.
  rewrite default_nilIfEmpty. unfold modifyLoop.
  rewrite modifyLoop_acc_lookup.
  - by rewrite lookup_empty.
  - rewrite deriveMsgDataDescriptor_filter.
    eapply sublist_NoDup; [exact Hnd|].
    apply fmap_sublist, sublist_filter.
  - rewrite deriveMsgDataDescriptor_filter. apply list_elem_of_filter. done.
Qed.

(** A backend that substitutes the content: the diff reports it as text. *)
Lemma getModifyFields_reports_every_change_witness :
  let cfg := Stub.mkConfig [] false true [] in
  let E := Stub.env cfg in
  let req := newUserSendMsgReq E Stub.reading 1700000000000
      (Stub.sendMsg false false 0)
               (Elem.mk TextElem []) in
  let ack := Stub.acknowledged cfg req in
  default ∅ (snd (getModifyFields E (Some req) (Some ack) (initWorld E 0)))
    !! "content"
  = Some (VString "***").
Proof.
  intros cfg E req ack.
  apply (getModifyFields_reports_every_change E (initWorld E 0) req ack
           (mkFD 12 true "content")).
  - apply reach_init.
  - refine (bool_decide_unpack _ _). by vm_compute.
  - refine (bool_decide_unpack _ _). by vm_compute.
  - reflexivity.
  - refine (bool_decide_unpack _ _). by vm_compute.
Defined.

Lemma modifyLoop_acc_empty (descriptors : list FieldDescriptor)
    (req resp : MsgData.t) (acc : gmap string Value) :
  foldl (modifyStep req resp) acc descriptors = ∅ ->
  acc = ∅
  /\ Forall (fun d => Value_Equal (ProtoGet req d) (ProtoGet resp d) = true)
       descriptors.
Proof.
  revert acc. induction descriptors as [|d rest IH]; intros acc; simpl.
  - done.
  - intros H. apply IH in H as [H Hrest]. unfold modifyStep in H.
    destruct (Value_Equal (ProtoGet req d) (ProtoGet resp d)) eqn:Heq;
      simpl in H.
    + split; [done|]. by constructor.
    + by apply insert_non_empty in H.
Qed.

(** X19: the diff is absent exactly when the acknowledgment echoes every
    compared field. *)
Theorem getModifyFields_absent_iff_echo
    (E : Env) (w : World E) (req resp : MsgData.t) :
  reachable w ->
  snd (getModifyFields E (Some req) (Some resp) w) = None
  <-> Forall (fun d => Value_Equal (ProtoGet req d) (ProtoGet resp d) = true)
        (deriveMsgDataDescriptor (SendMsgResp_Fields E) (MsgData_Fields E)).
Proof.
  intros Hw%reachable_cacheOK.
  rewrite getModifyFields_sound by done. unfold modifyLoop, nilIfEmpty. split.
  - case_bool_decide as Hempty; [|done]. intros _.
    by apply modifyLoop_acc_empty in Hempty as [_ H].
  - intros Hecho. rewrite modifyLoop_acc_equal; [done|].
    intros d Hd. rewrite Forall_forall in Hecho. by apply Hecho.
Qed.

(** The same backend does not echo the envelope. *)
Lemma getModifyFields_absent_iff_echo_witness :
  let cfg := Stub.mkConfig [] false true [] in
  let E := Stub.env cfg in
  let req := newUserSendMsgReq E Stub.reading 1700000000000
      (Stub.sendMsg false false 0)
               (Elem.mk TextElem []) in
  let ack := Stub.acknowledged cfg req in
  ~ Forall (fun d => Value_Equal (ProtoGet req d) (ProtoGet ack d) = true)
      (deriveMsgDataDescriptor (SendMsgResp_Fields E) (MsgData_Fields E)).
Proof.
  intros cfg E req ack Hecho.
  apply (getModifyFields_absent_iff_echo E (initWorld E 0) req ack) in Hecho.
  - by vm_compute in Hecho.
  - apply reach_init.
Defined.

(** ** The diff in the answers. *)

Lemma getModifyFields_skips (E : Env) (w : World E)
    (req resp : option MsgData.t) :
  cacheOK w -> skipsAcknowledgment E (snd (getModifyFields E req resp w)).
Proof.
  intros Hw fields field Hm Hfield Hj.
  destruct req as [req|], resp as [resp|]; try done.
  rewrite getModifyFields_sound in Hm by done.
  apply nilIfEmpty_Some in Hm as [-> _].
  destruct (modifyLoop _ req resp !! JSONName field) as [v|] eqn:Hv; [|done].
  apply mk_is_Some, modifyLoop_key in Hv as (d & Hd & Hn & _).
  apply deriveMsgDataDescriptor_elem in Hd as (_ & _ & Hout).
  destruct Hout. rewrite Hn. apply skipSet_spec. by exists field.
Qed.

Lemma ginRespSendMsg_skips (E : Env) (m : MsgData.t) (respPb : SendMsgResp.t)
    (w w' : World E) (r : ApiSendMsgResp.t) :
  cacheOK w ->
  ginRespSendMsg E m respPb w = (w', inr r) ->
  skipsAcknowledgment E (ApiSendMsgResp.Modify r)
  /\ SendMsgResp.Modify (ApiSendMsgResp.SendMsgResp r) = None.
Proof.
  intros Hw. unfold ginRespSendMsg, bind, lift, ret.
  pose proof (getModifyFields_skips E w (Some m) (SendMsgResp.Modify respPb) Hw)
    as Hskip.
  destruct (getModifyFields E _ _ w) as [w1 modify]. by intros [= <- <-].
Qed.

Lemma recordAndRespond_skips (E : Env) (m : MsgData.t)
    (respPb : SendMsgResp.t) (w w' : World E) (r : ApiSendMsgResp.t) :
  cacheOK w ->
  recordAndRespond E m respPb w = (w', inr r) ->
  skipsAcknowledgment E (ApiSendMsgResp.Modify r)
  /\ SendMsgResp.Modify (ApiSendMsgResp.SendMsgResp r) = None.
Proof.
  intros Hw H. unfold recordAndRespond in H.
  apply bind_inr in H as (w1 & u & Hst & H).
  eapply ginRespSendMsg_skips; [|exact H].
  pose proof (keeps_rpcErr cacheOK cacheOK_addCall cacheOK_setServices
                (EvSetSendMsgStatus constant.MsgSendSuccessed)
                (rpcSetSendMsgStatus E constant.MsgSendSuccessed) eq_refl w Hw)
    as H1.
  by rewrite Hst in H1.
Qed.

Lemma sendLoop_skips (E : Env) (sendMsgReq : MsgData.t)
    (recvIDs : list string) (resp : BatchSendMsgResp.t) (w : World E) :
  cacheOK w ->
  Forall (fun res => skipsAcknowledgment E (SingleReturnResult.Modify res))
    (BatchSendMsgResp.Results resp) ->
  Forall (fun res => skipsAcknowledgment E (SingleReturnResult.Modify res))
    (BatchSendMsgResp.Results (snd (sendLoop E sendMsgReq recvIDs resp w))).
Proof.
  revert sendMsgReq resp w.
  induction recvIDs as [|recvID rest IH]; intros sendMsgReq resp w Hw Hres;
    simpl; [done|].
  pose proof (keeps_rpc cacheOK cacheOK_addCall cacheOK_setServices
                (EvSendMsg (MsgData.set_RecvID recvID sendMsgReq))
                (rpcSendMsg E (MsgData.set_RecvID recvID sendMsgReq))
                eq_refl w Hw) as H1.
  destruct (rpc E _ _ w) as [w1 [e|rpcResp]]; simpl in H1.
  - by apply IH.
  - pose proof (getModifyFields_skips E w1
                  (Some (MsgData.set_RecvID recvID sendMsgReq))
                  (SendMsgResp.Modify rpcResp) H1) as Hskip.
    pose proof (cacheOK_getModifyFields
                  (Some (MsgData.set_RecvID recvID sendMsgReq))
                  (SendMsgResp.Modify rpcResp) w1 H1) as H2.
    destruct (getModifyFields E _ _ w1) as [w2 modify]. apply IH; [done|].
    simpl. apply Forall_app. split; [done|]. by constructor.
Qed.

(** X20: in every state of the process, the diff in a success answer of
    single send, business-notification send and quick send, and in every
    result of a batch send, reports no field of the acknowledgment
    structure; and the acknowledgment's own [Modify] is cleared in the
    answer. *)
Theorem success_answers_skip_acknowledgment_fields
    (E : Env) (draw : Entropy E) (now : Z) (c : Context.t) (w w' : World E) :
  reachable w ->
  (forall r,
      SendMessage E draw now c w = (w', GinSuccess r)
      \/ SendBusinessNotification E draw now c w = (w', GinSuccess r)
      \/ SendSimpleMessage E draw c w = (w', GinSuccess r) ->
      skipsAcknowledgment E (ApiSendMsgResp.Modify r)
      /\ SendMsgResp.Modify (ApiSendMsgResp.SendMsgResp r) = None)
  /\ forall fuel r,
       BatchSendMsg E draw fuel now c w = Some (w', GinSuccess r) ->
       Forall (fun res => skipsAcknowledgment E (SingleReturnResult.Modify res))
         (BatchSendMsgResp.Results r).
Proof.
  intros Hw%reachable_cacheOK. split.
  - intros r [H | [H | H]].
    + unfold SendMessage, respond in H.
      destruct (bind E _ _ w) as [w1 [e|r1]] eqn:Hrun; [done|].
      injection H as <- <-.
      apply bind_inr in Hrun as (w2 & m & Henv & Hrun).
      apply bind_inr in Hrun as (w3 & respPb & Hrpc & Hrun).
      eapply recordAndRespond_skips; [|exact Hrun].
      pose proof (keeps_SendMessage_envelope cacheOK cacheOK_addCall
                    cacheOK_setServices draw now c w Hw) as H2.
      rewrite Henv in H2.
      pose proof (keeps_rpc cacheOK cacheOK_addCall cacheOK_setServices
                    (EvSendMsg m) (rpcSendMsg E m) eq_refl w2 H2) as H3.
      by rewrite Hrpc in H3.
    + unfold SendBusinessNotification, respond in H.
      destruct (bind E _ _ w) as [w1 [e|r1]] eqn:Hrun; [done|].
      injection H as <- <-.
      apply bind_inr in Hrun as (w2 & m & Henv & Hrun).
      apply bind_inr in Hrun as (w3 & respPb & Hrpc & Hrun).
      eapply ginRespSendMsg_skips; [|exact Hrun].
      pose proof (keeps_SendBusinessNotification_envelope cacheOK
                    cacheOK_addCall draw now c w Hw) as H2.
      rewrite Henv in H2.
      pose proof (keeps_rpc cacheOK cacheOK_addCall cacheOK_setServices
                    (EvSendMsg m) (rpcSendMsg E m) eq_refl w2 H2) as H3.
      by rewrite Hrpc in H3.
    + unfold SendSimpleMessage, respond in H.
      destruct (bind E _ _ w) as [w1 [e|r1]] eqn:Hrun; [done|].
      injection H as <- <-.
      apply bind_inr in Hrun as (w2 & m & Henv & Hrun).
      apply bind_inr in Hrun as (w3 & respPb & Hrpc & Hrun).
      eapply recordAndRespond_skips; [|exact Hrun].
      pose proof (keeps_SendSimpleMessage_envelope cacheOK cacheOK_addCall
                    draw c w Hw) as H2.
      rewrite Henv in H2.
      pose proof (keeps_rpc cacheOK cacheOK_addCall cacheOK_setServices
                    (EvSendSimpleMsg m) (rpcSendSimpleMsg E m) eq_refl w2 H2)
        as H3.
      by rewrite Hrpc in H3.
  - intros fuel r H. unfold BatchSendMsg in H.
    destruct (bind E _ _ w) as [w1 [e|req]] eqn:Hrun; [done|].
    assert (cacheOK w1) as Hw1.
    { apply bind_inr in Hrun as (w2 & req' & Hb & Hrun).
      apply logged_inr in Hb as [_ ->].
      apply bind_inr in Hrun as (w3 & u & Hreq & Hrun).
      apply require_inr in Hreq as [_ ->]. apply ret_inr in Hrun as [-> _].
      by apply cacheOK_addCall. }
    destruct (resolveRecvIDs E fuel req w1) as [[w2 [e|recvIDs]]|] eqn:Hres;
      [done| |done].
    assert (cacheOK w2) as Hw2.
    { unfold resolveRecvIDs in Hres.
      destruct (BatchSendMsgReq.IsSendAll req); [|by simplify_eq].
      eapply (inv_getAllUserIDsLoop cacheOK); [| |exact Hres|exact Hw1].
      - apply cacheOK_addCall.
      - apply cacheOK_setServices. }
    unfold respond in H.
    destruct (bind E _ _ w2) as [w3 [e|r1]] eqn:Hsend; [done|].
    injection H as <- <-.
    apply bind_inr in Hsend as (w4 & m & Htpl & Hsend).
    pose proof (keeps_getSendMsgReq cacheOK cacheOK_addCall cacheOK_setServices
                  draw now (BatchSendMsgReq.SendMsg req) w2 Hw2) as Hw4.
    rewrite Htpl in Hw4. simpl in Hw4. unfold lift in Hsend.
    pose proof (sendLoop_skips E m recvIDs emptyBatchResp w4 Hw4
                  ltac:(by constructor)) as Hall.
    destruct (sendLoop E m recvIDs emptyBatchResp w4) as [w5 resp].
    by injection Hsend as <- <-.
Qed.

(** A single send to the backend that substitutes the content. *)
Lemma success_answers_skip_acknowledgment_fields_witness :
  let E := Stub.env (Stub.mkConfig [] false true []) in
  let c := Stub.context None Stub.textBody "admin" in
  exists w' r,
    SendMessage E Stub.reading 1700000000000 c (initWorld E 0) = (w',
        GinSuccess r)
    /\ ApiSendMsgResp.Modify r = Some {[ "content" := VString "***" ]}
    /\ skipsAcknowledgment E (ApiSendMsgResp.Modify r).
Proof.
  intros E c.
  destruct (SendMessage E Stub.reading 1700000000000 c (initWorld E 0)) as [w'
      [e|r]] eqn:H;
    [by vm_compute in H|].
  exists w', r. split; [done|]. split.
  - vm_compute in H. by simplify_eq.
  - apply (proj1 (success_answers_skip_acknowledgment_fields E Stub.reading
      1700000000000 c
                    (initWorld E 0) w' (reach_init (E := E) 0)) r).
    by left.
Defined.

(** X21: the option flag set of the envelope the builder makes, key by
    key: offline push is false when the request suppresses it; history,
    persistence, sender sync and conversation update are false when the
    request is online-only; no other key is set, and no key is ever set to
    true. *)
Theorem newUserSendMsgReq_Options
    (E : Env) (draw : Entropy E) (now : Z) (params : SendMsg.t) (data : Elem.t)
        (key : string) :
  MsgData.Options (newUserSendMsgReq E draw now params data) !! key
  = if bool_decide (key = constant.IsOfflinePush) then
      if SendMsg.NotOfflinePush params then Some false else None
    else if bool_decide (key ∈ [constant.IsHistory; constant.IsPersistent;
                                constant.IsSenderSync;
                                constant.IsConversationUpdate]) then
      if SendMsg.IsOnlineOnly params then Some false else None
    else None.
Proof.
  simpl. unfold applyToggles, SetSwitchFromOptions.
  destruct (SendMsg.NotOfflinePush params), (SendMsg.IsOnlineOnly params);
    case_bool_decide as Hk; subst;
    rewrite ?lookup_insert_eq, ?lookup_insert_ne by done;
    rewrite ?SetOptions_lookup, ?lookup_empty; try done;
    by case_bool_decide.
Qed.

(** ** The answer to a submission. *)

(** X22: when the backend refuses the submission, single send,
    business-notification send and quick send answer with the backend's
    error; the submission is the last call in the log: no delivery status
    is recorded and no diff is taken. *)
Theorem refused_submission_is_the_answer (E : Env) (draw : Entropy E) :
  (forall now c w w1 m s2 err,
      SendMessage_envelope E draw now c w = (w1, inr m) ->
      rpcSendMsg E m (services w1) = (s2, inl err) ->
      SendMessage E draw now c w
      = (setServices s2 (addCall (EvSendMsg m) w1), GinError err))
  /\ (forall now c w w1 m s2 err,
         SendBusinessNotification_envelope E draw now c w = (w1, inr m) ->
         rpcSendMsg E m (services w1) = (s2, inl err) ->
         SendBusinessNotification E draw now c w
         = (setServices s2 (addCall (EvSendMsg m) w1), GinError err))
  /\ (forall c w w1 m s2 err,
         SendSimpleMessage_envelope E draw c w = (w1, inr m) ->
         rpcSendSimpleMsg E m (services w1) = (s2, inl err) ->
         SendSimpleMessage E draw c w
         = (setServices s2 (addCall (EvSendSimpleMsg m) w1), GinError err)).
Proof.
  split; [|split].
  - intros now c w w1 m s2 err Henv Hsend.
    unfold SendMessage, respond. rewrite (bind_ok _ _ _ _ _ Henv).
    unfold bind, rpc. by rewrite Hsend.
  - intros now c w w1 m s2 err Henv Hsend.
    unfold SendBusinessNotification, respond. rewrite (bind_ok _ _ _ _ _ Henv).
    unfold bind, rpc. by rewrite Hsend.
  - intros c w w1 m s2 err Henv Hsend.
    unfold SendSimpleMessage, respond. rewrite (bind_ok _ _ _ _ _ Henv).
    unfold bind, rpc. by rewrite Hsend.
Qed.

(** A business notification to "u2", whom the backend refuses. *)
Lemma refused_submission_is_the_answer_witness :
  let E := Stub.env (Stub.mkConfig ["u2"] false false []) in
  let c := Stub.context None Stub.businessBody "admin" in
  exists w',
    SendBusinessNotification E Stub.reading 1700000000000 c (initWorld E 0)
    = (w', GinError (ErrExternal "rpc: recipient refused")).
Proof.
  intros E c.
  destruct (SendBusinessNotification_envelope E Stub.reading 1700000000000 c
      (initWorld E 0))
    as [w1 [e|m]] eqn:Henv; [by vm_compute in Henv|].
  eexists.
  apply (proj1 (proj2 (refused_submission_is_the_answer E Stub.reading))
           1700000000000%Z c (initWorld E 0) w1 m 1 _ Henv).
  vm_compute in Henv. by simplify_eq.
Defined.

(** X23: the success answer repeats the server message ID, the client
    message ID and the send time of the backend's acknowledgment, with the
    acknowledgment's [Modify] cleared, and carries the diff of the envelope
    against it.  Single send and quick send answer so once the delivery
    status is recorded; business-notification send answers so right after
    the accepted submission, whatever the status service would say. *)
Theorem accepted_submission_is_answered (E : Env) (draw : Entropy E) :
  (forall now c w w1 m s2 respPb s3,
      SendMessage_envelope E draw now c w = (w1, inr m) ->
      rpcSendMsg E m (services w1) = (s2, inr respPb) ->
      rpcSetSendMsgStatus E constant.MsgSendSuccessed s2 = (s3, None) ->
      let w3 := setServices s3
                  (addCall (EvSetSendMsgStatus constant.MsgSendSuccessed)
                     (setServices s2 (addCall (EvSendMsg m) w1))) in
      SendMessage E draw now c w
      = (fst (getModifyFields E (Some m) (SendMsgResp.Modify respPb) w3),
         GinSuccess
           {| ApiSendMsgResp.SendMsgResp :=
                {| SendMsgResp.ServerMsgID := SendMsgResp.ServerMsgID respPb;
                   SendMsgResp.ClientMsgID := SendMsgResp.ClientMsgID respPb;
                   SendMsgResp.SendTime := SendMsgResp.SendTime respPb;
                   SendMsgResp.Modify := None |};
              ApiSendMsgResp.Modify :=
                snd (getModifyFields E (Some m) (SendMsgResp.Modify respPb)
                       w3) |}))
  /\ (forall now c w w1 m s2 respPb,
         SendBusinessNotification_envelope E draw now c w = (w1, inr m) ->
         rpcSendMsg E m (services w1) = (s2, inr respPb) ->
         let w2 := setServices s2 (addCall (EvSendMsg m) w1) in
         SendBusinessNotification E draw now c w
         = (fst (getModifyFields E (Some m) (SendMsgResp.Modify respPb) w2),
            GinSuccess
              {| ApiSendMsgResp.SendMsgResp :=
                   {| SendMsgResp.ServerMsgID := SendMsgResp.ServerMsgID respPb;
                      SendMsgResp.ClientMsgID := SendMsgResp.ClientMsgID respPb;
                      SendMsgResp.SendTime := SendMsgResp.SendTime respPb;
                      SendMsgResp.Modify := None |};
                 ApiSendMsgResp.Modify :=
                   snd (getModifyFields E (Some m) (SendMsgResp.Modify respPb)
                          w2) |}))
  /\ (forall c w w1 m s2 respPb s3,
         SendSimpleMessage_envelope E draw c w = (w1, inr m) ->
         rpcSendSimpleMsg E m (services w1) = (s2, inr respPb) ->
         rpcSetSendMsgStatus E constant.MsgSendSuccessed s2 = (s3, None) ->
         let w3 := setServices s3
                     (addCall (EvSetSendMsgStatus constant.MsgSendSuccessed)
                        (setServices s2 (addCall (EvSendSimpleMsg m) w1))) in
         SendSimpleMessage E draw c w
         = (fst (getModifyFields E (Some m) (SendMsgResp.Modify respPb) w3),
            GinSuccess
              {| ApiSendMsgResp.SendMsgResp :=
                   {| SendMsgResp.ServerMsgID := SendMsgResp.ServerMsgID respPb;
                      SendMsgResp.ClientMsgID := SendMsgResp.ClientMsgID respPb;
                      SendMsgResp.SendTime := SendMsgResp.SendTime respPb;
                      SendMsgResp.Modify := None |};
                 ApiSendMsgResp.Modify :=
                   snd (getModifyFields E (Some m) (SendMsgResp.Modify respPb)
                          w3) |})).
Proof.
  split; [|split].
  - intros now c w w1 m s2 respPb s3 Henv Hsend Hstatus w3. subst w3.
    unfold SendMessage, respond. rewrite (bind_ok _ _ _ _ _ Henv).
    unfold bind at 1, rpc at 1. rewrite Hsend.
    unfold recordAndRespond, bind, rpcErr, rpc. simpl. rewrite Hstatus.
    unfold ginRespSendMsg, bind, lift, ret.
    by destruct (getModifyFields E _ _ _).
  - intros now c w w1 m s2 respPb Henv Hsend w2. subst w2.
    unfold SendBusinessNotification, respond. rewrite (bind_ok _ _ _ _ _ Henv).
    unfold bind at 1, rpc at 1. rewrite Hsend.
    unfold ginRespSendMsg, bind, lift, ret.
    by destruct (getModifyFields E _ _ _).
  - intros c w w1 m s2 respPb s3 Henv Hsend Hstatus w3. subst w3.
    unfold SendSimpleMessage, respond. rewrite (bind_ok _ _ _ _ _ Henv).
    unfold bind at 1, rpc at 1. rewrite Hsend.
    unfold recordAndRespond, bind, rpcErr, rpc. simpl. rewrite Hstatus.
    unfold ginRespSendMsg, bind, lift, ret.
    by destruct (getModifyFields E _ _ _).
Qed.

(** A business notification against a status service that is down: it is
    answered with success. *)
Lemma accepted_submission_is_answered_witness :
  let E := Stub.env (Stub.mkConfig [] true false []) in
  let c := Stub.context None Stub.businessBody "admin" in
  exists w' r,
    SendBusinessNotification E Stub.reading 1700000000000 c (initWorld E 0)
    = (w', GinSuccess r)
    /\ SendMsgResp.ServerMsgID (ApiSendMsgResp.SendMsgResp r) = "srv-1".
Proof.
  intros E c.
  destruct (SendBusinessNotification_envelope E Stub.reading 1700000000000 c
      (initWorld E 0))
    as [w1 [e|m]] eqn:Henv; [by vm_compute in Henv|].
  destruct (rpcSendMsg E m (services w1)) as [s2 [err|respPb]] eqn:Hsend;
    [by vm_compute in Henv; simplify_eq|].
  eexists _, _. split.
  - apply (proj1 (proj2 (accepted_submission_is_answered E Stub.reading))
             1700000000000%Z c (initWorld E 0) w1 m s2 respPb Henv Hsend).
  - vm_compute in Henv. simplify_eq. vm_compute in Hsend. by simplify_eq.
Defined.
